(** * Access control and transactional consistency of the project-management API

    A shallow embedding of the controllers of the repository
    ([src/controllers/project.controller.js], [src/controllers/task.controller.js])
    and of the resolvers of [src/utils/helper.js], over an explicit model of
    the document store, followed by the properties of the specification
    that were checked against it. *)

From Stdlib Require Import List String Ascii Bool Arith NArith ZArith Lia.
Import ListNotations.
Local Open Scope string_scope.
Local Open Scope list_scope.

(* ===================================================================== *)
(** ** JavaScript strings *)
(* ===================================================================== *)

Module Js.

(** Strings are taken over the ASCII range.

    [String.prototype.toLowerCase], on the ASCII range. *)
Definition lower_ascii (c : ascii) : ascii :=
  let n := nat_of_ascii c in
  if ((65 <=? n) && (n <=? 90))%nat then ascii_of_nat (n + 32) else c.

Fixpoint toLowerCase (s : string) : string :=
  match s with
  | EmptyString => EmptyString
  | String c r => String (lower_ascii c) (toLowerCase r)
  end.

(** White space as [trim] understands it, on the ASCII range: TAB, LF, VT,
    FF, CR, SPACE. *)
Definition is_space (c : ascii) : bool :=
  let n := nat_of_ascii c in
  (((9 <=? n) && (n <=? 13)) || (n =? 32))%nat.

Fixpoint trimStart (s : string) : string :=
  match s with
  | EmptyString => EmptyString
  | String c r => if is_space c then trimStart r else s
  end.

Definition reverse (s : string) : string :=
  string_of_list_ascii (rev (list_ascii_of_string s)).

Definition trimEnd (s : string) : string := reverse (trimStart (reverse s)).

Definition trim (s : string) : string := trimEnd (trimStart s).

(** Truthiness of a string: only the empty string is falsy. *)
Definition nonempty (s : string) : bool :=
  match s with EmptyString => false | _ => true end.

(** Truthiness of a possibly [undefined] string. *)
Definition truthy (o : option string) : bool :=
  match o with Some s => nonempty s | None => false end.

(** [Array.prototype.includes] on an array of strings. *)
Definition includes (l : list string) (x : string) : bool :=
  existsb (String.eqb x) l.

(** [Array.prototype.join]. *)
Fixpoint join (sep : string) (l : list string) : string :=
match l with
| [] => ""
| [x] => x
| x :: r => x ++ sep ++ join sep r
end.

(** The digits of [parseInt(s, 10)]: leading white space, an optional
    sign, then the longest run of decimal digits, as the integer they
    denote; [None] when there is no digit. *)
Definition digit (c : ascii) : option Z :=
  let n := nat_of_ascii c in
  if ((48 <=? n) && (n <=? 57))%nat then Some (Z.of_nat (n - 48)) else None.

Fixpoint digits (acc : option Z) (s : string) : option Z :=
  match s with
  | EmptyString => acc
  | String c r =>
      match digit c with
      | Some d =>
          digits (Some (10 * match acc with Some a => a | None => 0 end + d)%Z) r
      | None => acc
      end
  end.

Definition integer_of (s : string) : option Z :=
  match trimStart s with
  | String "-" r => option_map Z.opp (digits None r)
  | String "+" r => digits None r
  | t => digits None t
  end.

(** A number that holds an integer. Numbers are doubles: a finite value is
    an integer the double format represents exactly, so every integer
    below [2 ^ 53] in magnitude and only some of the others. [-0] is not
    told apart from [0]. *)
Inductive number :=
| Fin (z : Z)
| Inf (negative : bool)
| NaN.

(** The number an integer denotes: the nearest double, ties to even, and
    an infinity from [2 ^ 1024] on. *)
Definition round (z : Z) : number :=
  let a := Z.abs z in
  if (a <? 2 ^ 53)%Z then Fin z
  else
    let e := (Z.log2 a - 52)%Z in
    let q := Z.shiftr a e in
    let r := (a mod 2 ^ e)%Z in
    let half := (2 ^ (e - 1))%Z in
    let q := if (half <? r)%Z || ((r =? half)%Z && Z.odd q)
             then (q + 1)%Z else q in
    let v := (q * 2 ^ e)%Z in
    if (2 ^ 1024 <=? v)%Z then Inf (z <? 0)%Z
    else Fin (if (z <? 0)%Z then (- v)%Z else v).

(** [parseInt(s, 10)]. *)
Definition parseInt (s : string) : number :=
  match integer_of s with
  | Some z => round z
  | None => NaN
  end.

(** [x > 0]. *)
Definition positive (x : number) : bool :=
  match x with
  | Fin z => (0 <? z)%Z
  | Inf negative => negb negative
  | NaN => false
  end.

(** [x || d]: [0] and [NaN] are falsy. *)
Definition or_else (x d : number) : number :=
  match x with
  | Fin z => if (z =? 0)%Z then d else x
  | Inf _ => x
  | NaN => d
  end.

(** [x - y]. *)
Definition sub (x y : number) : number :=
  match x, y with
  | Fin a, Fin b => round (a - b)
  | Fin _, Inf n => Inf (negb n)
  | Inf n, Fin _ => Inf n
  | Inf n, Inf m => if Bool.eqb n m then NaN else Inf n
  | _, _ => NaN
  end.

(** [x * y]. *)
Definition mul (x y : number) : number :=
  match x, y with
  | Fin a, Fin b => round (a * b)
  | Fin a, Inf n => if (a =? 0)%Z then NaN else Inf (xorb (a <? 0)%Z n)
  | Inf n, Fin b => if (b =? 0)%Z then NaN else Inf (xorb n (b <? 0)%Z)
  | Inf n, Inf m => Inf (xorb n m)
  | _, _ => NaN
  end.

(** The value a resolver hands back: [a && b] yields [null] when [a] is. *)
Inductive value := JNull | JBool (b : bool).

Definition is_true (v : value) : bool :=
  match v with JBool true => true | _ => false end.

End Js.

(* ===================================================================== *)
(** ** Constants ([src/utils/constants.js]) *)
(* ===================================================================== *)

Module UserRolesEnum.
Definition ADMIN := "admin".
Definition PROJECT_ADMIN := "project_admin".
Definition MEMBER := "member".
End UserRolesEnum.

Definition AvailableUserRoles : list string :=
  [UserRolesEnum.ADMIN; UserRolesEnum.PROJECT_ADMIN; UserRolesEnum.MEMBER].

Module TaskStatusEnum.
Definition TODO := "todo".
Definition PRIORITY := "priority".
Definition IN_PROGRESS := "in_progress".
Definition IN_REVIEW := "in_review".
Definition CANCELLED := "cancelled".
Definition DONE := "done".
End TaskStatusEnum.

Definition AvailableTaskStatus : list string :=
  [TaskStatusEnum.TODO; TaskStatusEnum.PRIORITY; TaskStatusEnum.IN_PROGRESS;
   TaskStatusEnum.IN_REVIEW; TaskStatusEnum.CANCELLED; TaskStatusEnum.DONE].

Module TaskPrioritiesEnum.
Definition LOW := "low".
Definition MEDIUM := "medium".
Definition HIGH := "high".
End TaskPrioritiesEnum.

Definition AvailableTaskPriorities : list string :=
  [TaskPrioritiesEnum.LOW; TaskPrioritiesEnum.MEDIUM; TaskPrioritiesEnum.HIGH].

(* ===================================================================== *)
(** ** Documents *)
(* ===================================================================== *)

(** An [ObjectId] of the store.  Identifiers that arrive in a request are
    strings: [Oid o] is a string that [mongoose.Types.ObjectId.isValid]
    accepts, identified with the id it casts to; [NotOid s] is any other
    string. Ids are compared in canonical form, the lower-case hexadecimal
    string an [ObjectId] prints as, so that [a.toString() === b.toString()]
    and [a.equals(b)] are the same test; the ids of the actor, of a task's
    project and of stored references are [ObjectId]s read from the store. *)
Definition ObjectId := N.
Bind Scope N_scope with ObjectId.

Inductive RawId :=
| Oid (o : ObjectId)
| NotOid (s : string).

Definition isValid (r : RawId) : bool :=
  match r with Oid _ => true | NotOid _ => false end.

(** [Project]: the fields the controllers read and write
    ([name], [description], [createdBy]). *)
Record Project := mkProject {
  p_id : ObjectId;
  p_name : string;
  p_description : string;
  p_createdBy : ObjectId }.

(** [projectMemberSchema]: [users], [project], [role]. *)
Record ProjectMember := mkMember {
  m_id : ObjectId;
  m_users : ObjectId;
  m_project : ObjectId;
  m_role : string }.

(** [taskSchema]; a date is its time value in milliseconds. *)
Record Task := mkTask {
  t_id : ObjectId;
  t_title : string;
  t_description : string;
  t_project : ObjectId;
  t_assignedTo : option ObjectId;
  t_assignedBy : ObjectId;
  t_status : string;
  t_priority : string;
  t_dueDate : option Z }.

(** [ProjectNote], as [createNote] writes it. *)
Record ProjectNote := mkNote {
  n_id : ObjectId;
  n_project : ObjectId;
  n_createdBy : ObjectId;
  n_content : string }.

Record User := mkUser {
  u_id : ObjectId;
  u_email : string;
  u_fullName : string }.

(** The collections. Documents are kept in insertion order, which is the
    order in which [findOne] meets them. *)
Record Db := mkDb {
  projects : list Project;
  members : list ProjectMember;
  tasks : list Task;
  notes : list ProjectNote;
  users : list User }.

(** A lean [ProjectMember] document after a projection: [_id] is always
    kept, every other path only when the projection names it. *)
Record MemberDoc := mkMemberDoc {
  d_id : ObjectId;
  d_users : option ObjectId;
  d_project : option ObjectId;
  d_role : option string }.

Definition select (fields : list string) (m : ProjectMember) : MemberDoc :=
  {| d_id := m_id m;
     d_users := if Js.includes fields "users" then Some (m_users m) else None;
     d_project := if Js.includes fields "project" then Some (m_project m) else None;
     d_role := if Js.includes fields "role" then Some (m_role m) else None |}.

(* ===================================================================== *)
(** ** The store: committed data, one transaction, injected faults *)
(* ===================================================================== *)

Inductive exn :=
| ApiError (statusCode : N) (message : string)
| MongoError (code : N)
| ValidationError (path : string)
| CastError (path : string)
| TypeError (message : string)
| SyntaxError (message : string)
| ReferenceError (message : string)
| StrictPopulateError (path : string)
| MongoTransactionError (message : string).

(** [db] is what reads outside a transaction see. [txn] is the working
    copy of the transaction in progress, if any. Every round trip to the
    store is numbered by [ticks]; [faults n = Some c] makes the [n]-th
    round trip fail with a driver error of code [c], before it has any
    effect. [nextId] is the source of fresh [_id]s. *)
Record World := mkWorld {
  db : Db;
  txn : option Db;
  ticks : nat;
  faults : nat -> option N;
  nextId : ObjectId }.

Definition set_db (d : Db) (w : World) : World :=
  mkWorld d (txn w) (ticks w) (faults w) (nextId w).
Definition set_txn (t : option Db) (w : World) : World :=
  mkWorld (db w) t (ticks w) (faults w) (nextId w).
Definition tick (w : World) : World :=
  mkWorld (db w) (txn w) (S (ticks w)) (faults w) (nextId w).
Definition bump (w : World) : World :=
  mkWorld (db w) (txn w) (ticks w) (faults w) (N.succ (nextId w)).

Inductive result (A : Type) :=
| Ok (a : A)
| Throw (e : exn).
Arguments Ok {A} a.
Arguments Throw {A} e.

(** Handlers are state transformers that either return or throw. *)
Definition M (A : Type) : Type := World -> result A * World.

Definition ret {A} (a : A) : M A := fun w => (Ok a, w).
Definition throw {A} (e : exn) : M A := fun w => (Throw e, w).
Definition bind {A B} (m : M A) (k : A -> M B) : M B :=
  fun w => match m w with
           | (Ok a, w') => k a w'
           | (Throw e, w') => (Throw e, w')
           end.
Definition try_catch {A} (m : M A) (h : exn -> M A) : M A :=
  fun w => match m w with
           | (Ok a, w') => (Ok a, w')
           | (Throw e, w') => h e w'
           end.

Declare Scope js_scope.
Delimit Scope js_scope with js.
Notation "x <- m ;; k" := (bind m (fun x => k))
  (at level 61, m at next level, right associativity) : js_scope.
Notation "m ;; k" := (bind m (fun _ => k))
  (at level 61, right associativity) : js_scope.
Notation "'try' m 'catch' h" := (try_catch m h)
  (at level 10, m at level 200, h at level 9) : js_scope.
Local Open Scope js_scope.

(** One round trip to the store. *)
Definition io : M unit :=
  fun w => match faults w (ticks w) with
           | Some c => (Throw (MongoError c), tick w)
           | None => (Ok tt, tick w)
           end.

(** Whether an operation carries the [session] option. *)
Inductive Session := NoSession | InSession.

(** The data an operation sees and changes: the transaction's working copy
    when it runs in a session with a transaction in progress, the
    committed data otherwise. *)
Definition view (s : Session) (w : World) : Db :=
  match s, txn w with
  | InSession, Some d => d
  | _, _ => db w
  end.

Definition put_view (s : Session) (d : Db) (w : World) : World :=
  match s, txn w with
  | InSession, Some _ => set_txn (Some d) w
  | _, _ => set_db d w
  end.

Definition read {A} (s : Session) (f : Db -> A) : M A :=
  io ;; fun w => (Ok (f (view s w)), w).

Definition write (s : Session) (f : Db -> Db) : M unit :=
  io ;; fun w => (Ok tt, put_view s (f (view s w)) w).

Definition freshId : M ObjectId :=
  fun w => (Ok (nextId w), bump w).

(** Sessions and transactions. *)
Definition startSession : M unit := io.

Definition startTransaction : M unit :=
  fun w => (Ok tt, set_txn (Some (db w)) w).

(** [session.commitTransaction()]. Once it is called the transaction is no
    longer in progress, also when the commit fails: its working copy is
    gone. *)
Definition commitTransaction : M unit :=
  fun w => match txn w with
           | Some d =>
               match io w with
               | (Ok _, w') => (Ok tt, set_txn None (set_db d w'))
               | (Throw e, w') => (Throw e, set_txn None w')
               end
           | None => (Throw (MongoTransactionError "No transaction started"), w)
           end.

(** [session.abortTransaction()]. The driver refuses it, before any round
    trip, when no transaction is in progress: after [commitTransaction]
    was called, whether or not the commit went through. *)
Definition abortTransaction : M unit :=
  fun w => match txn w with
           | Some _ => (io ;; fun w' => (Ok tt, set_txn None w')) w
           | None =>
               (Throw (MongoTransactionError
                         "Cannot call abortTransaction after calling commitTransaction"),
                w)
           end.

Definition endSession : M unit :=
  fun w => (Ok tt, set_txn None w).

(* ===================================================================== *)
(** ** Model operations *)
(* ===================================================================== *)

Definition with_projects (f : list Project -> list Project) (d : Db) : Db :=
  mkDb (f (projects d)) (members d) (tasks d) (notes d) (users d).
Definition with_members (f : list ProjectMember -> list ProjectMember) (d : Db) : Db :=
  mkDb (projects d) (f (members d)) (tasks d) (notes d) (users d).
Definition with_tasks (f : list Task -> list Task) (d : Db) : Db :=
  mkDb (projects d) (members d) (f (tasks d)) (notes d) (users d).

Definition insert_project (p : Project) : Db -> Db :=
  with_projects (fun l => l ++ [p]).
Definition insert_member (m : ProjectMember) : Db -> Db :=
  with_members (fun l => l ++ [m]).

(** Modelled from the spec: [models/project.model.js] is not among the
    sources. The data model makes a project's [name] unique, and
    [createProject] expects the driver's duplicate-key error (code 11000)
    from [Project.create]. *)
Definition name_taken (name : string) (d : Db) : bool :=
  existsb (fun p => String.eqb (p_name p) name) (projects d).

(** The document a collection holds under a given [_id], and the first
    membership row of a (project, user) pair. *)
Definition project_of (d : Db) (id : ObjectId) : option Project :=
  find (fun p => p_id p =? id)%N (projects d).

Definition task_of (d : Db) (id : ObjectId) : option Task :=
  find (fun t => t_id t =? id)%N (tasks d).

(** The filter [{ project: projectId, users: userId }]. *)
Definition member_of (project user : ObjectId) (m : ProjectMember) : bool :=
  ((m_project m =? project) && (m_users m =? user))%N.

Definition membership (d : Db) (project user : ObjectId) : option ProjectMember :=
  find (member_of project user) (members d).

Module ProjectModel.

Definition findById (id : ObjectId) (s : Session) : M (option Project) :=
  read s (fun d => project_of d id).

Definition create (name description : string) (createdBy : ObjectId)
           (s : Session) : M Project :=
  id <- freshId ;;
  io ;;
  fun w =>
    if name_taken name (view s w) then (Throw (MongoError 11000), w)
    else
      let p := mkProject id name description createdBy in
      (Ok p, put_view s (insert_project p (view s w)) w).

Definition findByIdAndDelete (id : ObjectId) (s : Session) : M unit :=
  write s (with_projects (filter (fun p => negb (p_id p =? id)%N))).

End ProjectModel.

Module ProjectMemberModel.

Definition findOne (project user : ObjectId) (s : Session)
  : M (option ProjectMember) :=
  read s (fun d => membership d project user).

(** The schema restricts [role] to [AvailableUserRoles]. *)
Definition create (user project : ObjectId) (role : string) (s : Session)
  : M ProjectMember :=
  id <- freshId ;;
  if Js.includes AvailableUserRoles role then
    io ;;
    fun w =>
      let m := mkMember id user project role in
      (Ok m, put_view s (insert_member m (view s w)) w)
  else throw (ValidationError "role").

Definition findByIdAndDelete (id : ObjectId) (s : Session) : M unit :=
  write s (with_members (filter (fun m => negb (m_id m =? id)%N))).

Definition deleteMany (project : ObjectId) (s : Session) : M unit :=
  write s (with_members (filter (fun m => negb (m_project m =? project)%N))).

(** [doc.save()]: the stored document with the same [_id] is replaced. *)
Definition save (doc : ProjectMember) : M ProjectMember :=
  if Js.includes AvailableUserRoles (m_role doc) then
    write NoSession
      (with_members (map (fun m => if (m_id m =? m_id doc)%N then doc else m))) ;;
    ret doc
  else throw (ValidationError "role").

End ProjectMemberModel.

Module TaskModel.

Definition findById (id : ObjectId) (s : Session) : M (option Task) :=
  read s (fun d => task_of d id).

Definition deleteMany (project : ObjectId) (s : Session) : M unit :=
  write s (with_tasks (filter (fun t => negb (t_project t =? project)%N))).

(** [findByIdAndUpdate(id, { $set }, { new: true })]. *)
Definition findByIdAndUpdate (id : ObjectId) (upd : Task -> Task)
  : M (option Task) :=
  write NoSession
    (with_tasks (map (fun t => if (t_id t =? id)%N then upd t else t))) ;;
  fun w => (Ok (task_of (db w) id), w).

End TaskModel.

Module UserModel.

(** [User.findOne({ email })]. The address is matched as it is passed.
    Mongoose casts it through the schema's [trim] and [lowercase] first,
    which changes nothing for an address in lower case without surrounding
    blanks, the form in which addresses are stored. *)
Definition findOne (email : string) : M (option User) :=
  read NoSession (fun d => find (fun u => String.eqb (u_email u) email) (users d)).

Definition findById (id : ObjectId) : M (option User) :=
  read NoSession (fun d => find (fun u => u_id u =? id)%N (users d)).

End UserModel.

(* ===================================================================== *)
(** ** Role and permission resolvers (project.controller.js, 18-84) *)
(* ===================================================================== *)

Definition isSome {A} (o : option A) : bool :=
  match o with Some _ => true | None => false end.

Definition isProjectMember (projectId userId : RawId) : M bool :=
  match projectId, userId with
  | Oid pid, Oid uid =>
      try (
        project <- ProjectModel.findById pid NoSession ;;
        match project with
        | None => ret false
        | Some p =>
            if (p_createdBy p =? uid)%N then ret true
            else
              member <- ProjectMemberModel.findOne pid uid NoSession ;;
              ret (isSome (option_map (select ["_id"]) member))
        end)
      catch (fun _ => ret false)
  | _, _ => ret false
  end.

(** [member && member.role === UserRolesEnum.ADMIN]. *)
Definition admin_role (member : option MemberDoc) : Js.value :=
  match member with
  | None => Js.JNull
  | Some d =>
      match d_role d with
      | Some r => Js.JBool (String.eqb r UserRolesEnum.ADMIN)
      | None => Js.JBool false
      end
  end.

Definition isProjectAdmin (projectId userId : RawId) : M Js.value :=
  match projectId, userId with
  | Oid pid, Oid uid =>
      try (
        project <- ProjectModel.findById pid NoSession ;;
        match project with
        | None => ret (Js.JBool false)
        | Some p =>
            if (p_createdBy p =? uid)%N then ret (Js.JBool true)
            else
              member <- ProjectMemberModel.findOne pid uid NoSession ;;
              ret (admin_role (option_map (select ["role"]) member))
        end)
      catch (fun _ => ret (Js.JBool false))
  | _, _ => ret (Js.JBool false)
  end.

(* ===================================================================== *)
(** ** The resolvers of utils/helper.js (index.js, 31-115) *)
(* ===================================================================== *)

(** The task controller imports its resolvers from [utils/helper.js]. That
    file imports [Project] and [ProjectMember] and nothing else: [mongoose]
    and [UserRolesEnum] are not bound in it, and evaluating an unbound name
    throws a [ReferenceError]. *)
Module Helper.

(** [mongoose.Types.ObjectId.isValid(id)], with [mongoose] unbound. *)
Definition mongoose_isValid (id : RawId) : M bool :=
  throw (ReferenceError "mongoose is not defined").

(** [UserRolesEnum.ADMIN], with [UserRolesEnum] unbound. *)
Definition UserRolesEnum_ADMIN : M string :=
  throw (ReferenceError "UserRolesEnum is not defined").

(** [!isValid(projectId) || !isValid(userId)], outside the [try]. *)
Definition invalid_ids (projectId userId : RawId) : M bool :=
  validProject <- mongoose_isValid projectId ;;
  if negb validProject then ret true
  else
    validUser <- mongoose_isValid userId ;;
    ret (negb validUser).

Definition isProjectMember (projectId userId : RawId) : M bool :=
  invalid <- invalid_ids projectId userId ;;
  if invalid then ret false
  else
    match projectId, userId with
    | Oid pid, Oid uid =>
        try (
          project <- ProjectModel.findById pid NoSession ;;
          match project with
          | None => ret false
          | Some p =>
              if (p_createdBy p =? uid)%N then ret true
              else
                member <- ProjectMemberModel.findOne pid uid NoSession ;;
                ret (isSome (option_map (select ["_id"]) member))
          end)
        catch (fun _ => ret false)
    | _, _ => ret false
    end.

Definition isProjectAdmin (projectId userId : RawId) : M Js.value :=
  invalid <- invalid_ids projectId userId ;;
  if invalid then ret (Js.JBool false)
  else
    match projectId, userId with
    | Oid pid, Oid uid =>
        try (
          project <- ProjectModel.findById pid NoSession ;;
          match project with
          | None => ret (Js.JBool false)
          | Some p =>
              if (p_createdBy p =? uid)%N then ret (Js.JBool true)
              else
                member <- ProjectMemberModel.findOne pid uid NoSession ;;
                match option_map (select ["role"]) member with
                | None => ret Js.JNull
                | Some d =>
                    admin <- UserRolesEnum_ADMIN ;;
                    ret (match d_role d with
                         | Some r => Js.JBool (String.eqb r admin)
                         | None => Js.JBool false
                         end)
                end
          end)
        catch (fun _ => ret (Js.JBool false))
    | _, _ => ret (Js.JBool false)
    end.

End Helper.

(* ===================================================================== *)
(** ** Replies *)
(* ===================================================================== *)

(** What a task listing hands to [Task.find]: the filter, the sort
    specification, [skip] and [limit]. *)
Inductive Search :=
| NoSearch
| Regex (pattern : string)
| Text (search : string).

Record Filter := mkFilter {
  f_project : ObjectId;
  f_status : option string;
  f_assignedTo : option ObjectId;
  f_priority : option string;
  f_search : Search }.

Record FindSpec := mkFindSpec {
  q_filter : Filter;
  q_sort : list (string * Z);
  q_skip : Js.number;
  q_limit : Js.number }.

(** What the store answers to a [find]: the documents, or an error. How
    the filter, the sort, [skip] and [limit] are evaluated is the store's
    business; the handlers are modelled for every store. *)
Definition Finder : Type := FindSpec -> Db -> result (list Task).

(** [Task.find(filter).populate(path)...sort(..).skip(..).limit(..).lean()].
    The documents found are populated after the round trip; a path that is
    not in the schema makes that throw as soon as there is a document to
    populate. *)
Definition find_populated (Task_find : Finder) (in_schema : bool) (path : string)
           (spec : FindSpec) : M (list Task) :=
  io ;;
  fun w =>
    match Task_find spec (db w) with
    | Ok [] => (Ok [], w)
    | Ok (t :: l) =>
        if in_schema then (Ok (t :: l), w)
        else (Throw (StrictPopulateError path), w)
    | Throw e => (Throw e, w)
    end.

(** A page of a task listing: the tasks, the query that found them, and
    the [page] and [limit] of the pagination block. *)
Inductive Payload :=
| NoData
| ProjectData (p : option Project)
| MemberData (m : ProjectMember)
| TaskData (t : option Task)
| TaskPage (tasks : list Task) (q : FindSpec) (page limit : Js.number).

(** [Sent] is [res.status(c).json(new ApiResponse(c, data, message))];
    [NoReply] is a handler that returns without answering. *)
Inductive Reply :=
| Sent (statusCode : N) (data : Payload) (message : string)
| NoReply.

(** [obj[key] = v] on a fresh object literal: assigning a primitive to
    ["__proto__"] leaves the object without own keys. *)
Definition set_key (key : string) (v : Z) : list (string * Z) :=
  if String.eqb key "__proto__" then [] else [(key, v)].

(* ===================================================================== *)
(** ** Project controller *)
(* ===================================================================== *)

Definition is_duplicate_key (e : exn) : bool :=
  match e with MongoError c => (c =? 11000)%N | _ => false end.

(** [createProject] (153-210). *)
Definition createProject (actor : ObjectId) (name : string)
           (description : option string) : M Reply :=
  if negb (Js.nonempty (Js.trim name)) then
    throw (ApiError 400 "Project name is required")
  else
    startSession ;;
    try (
      startTransaction ;;
      project <- ProjectModel.create name
                   (if Js.truthy description
                    then match description with Some s => s | None => "" end
                    else "")
                   actor InSession ;;
      ProjectMemberModel.create actor (p_id project) UserRolesEnum.ADMIN InSession ;;
      createdProject <- ProjectModel.findById (p_id project) InSession ;;
      commitTransaction ;;
      endSession ;;
      ret (Sent 201 (ProjectData createdProject) "Project created successfully"))
    catch (fun error =>
      abortTransaction ;;
      endSession ;;
      if is_duplicate_key error then
        throw (ApiError 400 "A project with this Project name already exists")
      else
        throw (ApiError 500 "Internal server error while creating project")).

(** [deleteProject] (287-343). When the transaction fails the inner
    handler aborts it and falls through: nothing is sent. *)
Definition deleteProject (actor : ObjectId) (projectId : RawId) : M Reply :=
  match projectId with
  | NotOid _ => throw (ApiError 400 "Invalid project ID")
  | Oid pid =>
      try (
        project <- ProjectModel.findById pid NoSession ;;
        match project with
        | None => throw (ApiError 404 "Project not found")
        | Some _ =>
            hasAdminAccess <- isProjectAdmin (Oid pid) (Oid actor) ;;
            if negb (Js.is_true hasAdminAccess) then
              throw (ApiError 403 "You are not authorized to delete this project")
            else
              startSession ;;
              startTransaction ;;
              try (
                ProjectModel.findByIdAndDelete pid InSession ;;
                ProjectMemberModel.deleteMany pid InSession ;;
                TaskModel.deleteMany pid InSession ;;
                commitTransaction ;;
                ret (Sent 200 NoData
                       "Project and all associated data deleted successfully"))
              catch (fun error =>
                abortTransaction ;;
                endSession ;;
                ret NoReply)
        end)
      catch (fun _ =>
        throw (ApiError 500 "Internal server error while deleting project"))
  end.

(** [newMember.populate(..).populate(..).lean()]: [populate] on a document
    gives back the document or a promise, and neither has the method the
    chain calls next. *)
Definition populate_chain : M unit :=
  throw (TypeError "newMember.populate(...).populate(...).lean is not a function").

(** [addMemberToProject] (352-431). [None] is an absent body field. The
    user lookup selects [fullNmae], so the [fullName] the duplicate-member
    message interpolates is [undefined]. *)
Definition addMemberToProject (actor : ObjectId) (projectId : RawId)
           (email role : option string) : M Reply :=
  match projectId with
  | NotOid _ => throw (ApiError 400 "Invalid project ID")
  | Oid pid =>
      match email with
      | None => throw (ApiError 400 "Invalid email ID - Valid email is required")
      | Some email =>
          if negb (Js.nonempty email) || negb (Js.nonempty (Js.trim email)) then
            throw (ApiError 400 "Invalid email ID - Valid email is required")
          else
            let memberRoleInput :=
              match role with
              | Some r => if Js.nonempty r then Js.toLowerCase r
                          else UserRolesEnum.MEMBER
              | None => UserRolesEnum.MEMBER
              end in
            if Js.truthy role && Js.includes AvailableUserRoles memberRoleInput then
              throw (ApiError 400
                       ("Invalid role - Valid roles are "
                        ++ Js.join ", " AvailableUserRoles))
            else
              try (
                project <- ProjectModel.findById pid NoSession ;;
                match project with
                | None => throw (ApiError 404 "Project not found")
                | Some _ =>
                    hasAdminAccess <- isProjectAdmin (Oid pid) (Oid actor) ;;
                    if negb (Js.is_true hasAdminAccess) then
                      throw (ApiError 403
                               "You are not authorized to add members to this project")
                    else
                      userToAdd <- UserModel.findOne (Js.toLowerCase email) ;;
                      match userToAdd with
                      | None =>
                          throw (ApiError 404
                                   ("User with email " ++ email ++ " not found"))
                      | Some userToAdd =>
                          existingMember <-
                            ProjectMemberModel.findOne pid (u_id userToAdd) NoSession ;;
                          if isSome (option_map (select ["_id"]) existingMember) then
                            throw (ApiError 400
                                     "User undefined is already a member of the project")
                          else
                            let memberRole :=
                              if Js.includes AvailableUserRoles memberRoleInput
                              then memberRoleInput else UserRolesEnum.MEMBER in
                            newMember <-
                              ProjectMemberModel.create (u_id userToAdd) pid
                                memberRole NoSession ;;
                            populate_chain ;;
                            ret (Sent 201 (MemberData newMember)
                                   "Member added to project successfully")
                      end
                end)
              catch (fun _ =>
                throw (ApiError 500
                         "Internal server error while adding member to project"))
      end
  end.

(** [x.equals(id)] where [x] may be [undefined]. *)
Definition equals (x : option ObjectId) (id : ObjectId) : M bool :=
  match x with
  | Some o => ret (o =? id)%N
  | None => throw (TypeError "Cannot read properties of undefined (reading 'equals')")
  end.

(** The [try] block of [removeMemberFromProject] (447-483), for a given
    projection of the membership lookup. *)
Definition removeMember_try (projection : list string)
           (actor pid mid : ObjectId) : M Reply :=
  project <- ProjectModel.findById pid NoSession ;;
  match project with
  | None => throw (ApiError 404 "Project not found")
  | Some p =>
      found <- ProjectMemberModel.findOne pid mid NoSession ;;
      match option_map (select projection) found with
      | None => throw (ApiError 404 "User not a member of this project")
      | Some memberToRemove =>
          if (p_createdBy p =? mid)%N then
            throw (ApiError 400
                     "Project creator cannot be removed from the project")
          else
            selfRemoval <- equals (d_users memberToRemove) actor ;;
            isAdmin <- isProjectAdmin (Oid pid) (Oid actor) ;;
            ProjectMemberModel.findByIdAndDelete (d_id memberToRemove) NoSession ;;
            ret (Sent 200 NoData "Member removed from project successfully")
      end
  end.

(** [removeMemberFromProject] (440-488). *)
Definition removeMemberFromProjectWith (projection : list string)
           (actor : ObjectId) (projectId memberId : RawId) : M Reply :=
  match projectId, memberId with
  | Oid pid, Oid mid =>
      try (removeMember_try projection actor pid mid)
      catch (fun _ =>
        throw (ApiError 500
                 "Internal server error while removing member from project"))
  | _, _ => throw (ApiError 400 "Invalid project ID or member ID")
  end.

(** The source asks for [.select("user")], a path the schema does not have
    (the reference is stored under [users]). *)
Definition removeMemberFromProject : ObjectId -> RawId -> RawId -> M Reply :=
  removeMemberFromProjectWith ["user"].

(** [updateProjectMemberRole] (553-602). *)
Definition updateProjectMemberRole (actor : ObjectId) (projectId memberId : RawId)
           (role : option string) : M Reply :=
  match projectId, memberId with
  | Oid pid, Oid mid =>
      match role with
      | Some role =>
          if negb (Js.nonempty role) || negb (Js.includes AvailableUserRoles role) then
            throw (ApiError 400
                     ("Invalid role - Valid roles are "
                      ++ Js.join ", " AvailableUserRoles))
          else
            try (
              project <- ProjectModel.findById pid NoSession ;;
              match project with
              | None => throw (ApiError 404 "Project not found")
              | Some _ =>
                  memberToUpdatRole <- ProjectMemberModel.findOne pid mid NoSession ;;
                  match memberToUpdatRole with
                  | None => throw (ApiError 404 "User not a member of this project")
                  | Some doc =>
                      isCreatorOrAdmin <- isProjectAdmin (Oid pid) (Oid actor) ;;
                      if negb (Js.is_true isCreatorOrAdmin) then
                        throw (ApiError 403
                          "You are not authorized to update this project member role")
                      else
                        updatedMember <-
                          ProjectMemberModel.save
                            (mkMember (m_id doc) (m_users doc) (m_project doc) role) ;;
                        ret (Sent 200 (MemberData updatedMember)
                               "Project member role updated successfully")
                  end
              end)
            catch (fun _ =>
              throw (ApiError 500
                       "Internal server error while updating project member role"))
      | None =>
          throw (ApiError 400
                   ("Invalid role - Valid roles are "
                    ++ Js.join ", " AvailableUserRoles))
      end
  | _, _ => throw (ApiError 400 "Invalid project ID or member ID")
  end.

(* ===================================================================== *)
(** ** Task listings *)
(* ===================================================================== *)

(** [req.query]; [None] is an absent parameter. *)
Record Query := mkQuery {
  query_page : option string;
  query_limit : option string;
  query_sortBy : option string;
  query_sortOrder : option string;
  query_sort : option string;
  query_order : option string;
  query_status : option string;
  query_priority : option string;
  query_assignedTo : option RawId;
  query_search : option string }.

Definition default {A} (d : A) (o : option A) : A :=
  match o with Some a => a | None => d end.

(** [status && Available.includes(status.toLowerCase())]. *)
Definition enum_filter (available : list string) (v : option string) : option string :=
  match v with
  | Some s =>
      if Js.nonempty s && Js.includes available (Js.toLowerCase s)
      then Some (Js.toLowerCase s) else None
  | None => None
  end.

(** [assignedTo && mongoose.Types.ObjectId.isValid(assignedTo)]. *)
Definition id_filter (v : option RawId) : option ObjectId :=
  match v with
  | Some (Oid o) => Some o
  | _ => None
  end.

(** [search && typeof search === 'string' && search.trim()]. *)
Definition searching (v : option string) : bool :=
  match v with
  | Some s => Js.nonempty s && Js.nonempty (Js.trim s)
  | None => false
  end.

Definition allowedSortBy : list string :=
  ["createdAt"; "updatedAt"; "title"; "status"].

Section ProjectTasks.

(** Whether [new RegExp(pattern, 'i')] accepts the pattern. *)
Variable RegExp_ok : string -> bool.

Variable Task_find : Finder.

(** [getProjectTasks] of the project controller (615-708). The reply
    carries the tasks and the specification handed to [Task.find]. The two
    [populate] calls name [asignedTo] and [asignedBy], which are not paths
    of the task schema. *)
Definition getProjectTasks (actor : ObjectId) (projectId : RawId) (q : Query)
  : M Reply :=
  match projectId with
  | NotOid _ => throw (ApiError 400 "Invalid project ID")
  | Oid pid =>
      let page := match query_page q with
                  | None => Js.Fin 1
                  | Some s => Js.parseInt s
                  end in
      let limit := match query_limit q with
                   | None => Js.Fin 10
                   | Some s => Js.parseInt s
                   end in
      let page := if Js.positive page then page else Js.Fin 1 in
      let limit := if Js.positive limit then limit else Js.Fin 10 in
      let skip := Js.mul (Js.sub page (Js.Fin 1)) limit in
      let sortBy := default "createdAt" (query_sortBy q) in
      let sortBy := if Js.includes allowedSortBy sortBy then sortBy
                    else "createdAt" in
      let sortOrder :=
        if String.eqb (Js.toLowerCase (default "desc" (query_sortOrder q))) "asc"
        then 1%Z else (-1)%Z in
      let sortOptions := set_key sortBy sortOrder in
      try (
        project <- ProjectModel.findById pid NoSession ;;
        match project with
        | None => throw (ApiError 404 "Project not found")
        | Some _ =>
            isMember <- isProjectMember (Oid pid) (Oid actor) ;;
            if negb isMember then
              throw (ApiError 403
                       "You are not authorized to view this project tasks")
            else
              search <-
                (if searching (query_search q) then
                   let searchTerm := Js.trim (default "" (query_search q)) in
                   if RegExp_ok searchTerm then ret (Regex searchTerm)
                   else throw (SyntaxError "Invalid regular expression")
                 else ret NoSearch) ;;
              let filter :=
                mkFilter pid
                  (enum_filter AvailableTaskStatus (query_status q))
                  (id_filter (query_assignedTo q))
                  None
                  search in
              let spec := mkFindSpec filter sortOptions skip limit in
              io ;;
              tasks <- find_populated Task_find false "asignedTo" spec ;;
              ret (Sent 200 (TaskPage tasks spec page limit)
                     "Project tasks fetched successfully")
        end)
      catch (fun _ =>
        throw (ApiError 500 "Internal server error while getting project tasks"))
  end.

(** [parseInt(x, 10) || d]: [NaN] and [0] give the default. *)
Definition parseInt_or (d : Js.number) (v : option string) : Js.number :=
  match v with
  | Some s => Js.or_else (Js.parseInt s) d
  | None => d
  end.

(** [getProjectTask] of the task controller (21-118). Its
    [isProjectMember] is the one of [utils/helper.js]. *)
Definition getProjectTask (actor : ObjectId) (projectId : RawId) (q : Query)
  : M Reply :=
  let sort := default "createdAt" (query_sort q) in
  let order := default "desc" (query_order q) in
  try (
    match projectId with
    | NotOid _ => throw (ApiError 400 "Invalid project ID")
    | Oid pid =>
        project <- ProjectModel.findById pid NoSession ;;
        match project with
        | None => throw (ApiError 404 "Project not found")
        | Some _ =>
            isMember <- Helper.isProjectMember (Oid pid) (Oid actor) ;;
            if negb isMember then
              throw (ApiError 403 "You are not authorized to view this project tasks")
            else
              let page := parseInt_or (Js.Fin 1) (query_page q) in
              let limit := parseInt_or (Js.Fin 10) (query_limit q) in
              let skip := Js.mul (Js.sub page (Js.Fin 1)) limit in
              let sortOptions :=
                set_key sort (if String.eqb order "asc" then 1%Z else (-1)%Z) in
              let filter :=
                mkFilter pid
                  (enum_filter AvailableTaskStatus (query_status q))
                  (id_filter (query_assignedTo q))
                  (enum_filter AvailableTaskPriorities (query_priority q))
                  (if searching (query_search q)
                   then Text (default "" (query_search q)) else NoSearch) in
              let spec := mkFindSpec filter sortOptions skip limit in
              io ;;
              tasks <- find_populated Task_find true "assignedTo" spec ;;
              ret (Sent 200 (TaskPage tasks spec page limit)
                     "Project tasks fetched successfully")
        end
    end)
  catch (fun _ =>
    throw (ApiError 500 "Internal server error while getting project tasks")).

End ProjectTasks.

(* ===================================================================== *)
(** ** Task update (task.controller.js, 286-420) *)
(* ===================================================================== *)

(** The task controller takes [isProjectMember], [isProjectAdmin] and
    [isValidDate] from [utils/helper.js]. *)

(** The [dueDate] field of a request body. *)
Inductive DueDate :=
| DueUndefined
| DueNull
| DueString (s : string).

Record TaskBody := mkTaskBody {
  b_title : option string;
  b_description : option string;
  b_status : option string;
  b_priority : option string;
  b_dueDate : DueDate;
  b_assignedTo : option RawId;
  b_otherKeys : nat }.

Definition count {A} (o : option A) : nat :=
  match o with Some _ => 1 | None => 0 end.

(** [Object.keys(req.body).length]. *)
Definition keys_length (b : TaskBody) : nat :=
  count (b_title b) + count (b_description b) + count (b_status b)
  + count (b_priority b)
  + (match b_dueDate b with DueUndefined => 0 | _ => 1 end)
  + count (b_assignedTo b) + b_otherKeys b.

(** [$set: updateData]: the paths present in [updateData]. *)
Record UpdateData := mkUpdateData {
  set_title : option string;
  set_description : option string;
  set_status : option string;
  set_priority : option string;
  set_dueDate : option (option Z);
  set_assignedTo : option ObjectId }.

Definition apply_update (u : UpdateData) (t : Task) : Task :=
  mkTask (t_id t)
    (default (t_title t) (set_title u))
    (default (t_description t) (set_description u))
    (t_project t)
    (match set_assignedTo u with Some a => Some a | None => t_assignedTo t end)
    (t_assignedBy t)
    (default (t_status t) (set_status u))
    (default (t_priority t) (set_priority u))
    (default (t_dueDate t) (set_dueDate u)).

Definition due_truthy (d : DueDate) : bool :=
  match d with DueString s => Js.nonempty s | _ => false end.

(** [assignedTo] as a condition: a non-empty string. *)
Definition id_truthy (v : option RawId) : bool :=
  match v with
  | Some (Oid _) => true
  | Some (NotOid s) => Js.nonempty s
  | None => false
  end.

(** [task.assignedTo?.equals(assignedTo)]. *)
Definition same_assignee (current : option ObjectId) (v : option RawId) : bool :=
  match current, v with
  | Some a, Some (Oid o) => (a =? o)%N
  | _, _ => false
  end.

Section TaskUpdate.

(** The time value of [new Date(s)] for a string; [None] is an invalid
    date. *)
Variable Date_parse : string -> option Z.

(** The time value of [new Date(date)]. *)
Definition Date_of (date : DueDate) : option Z :=
  match date with
  | DueUndefined => None
  | DueNull => Some 0%Z
  | DueString s => Date_parse s
  end.

(** [isValidDate] (utils/helper.js): [!isNaN(new Date(date).getDate())]. *)
Definition isValidDate (date : DueDate) : bool := isSome (Date_of date).

Definition updateTask (actor : ObjectId) (taskId : RawId) (body : TaskBody)
  : M Reply :=
  match taskId with
  | NotOid _ => throw (ApiError 400 "Invalid task ID")
  | Oid tid =>
      if (keys_length body =? 0)%nat then
        throw (ApiError 400 "At least one field is required to update")
      else
        let assignedTo := b_assignedTo body in
        let status := b_status body in
        let priority := b_priority body in
        let dueDate := b_dueDate body in
        try (
          task <- TaskModel.findById tid NoSession ;;
          match task with
          | None => throw (ApiError 404 "Task not found")
          | Some task =>
              isMember <- Helper.isProjectMember (Oid (t_project task)) (Oid actor) ;;
              if negb isMember then
                throw (ApiError 403 "You are not authorized to update this task")
              else
                let isAssigned :=
                  match t_assignedTo task with
                  | Some a => (a =? actor)%N
                  | None => false
                  end in
                let isCreator := (t_assignedBy task =? actor)%N in
                isAdmin <- Helper.isProjectAdmin (Oid (t_project task)) (Oid actor) ;;
                if negb isAssigned && negb isCreator && negb (Js.is_true isAdmin) then
                  throw (ApiError 403 "You are not authorized to update this task")
                else
                  (if id_truthy assignedTo
                      && (negb (isSome (t_assignedTo task))
                          || negb (same_assignee (t_assignedTo task) assignedTo))
                   then
                     match assignedTo with
                     | Some (Oid a) =>
                         assignedToUser <- UserModel.findById a ;;
                         match assignedToUser with
                         | None => throw (ApiError 404 "Assigned to user not found")
                         | Some _ =>
                             isUserMember <-
                               Helper.isProjectMember (Oid (t_project task)) (Oid a) ;;
                             if negb isUserMember then
                               throw (ApiError 403
                                 "Assigned to user is not a member of the project")
                             else ret tt
                         end
                     | _ => throw (ApiError 400 "Invalid assignedTo user ID")
                     end
                   else ret tt) ;;
                  (if Js.truthy status
                      && negb (Js.includes AvailableTaskStatus
                                 (Js.toLowerCase (default "" status)))
                   then throw (ApiError 400
                                  ("Invalid status - Valid statuses are "
                                   ++ Js.join ", " AvailableTaskStatus))
                   else ret tt) ;;
                  (if Js.truthy priority
                      && negb (Js.includes AvailableTaskPriorities
                                 (Js.toLowerCase (default "" priority)))
                   then throw (ApiError 400
                                  ("Invalid priority - Valid priorities are "
                                   ++ Js.join ", " AvailableTaskPriorities))
                   else ret tt) ;;
                  (if due_truthy dueDate && negb (isValidDate dueDate)
                   then throw (ApiError 400 "Invalid due date")
                   else ret tt) ;;
                  title_u <-
                    match b_title body with
                    | Some title =>
                        let titleTrimmed := Js.trim title in
                        if Js.nonempty titleTrimmed then ret (Some titleTrimmed)
                        else throw (ApiError 400
                                      "Title is required and cannot be empty")
                    | None => ret None
                    end ;;
                  let description_u := b_description body in
                  let status_u := enum_filter AvailableTaskStatus status in
                  let priority_u := enum_filter AvailableTaskPriorities priority in
                  dueDate_u <-
                    match dueDate with
                    | DueUndefined => ret None
                    | _ =>
                        if negb (match dueDate with DueNull => true | _ => false end)
                           || (match dueDate with
                               | DueString s => negb (Js.nonempty s)
                               | _ => false
                               end)
                        then ret (Some None)
                        else if isValidDate dueDate
                             then ret (Some (Date_of dueDate))
                             else throw (ApiError 400
                                "Invalid due date format or value provided for update")
                    end ;;
                  assignedTo_u <-
                    (if id_truthy assignedTo then
                       match assignedTo with
                       | Some (Oid a) => ret (Some a)
                       | _ => throw (CastError "assignedTo")
                       end
                     else ret None) ;;
                  updatedTask <-
                    TaskModel.findByIdAndUpdate tid
                      (apply_update
                         (mkUpdateData title_u description_u status_u priority_u
                            dueDate_u assignedTo_u)) ;;
                  ret (Sent 200 (TaskData updatedTask) "Task updated successfully")
          end)
        catch (fun _ =>
          throw (ApiError 500 "Internal server error while updating task"))
  end.

End TaskUpdate.

(* ===================================================================== *)
(** ** Further model operations *)
(* ===================================================================== *)

(** As above, a query together with the joins [populate] adds to it counts
    as one round trip, and the display fields it joins are left out of the
    payloads. *)

(** [new ApiResponse(statusCode, data, message)] with a payload of type
    [A]. *)
Inductive Response (A : Type) :=
| Respond (statusCode : N) (data : A) (message : string).
Arguments Respond {A} statusCode data message.

(** [try { m } finally { f }]: [f] runs on every exit of [m]; an error of
    [f] replaces the outcome of [m]. *)
Definition try_finally {A} (m : M A) (f : M unit) : M A :=
  fun w => match m w with
           | (r, w') =>
               match f w' with
               | (Ok _, w'') => (r, w'')
               | (Throw e, w'') => (Throw e, w'')
               end
           end.

Definition with_name (name : string) (p : Project) : Project :=
  mkProject (p_id p) name (p_description p) (p_createdBy p).
Definition with_description (description : string) (p : Project) : Project :=
  mkProject (p_id p) (p_name p) description (p_createdBy p).

(** [$set: updateData] of [updateProject]: the paths present. *)
Definition set_project (name description : option string) (p : Project) : Project :=
  let p := match name with Some n => with_name n p | None => p end in
  match description with Some d => with_description d p | None => p end.

(** Modelled from the spec: the unique index on a project's [name]
    ([models/project.model.js] is not among the sources); [updateProject]
    expects the duplicate-key error 11000 from the update. The name is
    taken when another project carries it. *)
Definition name_taken_by_other (id : ObjectId) (name : option string) (d : Db) : bool :=
  match name with
  | Some n =>
      existsb (fun p => negb (p_id p =? id)%N && String.eqb (p_name p) n) (projects d)
  | None => false
  end.

Module Queries.

(** [Project.find({ $or: [{ createdBy }, { _id: { $in: ids } }] })]. *)
Definition Project_find (createdBy : ObjectId) (ids : list ObjectId)
  : M (list Project) :=
  read NoSession
    (fun d => filter (fun p => (p_createdBy p =? createdBy)%N
                               || existsb (N.eqb (p_id p)) ids)
                     (projects d)).

(** [Project.findByIdAndUpdate(id, { $set }, { new: true })]. *)
Definition Project_findByIdAndUpdate (id : ObjectId) (name description : option string)
  : M (option Project) :=
  io ;;
  fun w =>
    if isSome (project_of (db w) id) && name_taken_by_other id name (db w) then
      (Throw (MongoError 11000), w)
    else
      let d := with_projects
                 (map (fun p => if (p_id p =? id)%N
                                then set_project name description p else p))
                 (db w) in
      (Ok (project_of d id), set_db d w).

(** [ProjectMember.find({ users })]. *)
Definition ProjectMember_find_by_user (user : ObjectId) : M (list ProjectMember) :=
  read NoSession (fun d => filter (fun m => (m_users m =? user)%N) (members d)).

(** [ProjectMember.find({ project })], in insertion order, which is the
    order of the [createdAt] stamps. *)
Definition ProjectMember_find_by_project (project : ObjectId)
  : M (list ProjectMember) :=
  read NoSession (fun d => filter (fun m => (m_project m =? project)%N) (members d)).

(** [Task.create([taskData], { session })]: the schema trims [title] and
    requires it, restricts [priority] to the known priorities and gives
    [status] the default ["todo"]. *)
Definition Task_create (title description : string) (project assignedBy : ObjectId)
           (assignedTo : option ObjectId) (dueDate : option Z) (priority : string)
           (s : Session) : M Task :=
  id <- freshId ;;
  if Js.nonempty (Js.trim title)
     && Js.includes AvailableTaskPriorities priority then
    io ;;
    fun w =>
      let t := mkTask id (Js.trim title) description project assignedTo assignedBy
                 TaskStatusEnum.TODO priority dueDate in
      (Ok t, put_view s (with_tasks (fun l => l ++ [t]) (view s w)) w)
  else throw (ValidationError "task").

Definition Task_findByIdAndDelete (id : ObjectId) (s : Session) : M unit :=
  write s (with_tasks (filter (fun t => negb (t_id t =? id)%N))).

End Queries.

(* ===================================================================== *)
(** ** Project controller, the remaining handlers *)
(* ===================================================================== *)

(** [getProjects] (91-111). The payload is the list of projects; the
    display fields [populate] joins are left out. *)
Definition getProjects (actor : ObjectId) : M (Response (list Project)) :=
  try (
    userMemberOf <- Queries.ProjectMember_find_by_user actor ;;
    let memberProjectsIds := map m_project userMemberOf in
    project <- Queries.Project_find actor memberProjectsIds ;;
    ret (Respond 200 project "Projects fetched successfully"))
  catch (fun _ =>
    throw (ApiError 500 "Internal server error while getting projects")).

(** [getProjectById] (118-145); it has no [try] block. *)
Definition getProjectById (actor : ObjectId) (projectId : RawId) : M Reply :=
  match projectId with
  | NotOid _ => throw (ApiError 400 "Invalid project ID")
  | Oid pid =>
      project <- ProjectModel.findById pid NoSession ;;
      match project with
      | None => throw (ApiError 404 "Project not found")
      | Some p =>
          authorized <- isProjectMember (Oid pid) (Oid actor) ;;
          if negb authorized then
            throw (ApiError 403 "You are not authorized to access this project")
          else
            ret (Sent 200 (ProjectData (Some p)) "Project fetched successfully")
      end
  end.

(** [name && name.trim()]. *)
Definition has_name (name : option string) : bool :=
  match name with
  | Some n => Js.nonempty n && Js.nonempty (Js.trim n)
  | None => false
  end.

(** [updateProject] (219-279). *)
Definition updateProject (actor : ObjectId) (projectId : RawId)
           (name description : option string) : M Reply :=
  match projectId with
  | NotOid _ => throw (ApiError 400 "Invalid project ID")
  | Oid pid =>
      if negb (has_name name) && negb (isSome description) then
        throw (ApiError 400 "At least one field is required to update")
      else
        try (
          project <- ProjectModel.findById pid NoSession ;;
          match project with
          | None => throw (ApiError 404 "Project not found")
          | Some _ =>
              hasAdminAccess <- isProjectAdmin (Oid pid) (Oid actor) ;;
              if negb (Js.is_true hasAdminAccess) then
                throw (ApiError 403 "You are not authorized to update this project")
              else
                let name_u := if has_name name then name else None in
                let description_u := description in
                updatedProject <-
                  Queries.Project_findByIdAndUpdate pid name_u description_u ;;
                ret (Sent 200 (ProjectData updatedProject)
                       "Project updated successfully")
          end)
        catch (fun error =>
          if is_duplicate_key error then
            throw (ApiError 400 "A project with this Project name already exists")
          else
            throw (ApiError 500 "Internal server error while updating project"))
  end.

(** [project.createdBy.equals(member.users._id)] after [populate("users")]:
    the populated reference is the user document, or [null] when the user
    is gone. *)
Definition flag_creator (createdBy : ObjectId) (d : Db) (m : ProjectMember)
  : result (ProjectMember * bool) :=
  match find (fun u => u_id u =? m_users m)%N (users d) with
  | Some u => Ok (m, (createdBy =? u_id u)%N)
  | None => Throw (TypeError "Cannot read properties of null (reading '_id')")
  end.

Fixpoint flag_creators (createdBy : ObjectId) (d : Db) (l : list ProjectMember)
  : result (list (ProjectMember * bool)) :=
  match l with
  | [] => Ok []
  | m :: r =>
      match flag_creator createdBy d m with
      | Ok x =>
          match flag_creators createdBy d r with
          | Ok xs => Ok (x :: xs)
          | Throw e => Throw e
          end
      | Throw e => Throw e
      end
  end.

(** [getProjectMembers] (496-544). *)
Definition getProjectMembers (actor : ObjectId) (projectId : RawId)
  : M (Response (list (ProjectMember * bool))) :=
  match projectId with
  | NotOid _ => throw (ApiError 400 "Invalid project ID")
  | Oid pid =>
      try (
        project <- ProjectModel.findById pid NoSession ;;
        match project with
        | None => throw (ApiError 404 "Project not found")
        | Some p =>
            isMember <- isProjectMember (Oid pid) (Oid actor) ;;
            if negb isMember then
              throw (ApiError 403
                       "You are not authorized to view this project members")
            else
              members <- Queries.ProjectMember_find_by_project pid ;;
              fun w =>
                match flag_creators (p_createdBy p) (db w) members with
                | Ok projectCreatorAndMembers =>
                    (Ok (Respond 200 projectCreatorAndMembers
                           "Project members fetched successfully"), w)
                | Throw e => (Throw e, w)
                end
        end)
      catch (fun _ =>
        throw (ApiError 500 "Internal server error while getting project members"))
  end.

(* ===================================================================== *)
(** ** Task controller, the remaining handlers *)
(* ===================================================================== *)

(** [getTaskById] (126-161). [task.project] is populated: it is the project
    document, or [null] when the project is gone. The resolver is the one
    of [utils/helper.js]. *)
Definition getTaskById (actor : ObjectId) (taskId : RawId) : M Reply :=
  match taskId with
  | NotOid _ => throw (ApiError 400 "Invalid task ID")
  | Oid tid =>
      try (
        task <- TaskModel.findById tid NoSession ;;
        match task with
        | None => throw (ApiError 404 "Task not found")
        | Some task =>
            fun w =>
              match project_of (db w) (t_project task) with
              | None =>
                  (Throw (TypeError "Cannot read properties of null (reading '_id')"),
                   w)
              | Some project =>
                  (isMember <- Helper.isProjectMember (Oid (p_id project))
                                 (Oid actor) ;;
                   if negb isMember then
                     throw (ApiError 403 "You are not authorized to view this task")
                   else
                     ret (Sent 200 (TaskData (Some task))
                            "Task fetched successfully")) w
              end
        end)
      catch (fun _ =>
        throw (ApiError 500 "Internal server error while getting task"))
  end.

(** [error?.message]; a driver error's text is not modelled. *)
Definition error_message (e : exn) : string :=
  match e with
  | ApiError _ m => m
  | TypeError m => m
  | SyntaxError m => m
  | ValidationError p => p
  | CastError p => p
  | ReferenceError m => m
  | StrictPopulateError p => p
  | MongoTransactionError m => m
  | MongoError _ => "MongoError"
  end.

Section TaskCreation.

Variable Date_parse : string -> option Z.

(** [createTask] (169-277). Of the body only [title], [description],
    [priority], [dueDate] and [assignedTo] are read. The resolver is the
    one of [utils/helper.js]. *)
Definition createTask (actor : ObjectId) (projectId : RawId) (body : TaskBody)
  : M Reply :=
  let priority := match b_priority body with
                  | Some p => Some p
                  | None => Some TaskPrioritiesEnum.MEDIUM
                  end in
  let dueDate := b_dueDate body in
  let assignedTo := b_assignedTo body in
  match projectId with
  | NotOid _ => throw (ApiError 400 "Invalid project ID")
  | Oid pid =>
      match b_title body with
      | None => throw (ApiError 400 "Title is required")
      | Some title =>
          if negb (Js.nonempty title) || negb (Js.nonempty (Js.trim title)) then
            throw (ApiError 400 "Title is required")
          else
            try (
              project <- ProjectModel.findById pid NoSession ;;
              match project with
              | None => throw (ApiError 404 "Project not found")
              | Some _ =>
                  isMember <- Helper.isProjectMember (Oid pid) (Oid actor) ;;
                  if negb isMember then
                    throw (ApiError 403
                             "You are not authorized to create task in this project")
                  else
                    assignedToUser <-
                      (if id_truthy assignedTo then
                         match assignedTo with
                         | Some (Oid a) =>
                             assignedToUser <- UserModel.findById a ;;
                             match assignedToUser with
                             | None => throw (ApiError 404 "Assigned to user not found")
                             | Some u =>
                                 isUserMember <-
                                   Helper.isProjectMember (Oid pid) (Oid a) ;;
                                 if negb isUserMember then
                                   throw (ApiError 403
                                     "Assigned to user is not a member of the project")
                                 else ret (Some u)
                             end
                         | _ => throw (ApiError 400 "Invalid assignedTo user ID")
                         end
                       else ret None) ;;
                    (if Js.truthy priority
                        && negb (Js.includes AvailableTaskPriorities
                                   (Js.toLowerCase (default "" priority)))
                     then throw (ApiError 400
                                   ("Invalid priority - Valid priorities are "
                                    ++ Js.join ", " AvailableTaskPriorities))
                     else ret tt) ;;
                    (if due_truthy dueDate && negb (isValidDate Date_parse dueDate)
                     then throw (ApiError 400 "Invalid due date")
                     else ret tt) ;;
                    startSession ;;
                    try_finally
                      (try (
                         startTransaction ;;
                         task <-
                           Queries.Task_create (Js.trim title)
                             (if Js.truthy (b_description body)
                              then default "" (b_description body) else "")
                             pid actor
                             (option_map u_id assignedToUser)
                             (if due_truthy dueDate
                              then Date_of Date_parse dueDate else None)
                             (if Js.truthy priority
                              then Js.toLowerCase (default "" priority)
                              else TaskPrioritiesEnum.MEDIUM)
                             InSession ;;
                         createdTask <- TaskModel.findById (t_id task) InSession ;;
                         commitTransaction ;;
                         ret (Sent 201 (TaskData createdTask)
                                "Task created successfully"))
                       catch (fun error =>
                         abortTransaction ;;
                         throw (ApiError 500
                                  (if Js.nonempty (error_message error)
                                   then error_message error
                                   else "Failed to create task due to a database error"))))
                      endSession
              end)
            catch (fun _ =>
              throw (ApiError 500 "Internal server error while creating task"))
      end
  end.

End TaskCreation.

(** The user document [populate] puts in place of a reference, [null]
    when there is none. *)
Definition populated_user (id : ObjectId) : M (option User) :=
  fun w => (Ok (find (fun u => u_id u =? id)%N (users (db w))), w).

(** [task.assignedBy.equals(id)] after [populate("project assignedBy")]
    and [lean()]: the populated reference is a plain object, or [null];
    neither has an [equals] method. *)
Definition equals_populated (assignedBy : option User) (id : ObjectId) : M bool :=
  throw (TypeError "task.assignedBy.equals is not a function").

(** [mongoose.models.SubTask]: no such model is registered in this
    repository. *)
Definition SubTask_registered : bool := false.

(** [deleteTask] (429-489). After a failure inside the transaction the
    inner handler aborts and the function ends without an answer. *)
Definition deleteTask (actor : ObjectId) (taskId : RawId) : M Reply :=
  match taskId with
  | NotOid _ => throw (ApiError 400 "Invalid task ID")
  | Oid tid =>
      try (
        task <- TaskModel.findById tid NoSession ;;
        match task with
        | None => throw (ApiError 404 "Task not found")
        | Some task =>
            assignedBy <- populated_user (t_assignedBy task) ;;
            isCreator <- equals_populated assignedBy actor ;;
            isAdmin <- Helper.isProjectAdmin (Oid (t_project task)) (Oid actor) ;;
            if negb isCreator && negb (Js.is_true isAdmin) then
              throw (ApiError 403 "You are not authorized to delete this task")
            else
              startSession ;;
              try_finally
                (try (
                   startTransaction ;;
                   Queries.Task_findByIdAndDelete tid InSession ;;
                   (if SubTask_registered then io else ret tt) ;;
                   commitTransaction ;;
                   ret (Sent 200 NoData "Task deleted successfully"))
                 catch (fun error =>
                   abortTransaction ;;
                   ret NoReply))
                endSession
        end)
      catch (fun _ =>
        throw (ApiError 500 "Internal server error while deleting task"))
  end.

(** The digits of [parseInt(s)] without a radix: a [0x] prefix selects
    base 16. *)
Definition hex_digit (c : ascii) : option Z :=
  let n := nat_of_ascii c in
  if ((48 <=? n) && (n <=? 57))%nat then Some (Z.of_nat (n - 48))
  else if ((97 <=? n) && (n <=? 102))%nat then Some (Z.of_nat (n - 87))
  else if ((65 <=? n) && (n <=? 70))%nat then Some (Z.of_nat (n - 55))
  else None.

Fixpoint hex_digits (acc : option Z) (s : string) : option Z :=
  match s with
  | EmptyString => acc
  | String c r =>
      match hex_digit c with
      | Some d =>
          hex_digits (Some (16 * match acc with Some a => a | None => 0 end + d)%Z) r
      | None => acc
      end
  end.

Definition unsigned_auto (s : string) : option Z :=
  match s with
  | String "0" (String "x" r) => hex_digits None r
  | String "0" (String "X" r) => hex_digits None r
  | _ => Js.digits None s
  end.

Definition integer_auto (s : string) : option Z :=
  match Js.trimStart s with
  | String "-" r => option_map Z.opp (unsigned_auto r)
  | String "+" r => unsigned_auto r
  | t => unsigned_auto t
  end.

(** [parseInt(s)]. *)
Definition parseInt_auto (s : string) : Js.number :=
  match integer_auto s with
  | Some z => Js.round z
  | None => Js.NaN
  end.

(** [parseInt(x) || d]. *)
Definition parseInt_auto_or (d : Js.number) (v : option string) : Js.number :=
  match v with
  | Some s => Js.or_else (parseInt_auto s) d
  | None => d
  end.

(** The filter of [getMyTasks]. *)
Record MyFilter := mkMyFilter {
  mf_assignedTo : ObjectId;
  mf_status : option string;
  mf_priority : option string;
  mf_project : option ObjectId;
  mf_text : option string }.

(** What [getMyTasks] hands to [Task.find]. *)
Record MyFindSpec := mkMyFindSpec {
  mq_filter : MyFilter;
  mq_sort : list (string * Z);
  mq_skip : Js.number;
  mq_limit : Js.number }.

(** A page of [getMyTasks]: the tasks, the query that found them and the
    [page] of the pagination block. *)
Record MyTasksPage := mkMyTasksPage {
  mt_tasks : list Task;
  mt_query : MyFindSpec;
  mt_page : Js.number }.

Definition allowedSortFields : list string :=
  ["createdAt"; "dueDate"; "priority"; "title"].

Section MyTasks.

(** What the store answers to the [find] of [getMyTasks]. *)
Variable Task_find_mine : MyFindSpec -> Db -> result (list Task).

(** [getMyTasks] (497-587). [query_page] and [query_limit] default to the
    numbers 1 and 10 when absent. The resolver is the one of
    [utils/helper.js]; the [populate] names [project], a path of the
    schema. *)
Definition getMyTasks (actor : ObjectId) (projectId : option RawId) (q : Query)
  : M (Response MyTasksPage) :=
  let sort := default "createdAt" (query_sort q) in
  let order := default "desc" (query_order q) in
  try (
    let pageNumber := parseInt_auto_or (Js.Fin 1) (query_page q) in
    let limitNumber := parseInt_auto_or (Js.Fin 10) (query_limit q) in
    let skip := Js.mul (Js.sub pageNumber (Js.Fin 1)) limitNumber in
    let sortOptions :=
      if Js.includes allowedSortFields sort
      then set_key sort (if String.eqb order "asc" then 1%Z else (-1)%Z)
      else set_key "createdAt" (-1)%Z in
    project <-
      match projectId with
      | Some (Oid pid) =>
          isMember <- Helper.isProjectMember (Oid pid) (Oid actor) ;;
          if negb isMember then
            throw (ApiError 403 "You are not authorized to view this project tasks")
          else ret (Some pid)
      | _ => ret None
      end ;;
    let filter :=
      mkMyFilter actor
        (enum_filter AvailableTaskStatus (query_status q))
        (enum_filter AvailableTaskPriorities (query_priority q))
        project
        (if searching (query_search q)
         then Some (Js.trim (default "" (query_search q))) else None) in
    let spec := mkMyFindSpec filter sortOptions skip limitNumber in
    io ;;
    io ;;
    fun w =>
      match Task_find_mine spec (db w) with
      | Ok tasks =>
          (Ok (Respond 200 (mkMyTasksPage tasks spec pageNumber)
                 "Tasks fetched successfully"), w)
      | Throw e => (Throw e, w)
      end)
  catch (fun _ =>
    throw (ApiError 500 "Internal server error while getting my tasks")).

End MyTasks.

(* ===================================================================== *)
(** * Vocabulary of the properties *)
(* ===================================================================== *)

(** No round trip to the store fails. *)
Definition quiet (w : World) : Prop := forall n, faults w n = None.

(** The world after [k] more successful round trips. *)
Definition later (k : nat) (w : World) : World :=
  mkWorld (db w) (txn w) (k + ticks w) (faults w) (nextId w).

(** At most one membership row per (project, user) pair. *)
Definition unique_membership (d : Db) : Prop :=
  forall m1 m2,
    In m1 (members d) -> In m2 (members d) ->
    m_project m1 = m_project m2 -> m_users m1 = m_users m2 -> m1 = m2.

(** What the resolvers are meant to compute. *)
Definition member_in (d : Db) (pid uid : ObjectId) : bool :=
  match project_of d pid with
  | Some p => (p_createdBy p =? uid)%N || isSome (membership d pid uid)
  | None => false
  end.

Definition admin_in (d : Db) (pid uid : ObjectId) : bool :=
  match project_of d pid with
  | Some p =>
      (p_createdBy p =? uid)%N
      || match membership d pid uid with
         | Some m => String.eqb (m_role m) UserRolesEnum.ADMIN
         | None => false
         end
  | None => false
  end.


(** A concrete store used by the examples: project 1 ("Alpha") created by
    user 10, who also holds an admin row; user 11 is a plain member, user 12
    holds the role [project_admin], user 13 is an outsider. *)
Definition alpha : Project := mkProject 1 "Alpha" "" 10.

Definition sample : Db :=
  mkDb [alpha]
       [mkMember 50 10 1 "admin"; mkMember 51 11 1 "member";
        mkMember 52 12 1 "project_admin"]
       [mkTask 70 "Draft" "" 1 None 11 "todo" "medium" None;
        mkTask 71 "Ship" "" 1 (Some 11%N) 10 "todo" "high" (Some 1700000000000%Z)]
       [mkNote 80 1 10 "kickoff"]
       [mkUser 10 "ann@x.io" "ann"; mkUser 11 "bob@x.io" "bob";
        mkUser 12 "cy@x.io" "cy"; mkUser 13 "dee@x.io" "dee"].

(** A world over [d] in which nothing fails, and one in which exactly the
    [k]-th round trip does. *)
Definition calm (d : Db) : World := mkWorld d None 0 (fun _ => None) 100.

Definition failing (k : nat) (d : Db) : World :=
  mkWorld d None 0 (fun n => if Nat.eqb n k then Some 6%N else None) 100.


(** The data without project [pid], its membership rows and its tasks. *)
Definition cascade (pid : ObjectId) (d : Db) : Db :=
  mkDb (filter (fun p => negb (p_id p =? pid)%N) (projects d))
       (filter (fun m => negb (m_project m =? pid)%N) (members d))
       (filter (fun t => negb (t_project t =? pid)%N) (tasks d))
       (notes d) (users d).

Definition deleted : Reply :=
  Sent 200 NoData "Project and all associated data deleted successfully".

(** [memberRoleInput] of [addMemberToProject]. *)
Definition role_input (role : option string) : string :=
  match role with
  | Some r => if Js.nonempty r then Js.toLowerCase r else UserRolesEnum.MEMBER
  | None => UserRolesEnum.MEMBER
  end.


Definition removed : Reply :=
  Sent 200 NoData "Member removed from project successfully".

Definition remove_failed : exn :=
  ApiError 500 "Internal server error while removing member from project".

(** The sort specification a task listing handed to the store, when it
    answered. *)
Definition sort_sent (r : result Reply) : option (list (string * Z)) :=
  match r with
  | Ok (Sent _ (TaskPage _ spec _ _) _) => Some (q_sort spec)
  | _ => None
  end.

(** [order === "asc" ? 1 : -1]. *)
Definition direction (order : option string) : Z :=
  if String.eqb (default "desc" order) "asc" then 1%Z else (-1)%Z.

Definition no_query : Query :=
  mkQuery None None None None None None None None None None.

Definition sorted_by (sortBy sort : option string) : Query :=
  mkQuery None None sortBy None sort None None None None None.

(** The field [getProjectTasks] sorts by. *)
Definition sort_field (sortBy : option string) : string :=
  if Js.includes allowedSortBy (default "createdAt" sortBy)
  then default "createdAt" sortBy else "createdAt".


(** The error of the catch-all of the two listings of a project's tasks. *)
Definition listing_failed : exn :=
  ApiError 500 "Internal server error while getting project tasks".

(** The answer of [getProjectTasks] to a query [spec] the store found no
    document for. *)
Definition empty_page (spec : FindSpec) (page limit : Js.number) : Reply :=
  Sent 200 (TaskPage [] spec page limit) "Project tasks fetched successfully".

(** A store for the examples. It matches on project, status, assignee and
    priority and leaves the search and the sort aside; it refuses a [skip]
    or a [limit] that is not a non-negative integer. *)
Definition same (want : option string) (have : string) : bool :=
  match want with Some s => String.eqb s have | None => true end.

Definition matches (f : Filter) (t : Task) : bool :=
  (t_project t =? f_project f)%N
  && same (f_status f) (t_status t)
  && same (f_priority f) (t_priority t)
  && match f_assignedTo f with
     | Some a => match t_assignedTo t with
                 | Some b => (a =? b)%N
                 | None => false
                 end
     | None => true
     end.

Definition sample_find : Finder :=
  fun spec d =>
    let found := filter (matches (q_filter spec)) (tasks d) in
    let count := Z.of_nat (List.length found) in
    match q_skip spec, q_limit spec with
    | Js.Fin s, Js.Fin l =>
        if ((0 <=? s) && (0 <? l))%Z then
          if (count <=? s)%Z then Ok []
          else Ok (firstn (Z.to_nat (Z.min l count)) (skipn (Z.to_nat s) found))
        else Throw (MongoError 2)
    | _, _ => Throw (MongoError 2)
    end.

(** [sample] with a second project, created by user 13, that has no task
    and no membership row. *)
Definition beta : Project := mkProject 2 "Beta" "" 13.

Definition sample2 : Db := insert_project beta sample.

(** The error of the catch-all of [updateTask]. *)
Definition update_failed : exn :=
  ApiError 500 "Internal server error while updating task".

(** A date parser for the examples: nothing but ["2030-01-01"] is a date. *)
Definition toy_parse (s : string) : option Z :=
  if String.eqb s "2030-01-01" then Some 1893456000000%Z else None.

Definition due_body (d : DueDate) : TaskBody :=
  mkTaskBody None None None None d None 0.

(** The [dueDate] stored for task [tid], if the task exists. *)
Definition dueDate_of (d : Db) (tid : ObjectId) : option (option Z) :=
  option_map t_dueDate (task_of d tid).

(* ===================================================================== *)
(** * Vocabulary of the further properties *)
(* ===================================================================== *)

(** The error of the catch-all of [addMemberToProject]. *)
Definition add_failed : exn :=
  ApiError 500 "Internal server error while adding member to project".

(** The membership rows after [save] of [row] with the role [role]. *)
Definition with_role (row : ProjectMember) (role : string) : Db -> Db :=
  with_members
    (map (fun m => if (m_id m =? m_id row)%N
                   then mkMember (m_id row) (m_users row) (m_project row) role
                   else m)).

(** The data after the account [uid] is deleted; rows that refer to it
    stay behind. *)
Definition without_user (uid : ObjectId) (d : Db) : Db :=
  mkDb (projects d) (members d) (tasks d) (notes d)
       (filter (fun u => negb (u_id u =? uid)%N) (users d)).

(** The paths [updateProject] puts into [$set]: [name] only when it is not
    blank. *)
Definition name_update (name : option string) : option string :=
  if has_name name then name else None.

(** The committed data after [updateProject] has changed project [pid]. *)
Definition renamed (pid : ObjectId) (name description : option string) : Db -> Db :=
  with_projects
    (map (fun p => if (p_id p =? pid)%N
                   then set_project (name_update name) description p else p)).

(** A body with a title only. *)
Definition title_body (title : string) : TaskBody :=
  mkTaskBody (Some title) None None None DueUndefined None 0.

(** The error of the catch-all of [deleteProject]. *)
Definition delete_failed : exn :=
  ApiError 500 "Internal server error while deleting project".

(** A number that is not below zero: [NaN] is not, [-Infinity] is. *)
Definition not_negative (x : Js.number) : Prop :=
  match x with
  | Js.Fin z => (0 <= z)%Z
  | Js.Inf negative => negative = false
  | Js.NaN => True
  end.

(** A number that is at least 1. *)
Definition at_least_one (x : Js.number) : Prop :=
  match x with
  | Js.Fin z => (1 <= z)%Z
  | Js.Inf negative => negative = false
  | Js.NaN => False
  end.

(** A store for the examples of [getMyTasks]: the tasks assigned to the
    user the filter names, whatever else the query says. *)
Definition sample_find_mine (spec : MyFindSpec) (d : Db) : result (list Task) :=
  Ok (filter (fun t => match t_assignedTo t with
                       | Some a => (a =? mf_assignedTo (mq_filter spec))%N
                       | None => false
                       end) (tasks d)).

(* ===================================================================== *)
(** * Properties *)
(* ===================================================================== *)

Ltac unfold_model :=
  unfold isProjectMember, isProjectAdmin, admin_role,
    ProjectModel.findById, ProjectModel.create, ProjectModel.findByIdAndDelete,
    ProjectMemberModel.findOne, ProjectMemberModel.create,
    ProjectMemberModel.findByIdAndDelete, ProjectMemberModel.deleteMany,
    ProjectMemberModel.save, TaskModel.findById, TaskModel.deleteMany,
    TaskModel.findByIdAndUpdate, UserModel.findOne, UserModel.findById,
    startSession, startTransaction, commitTransaction, abortTransaction,
    endSession, freshId, populate_chain, equals,
    read, write, io, try_catch, bind, ret, throw in *.

Ltac branch :=
  match goal with
  | |- context [match faults ?w ?n with _ => _ end] => destruct (faults w n) eqn:?
  | |- context [match project_of ?d ?i with _ => _ end] =>
      destruct (project_of d i) eqn:?
  | |- context [match membership ?d ?i ?u with _ => _ end] =>
      destruct (membership d i u) eqn:?
  | |- context [match task_of ?d ?i with _ => _ end] => destruct (task_of d i) eqn:?
  | |- context [match find ?f ?l with _ => _ end] => destruct (find f l) eqn:?
  | |- context [match option_map ?f ?o with _ => _ end] => destruct o eqn:?
  | |- context [if ?b then _ else _] => destruct b eqn:?
  end.

Ltac run := unfold_model; cbn; repeat (branch; cbn).

(** Execution along the path on which nothing fails, using the lookups
    already known. *)
Ltac known :=
  match goal with
  | H : project_of _ _ = _ |- _ => rewrite H
  | H : membership _ _ _ = _ |- _ => rewrite H
  | H : task_of _ _ = _ |- _ => rewrite H
  | H : find _ _ = _ |- _ => rewrite H
  end.

Ltac calmly Q := repeat first [rewrite Q | known | progress cbn].

Lemma membership_some d pid uid m :
  membership d pid uid = Some m ->
  In m (members d) /\ m_project m = pid /\ m_users m = uid.
Proof.
  unfold membership, member_of. intros H.
  apply find_some in H. destruct H as [Hin H].
  apply andb_true_iff in H. destruct H as [H1 H2].
  apply N.eqb_eq in H1. apply N.eqb_eq in H2. auto.
Qed.

Lemma membership_none d pid uid m :
  membership d pid uid = None ->
  In m (members d) -> m_project m = pid -> m_users m = uid -> False.
Proof.
  unfold membership, member_of. intros H Hin H1 H2.
  apply (find_none _ _ H) in Hin. subst.
  rewrite !N.eqb_refl in Hin. discriminate.
Qed.

Lemma membership_unique d pid uid m m' :
  unique_membership d ->
  membership d pid uid = Some m ->
  In m' (members d) -> m_project m' = pid -> m_users m' = uid -> m' = m.
Proof.
  intros U H Hin H1 H2. apply membership_some in H.
  destruct H as (Hin' & H1' & H2'). apply U; congruence.
Qed.

(** The resolvers as functions of the committed data, when no lookup
    fails. *)
Lemma isProjectMember_quiet pid uid w :
  quiet w ->
  exists k, isProjectMember (Oid pid) (Oid uid) w
            = (Ok (member_in (db w) pid uid), later k w).
Proof.
  intros Q. unfold member_in. unfold_model. cbn. rewrite !Q. cbn.
  destruct (project_of (db w) pid) as [p|]; cbn.
  - destruct (p_createdBy p =? uid)%N; cbn.
    + exists 1. reflexivity.
    + rewrite Q. cbn. exists 2.
      destruct (membership (db w) pid uid); reflexivity.
  - exists 1. reflexivity.
Qed.

Lemma isProjectAdmin_quiet pid uid w :
  quiet w ->
  exists v k, isProjectAdmin (Oid pid) (Oid uid) w = (Ok v, later k w)
              /\ Js.is_true v = admin_in (db w) pid uid.
Proof.
  intros Q. unfold admin_in. unfold_model. cbn. rewrite !Q. cbn.
  destruct (project_of (db w) pid) as [p|]; cbn.
  - destruct (p_createdBy p =? uid)%N; cbn.
    + exists (Js.JBool true), 1. auto.
    + rewrite Q. cbn.
      destruct (membership (db w) pid uid) as [m|]; cbn.
      * exists (Js.JBool (String.eqb (m_role m) UserRolesEnum.ADMIN)), 2.
        split; [reflexivity|]. cbn. destruct (String.eqb _ _); reflexivity.
      * exists Js.JNull, 2. auto.
  - exists (Js.JBool false), 1. auto.
Qed.

(** The resolvers never throw and never write, whatever fails. *)
Lemma isProjectMember_total projectId userId w :
  exists b w', isProjectMember projectId userId w = (Ok b, w')
               /\ db w' = db w /\ txn w' = txn w /\ faults w' = faults w
               /\ nextId w' = nextId w /\ ticks w <= ticks w' <= 2 + ticks w.
Proof.
  destruct projectId, userId; run; do 2 eexists; repeat split; cbn; lia.
Qed.

Lemma isProjectAdmin_total projectId userId w :
  exists v w', isProjectAdmin projectId userId w = (Ok v, w')
               /\ db w' = db w /\ txn w' = txn w /\ faults w' = faults w
               /\ nextId w' = nextId w /\ ticks w <= ticks w' <= 2 + ticks w.
Proof.
  destruct projectId, userId; run; do 2 eexists; repeat split; cbn; lia.
Qed.

(* --------------------------------------------------------------------- *)
(** ** Resolvers *)
(* --------------------------------------------------------------------- *)

Lemma calm_quiet d : quiet (calm d).
Proof. intros n. reflexivity. Qed.

(** C4. [isProjectMember] always returns a boolean and never throws; it is
    [false] for a malformed project or user id, for a project that does not
    exist and whenever a lookup fails; when the lookups succeed it is [true]
    exactly when the user is the project's creator or holds a membership row
    of the project, whatever the role; in particular the creator is a
    member of a project with no membership row at all. *)
Theorem isProjectMember_resolves (projectId userId : RawId) (w : World) :
  (exists b w', isProjectMember projectId userId w = (Ok b, w') /\ db w' = db w)
  /\ (isValid projectId && isValid userId = false ->
      isProjectMember projectId userId w = (Ok false, w))
  /\ (forall pid, projectId = Oid pid -> project_of (db w) pid = None ->
      fst (isProjectMember projectId userId w) = Ok false)
  /\ (forall c, faults w (ticks w) = Some c -> 
      fst (isProjectMember projectId userId w) = Ok false)
  /\ (forall c pid uid p,
        projectId = Oid pid -> userId = Oid uid ->
        project_of (db w) pid = Some p -> p_createdBy p <> uid ->
        faults w (S (ticks w)) = Some c ->
        fst (isProjectMember projectId userId w) = Ok false)
  /\ (quiet w -> forall pid uid,
        projectId = Oid pid -> userId = Oid uid ->
        (fst (isProjectMember projectId userId w) = Ok true <->
         exists p, project_of (db w) pid = Some p
                   /\ (p_createdBy p = uid
                       \/ exists m, In m (members (db w))
                                    /\ m_project m = pid /\ m_users m = uid)))
  /\ (quiet w -> forall pid p,
        projectId = Oid pid -> project_of (db w) pid = Some p ->
        userId = Oid (p_createdBy p) -> members (db w) = [] ->
        fst (isProjectMember projectId userId w) = Ok true).
Proof.
  split; [|split; [|split; [|split; [|split; [|split]]]]].
  - destruct (isProjectMember_total projectId userId w) as (b & w' & E & D & _).
    eauto.
  - destruct projectId, userId; cbn; intros; try discriminate; reflexivity.
  - intros pid -> H. destruct userId; [|reflexivity]. run; congruence.
  - intros c H. destruct projectId, userId; try reflexivity.
    unfold_model. cbn. rewrite H. reflexivity.
  - intros c pid uid p -> -> Hp Hne Hf. unfold_model. cbn.
    destruct (faults w (ticks w)); [reflexivity|]. cbn. rewrite Hp.
    destruct (N.eqb_spec (p_createdBy p) uid); [contradiction|]. cbn.
    rewrite Hf. reflexivity.
  - intros Q pid uid -> ->.
    destruct (isProjectMember_quiet pid uid w Q) as (k & E). rewrite E. cbn.
    unfold member_in. split.
    { intros H. injection H as H.
    destruct (project_of (db w) pid) as [p|]; [|discriminate].
    exists p. split; [reflexivity|].
    apply orb_true_iff in H. destruct H as [H|H].
    + left. apply N.eqb_eq. exact H.
    + right. destruct (membership (db w) pid uid) as [m|] eqn:Em; [|discriminate].
      exists m. apply membership_some. exact Em. }
    { intros (p & Hp & H). rewrite Hp. f_equal.
      destruct H as [H|(m & Hin & H1 & H2)].
      + apply N.eqb_eq in H. rewrite H. reflexivity.
      + destruct (membership (db w) pid uid) eqn:Em.
        * apply orb_true_r.
        * exfalso. eapply membership_none; eauto. }
  - intros Q pid p -> Hp -> _.
    destruct (isProjectMember_quiet pid (p_createdBy p) w Q) as (k & E).
    rewrite E. cbn. unfold member_in. rewrite Hp, N.eqb_refl. reflexivity.
Qed.

Lemma isProjectMember_resolves_witness :
  fst (isProjectMember (NotOid "42") (Oid 10) (calm sample)) = Ok false
  /\ fst (isProjectMember (Oid 9) (Oid 10) (calm sample)) = Ok false
  /\ fst (isProjectMember (Oid 1) (Oid 11) (failing 0 sample)) = Ok false
  /\ fst (isProjectMember (Oid 1) (Oid 11) (failing 1 sample)) = Ok false
  /\ fst (isProjectMember (Oid 1) (Oid 11) (calm sample)) = Ok true
  /\ fst (isProjectMember (Oid 1) (Oid 10)
            (calm (with_members (fun _ => []) sample))) = Ok true.
Proof.
  split; [|split; [|split; [|split; [|split]]]].
  - destruct (isProjectMember_resolves (NotOid "42") (Oid 10) (calm sample))
      as (_ & H & _). rewrite H; reflexivity.
  - destruct (isProjectMember_resolves (Oid 9) (Oid 10) (calm sample))
      as (_ & _ & H & _). apply (H 9%N); reflexivity.
  - destruct (isProjectMember_resolves (Oid 1) (Oid 11) (failing 0 sample))
      as (_ & _ & _ & H & _). apply (H 6%N). reflexivity.
  - destruct (isProjectMember_resolves (Oid 1) (Oid 11) (failing 1 sample))
      as (_ & _ & _ & _ & H & _).
    apply (H 6%N 1%N 11%N alpha); try reflexivity. discriminate.
  - destruct (isProjectMember_resolves (Oid 1) (Oid 11) (calm sample))
      as (_ & _ & _ & _ & _ & H & _).
    apply (H (calm_quiet _) 1%N 11%N); try reflexivity.
    exists alpha. split; [reflexivity|]. right.
    exists (mkMember 51 11 1 "member"). cbn. auto.
  - destruct (isProjectMember_resolves (Oid 1) (Oid 10)
                (calm (with_members (fun _ => []) sample)))
      as (_ & _ & _ & _ & _ & _ & H).
    apply (H (calm_quiet _) 1%N alpha); reflexivity.
Defined.

(** C5. When the lookups succeed, [isProjectAdmin] is [true] exactly when
    the user is the project's creator or holds a membership row of the
    project whose role is the literal ["admin"]; a row with role
    ["project_admin"] or ["member"] never makes it [true], whatever else
    happens. *)
Theorem isProjectAdmin_resolves (pid uid : ObjectId) (w : World) :
  unique_membership (db w) ->
  (quiet w ->
   (fst (isProjectAdmin (Oid pid) (Oid uid) w) = Ok (Js.JBool true) <->
    exists p, project_of (db w) pid = Some p
              /\ (p_createdBy p = uid
                  \/ exists m, In m (members (db w))
                               /\ m_project m = pid /\ m_users m = uid
                               /\ m_role m = "admin")))
  /\ (forall p m,
        project_of (db w) pid = Some p -> p_createdBy p <> uid ->
        In m (members (db w)) -> m_project m = pid -> m_users m = uid ->
        m_role m = "project_admin" \/ m_role m = "member" ->
        fst (isProjectAdmin (Oid pid) (Oid uid) w) <> Ok (Js.JBool true)).
Proof.
  intros U. split.
  - intros Q. unfold_model. cbn. rewrite !Q. cbn.
    destruct (project_of (db w) pid) as [p|] eqn:Hp; cbn.
    + destruct (N.eqb_spec (p_createdBy p) uid) as [Hc|Hc]; cbn.
      * split; [|reflexivity]. intros _. exists p. auto.
      * rewrite Q. cbn.
        destruct (membership (db w) pid uid) as [m|] eqn:Em; cbn.
        -- split.
           ++ intros H. injection H as H. apply String.eqb_eq in H.
              exists p. split; [reflexivity|]. right. exists m.
              apply membership_some in Em. tauto.
           ++ intros (p' & Hp' & [H|(m' & Hin & H1 & H2 & H3)]).
              ** congruence.
              ** rewrite (membership_unique _ _ _ _ _ U Em Hin H1 H2) in H3.
                 rewrite H3. reflexivity.
        -- split; [discriminate|].
           intros (p' & Hp' & [H|(m' & Hin & H1 & H2 & H3)]).
           ++ congruence.
           ++ exfalso. eapply membership_none; eauto.
    + split; [discriminate|]. intros (p' & Hp' & _). discriminate.
  - intros p m Hp Hc Hin H1 H2 Hrole. unfold_model. cbn.
    destruct (faults w (ticks w)); cbn; [discriminate|].
    rewrite Hp. destruct (N.eqb_spec (p_createdBy p) uid); [contradiction|]. cbn.
    destruct (faults w (S (ticks w))); cbn; [discriminate|].
    destruct (membership (db w) pid uid) as [m'|] eqn:Em; cbn; [|discriminate].
    rewrite <- (membership_unique _ _ _ _ _ U Em Hin H1 H2).
    destruct Hrole as [-> | ->]; discriminate.
Qed.

Lemma sample_unique : unique_membership sample.
Proof.
  intros m1 m2 H1 H2. cbn in H1, H2.
  intuition (subst; cbn in *; try reflexivity; try discriminate).
Qed.

Lemma isProjectAdmin_resolves_witness :
  fst (isProjectAdmin (Oid 1) (Oid 10) (calm sample)) = Ok (Js.JBool true)
  /\ fst (isProjectAdmin (Oid 1) (Oid 12) (calm sample)) <> Ok (Js.JBool true)
  /\ fst (isProjectAdmin (Oid 1) (Oid 11) (calm sample)) <> Ok (Js.JBool true).
Proof.
  split; [|split].
  - apply (isProjectAdmin_resolves 1 10 (calm sample) sample_unique).
    + apply calm_quiet.
    + exists alpha. split; [reflexivity|]. left. reflexivity.
  - apply (proj2 (isProjectAdmin_resolves 1 12 (calm sample) sample_unique)
             alpha (mkMember 52 12 1 "project_admin")); cbn; auto; discriminate.
  - apply (proj2 (isProjectAdmin_resolves 1 11 (calm sample) sample_unique)
             alpha (mkMember 51 11 1 "member")); cbn; auto; discriminate.
Defined.

(* --------------------------------------------------------------------- *)
(** ** Project creation *)
(* --------------------------------------------------------------------- *)

Lemma filter_app_single {A} (f : A -> bool) (l : list A) (x : A) :
  (forall y, In y l -> f y = false) -> f x = true -> filter f (l ++ [x]) = [x].
Proof.
  intros Hl Hx. rewrite filter_app. cbn. rewrite Hx.
  replace (filter f l) with (@nil A); [reflexivity|].
  symmetry. induction l as [|a l IH]; [reflexivity|].
  cbn. rewrite (Hl a (or_introl eq_refl)). apply IH.
  intros y Hy. apply Hl. right. exact Hy.
Qed.

Lemma name_taken_false name d p :
  name_taken name d = false -> In p (projects d) -> p_name p <> name.
Proof.
  unfold name_taken. intros H Hin E.
  assert (X : existsb (fun q => String.eqb (p_name q) name) (projects d) = true).
  { apply existsb_exists. exists p. split; [exact Hin|].
    apply String.eqb_eq. exact E. }
  congruence.
Qed.

(** The two outcomes of [createProject], whatever fails. *)
Lemma createProject_outcomes (actor : ObjectId) (name : string)
      (description : option string) (w : World) :
  let r := createProject actor name description w in
  (exists p m created,
      fst r = Ok (Sent 201 (ProjectData created) "Project created successfully")
      /\ db (snd r) = insert_member m (insert_project p (db w))
      /\ p_id p = nextId w /\ p_name p = name /\ p_createdBy p = actor
      /\ m_project m = p_id p /\ m_users m = actor
      /\ m_role m = UserRolesEnum.ADMIN)
  \/ ((exists e, fst r = Throw e) /\ db (snd r) = db w).
Proof.
  intros r. subst r. unfold createProject.
  destruct (Js.nonempty (Js.trim name)); cbn [negb];
    [|right; split; [eexists; reflexivity | reflexivity]].
  unfold_model. cbn. repeat (branch; cbn).
  all: try (right; split; [eexists; reflexivity | reflexivity]).
  all: left; do 3 eexists; repeat split.
Qed.

(** C2. [createProject] is atomic. For every actor and non-empty name,
    whatever round trip fails, either the reply is 201 and the committed
    data gained exactly the project and one membership row binding the
    actor to it with role admin (the only row of that project when its id
    is fresh), or the call throws and the committed data is what it was:
    neither row is there, and a name that was free still has no row.
    Without failures and with a free name that is not blank the first case
    happens; a failure between the two writes gives the second. *)
Theorem createProject_atomic (actor : ObjectId) (name : string)
        (description : option string) (w : World) :
  name <> "" ->
  let r := createProject actor name description w in
  ((exists p m created,
       fst r = Ok (Sent 201 (ProjectData created) "Project created successfully")
       /\ db (snd r) = insert_member m (insert_project p (db w))
       /\ p_id p = nextId w /\ p_name p = name /\ p_createdBy p = actor
       /\ m_project m = p_id p /\ m_users m = actor
       /\ m_role m = UserRolesEnum.ADMIN
       /\ ((forall m0, In m0 (members (db w)) -> m_project m0 <> p_id p) ->
           filter (fun x => m_project x =? p_id p)%N (members (db (snd r))) = [m]))
   \/ ((exists e, fst r = Throw e)
       /\ db (snd r) = db w
       /\ (name_taken name (db w) = false ->
           forall p, In p (projects (db (snd r))) -> p_name p <> name)))
  /\ (Js.nonempty (Js.trim name) = true ->
      quiet w -> name_taken name (db w) = false ->
      exists reply, fst r = Ok reply)
  /\ (forall c,
        faults w (ticks w) = None -> faults w (1 + ticks w) = None ->
        faults w (2 + ticks w) = Some c ->
        (exists e, fst r = Throw e) /\ db (snd r) = db w).
Proof.
  intros _ r. split; [|split].
  - destruct (createProject_outcomes actor name description w)
      as [(p & m & created & E & D & Hi & Hn & Hc & Hp & Hu & Hr)|(E & D)];
      fold r in E, D.
    + left. exists p, m, created. repeat (split; [assumption|]).
      intros Hfresh. rewrite D. cbn.
      apply filter_app_single.
      * intros y Hy. apply N.eqb_neq. apply Hfresh. exact Hy.
      * apply N.eqb_eq. exact Hp.
    + right. repeat (split; [assumption|]).
      rewrite D. intros Hfree p. apply name_taken_false. exact Hfree.
  - intros H Q Hfree. subst r. unfold createProject. rewrite H. cbn [negb].
    unfold name_taken in Hfree.
    unfold_model. cbn. repeat (rewrite Q; cbn). unfold name_taken.
    rewrite Hfree. cbn. repeat (rewrite Q; cbn). eexists. reflexivity.
  - intros c F0 F1 F2. subst r. unfold createProject.
    destruct (Js.nonempty (Js.trim name)); cbn [negb];
      [|split; [eexists|]; reflexivity].
    unfold_model. cbn in *. rewrite F0. cbn. rewrite F1. cbn.
    destruct (name_taken name (db w)); cbn.
    + rewrite F2. cbn. split; eauto.
    + rewrite F2. cbn.
      destruct (faults w (S (S (S (ticks w))))); cbn;
        [|destruct (c =? 11000)%N; cbn]; split; eauto.
Qed.

Lemma createProject_atomic_witness :
  (exists reply, fst (createProject 13 "Beta" None (calm sample)) = Ok reply)
  /\ ((exists e, fst (createProject 13 "Beta" None (failing 2 sample)) = Throw e)
      /\ db (snd (createProject 13 "Beta" None (failing 2 sample))) = sample).
Proof.
  split.
  - apply (createProject_atomic 13 "Beta" None (calm sample)
             ltac:(discriminate)).
    + reflexivity.
    + apply calm_quiet.
    + reflexivity.
  - apply (proj2 (proj2 (createProject_atomic 13 "Beta" None (failing 2 sample)
                            ltac:(discriminate))) 6%N); reflexivity.
Defined.

(* --------------------------------------------------------------------- *)
(** ** Project deletion *)
(* --------------------------------------------------------------------- *)

(** The two outcomes of [deleteProject], whatever fails. *)
Lemma deleteProject_outcomes (actor : ObjectId) (projectId : RawId) (w : World) :
  let r := deleteProject actor projectId w in
  (exists pid, projectId = Oid pid /\ fst r = Ok deleted
               /\ db (snd r) = cascade pid (db w))
  \/ (fst r <> Ok deleted /\ db (snd r) = db w).
Proof.
  intros r. subst r. unfold deleteProject. destruct projectId as [pid|s].
  - unfold_model. cbn. repeat (branch; cbn).
    all: try (right; split; [discriminate | reflexivity]).
    all: left; exists pid; repeat split.
  - right. split; [discriminate | reflexivity].
Qed.

Lemma cascade_project pid d : project_of (cascade pid d) pid = None.
Proof.
  unfold project_of, cascade. cbn.
  induction (projects d) as [|p l IH]; [reflexivity|].
  cbn. destruct (p_id p =? pid)%N eqn:E; cbn; [exact IH|].
  rewrite E. exact IH.
Qed.

Lemma cascade_members pid d m :
  In m (members (cascade pid d)) <-> In m (members d) /\ m_project m <> pid.
Proof.
  unfold cascade. cbn. rewrite filter_In, negb_true_iff, N.eqb_neq. tauto.
Qed.

Lemma cascade_tasks pid d t :
  In t (tasks (cascade pid d)) <-> In t (tasks d) /\ t_project t <> pid.
Proof.
  unfold cascade. cbn. rewrite filter_In, negb_true_iff, N.eqb_neq. tauto.
Qed.

Lemma cascade_projects pid d p :
  In p (projects (cascade pid d)) <-> In p (projects d) /\ p_id p <> pid.
Proof.
  unfold cascade. cbn. rewrite filter_In, negb_true_iff, N.eqb_neq. tauto.
Qed.

(** An authorized actor deleting an existing project succeeds when nothing
    fails. *)
Lemma deleteProject_quiet (actor pid : ObjectId) (w : World) :
  quiet w ->
  isSome (project_of (db w) pid) = true ->
  admin_in (db w) pid actor = true ->
  fst (deleteProject actor (Oid pid) w) = Ok deleted.
Proof.
  intros Q Hp Ha. unfold deleteProject, admin_in in *. unfold_model.
  destruct (project_of (db w) pid) as [p|] eqn:Ep; [|discriminate].
  calmly Q.
  destruct (p_createdBy p =? actor)%N; cbn in *.
  - calmly Q. reflexivity.
  - destruct (membership (db w) pid actor) as [m|] eqn:Em; [|discriminate].
    calmly Q. rewrite Ha. calmly Q. reflexivity.
Qed.

(** C6. [deleteProject] is all or nothing. For an existing project and an
    authorized actor, whatever round trip fails: either the reply is 200,
    the project is gone and no membership row and no task refers to it, or
    there is no such reply and the committed data, which is all later reads
    see, is unchanged. Without failures the first case happens. *)
Theorem deleteProject_all_or_nothing (actor pid : ObjectId) (w : World) :
  isSome (project_of (db w) pid) = true ->
  admin_in (db w) pid actor = true ->
  let r := deleteProject actor (Oid pid) w in
  ((fst r = Ok deleted
    /\ project_of (db (snd r)) pid = None
    /\ (forall m, In m (members (db (snd r))) -> m_project m <> pid)
    /\ (forall t, In t (tasks (db (snd r))) -> t_project t <> pid))
   \/ (fst r <> Ok deleted /\ db (snd r) = db w))
  /\ (quiet w -> fst r = Ok deleted).
Proof.
  intros Hp Ha r. split.
  - destruct (deleteProject_outcomes actor (Oid pid) w)
      as [(pid' & E & R & D)|(R & D)]; fold r in R, D.
    + injection E as <-. left. rewrite D. split; [exact R|]. split; [|split].
      * apply cascade_project.
      * intros m Hm. apply cascade_members in Hm. tauto.
      * intros t Ht. apply cascade_tasks in Ht. tauto.
    + right. auto.
  - intros Q. apply deleteProject_quiet; assumption.
Qed.

Lemma deleteProject_all_or_nothing_witness :
  fst (deleteProject 10 (Oid 1) (calm sample)) = Ok deleted
  /\ ((fst (deleteProject 10 (Oid 1) (failing 4 sample)) = Ok deleted
       /\ project_of (db (snd (deleteProject 10 (Oid 1) (failing 4 sample)))) 1
          = None
       /\ (forall m, In m (members (db (snd (deleteProject 10 (Oid 1)
                                                (failing 4 sample))))) ->
                     m_project m <> 1%N)
       /\ (forall t, In t (tasks (db (snd (deleteProject 10 (Oid 1)
                                              (failing 4 sample))))) ->
                     t_project t <> 1%N))
      \/ (fst (deleteProject 10 (Oid 1) (failing 4 sample)) <> Ok deleted
          /\ db (snd (deleteProject 10 (Oid 1) (failing 4 sample))) = sample)).
Proof.
  split.
  - apply (deleteProject_all_or_nothing 10 1 (calm sample) eq_refl eq_refl).
    apply calm_quiet.
  - apply (deleteProject_all_or_nothing 10 1 (failing 4 sample) eq_refl eq_refl).
Defined.

(** C10. A committed [deleteProject] removes the project, its membership
    rows and its tasks, and nothing else: every note is kept, those of the
    deleted project included, and so is every row that belongs to another
    project; no row is added. *)
Theorem deleteProject_frame (actor : ObjectId) (projectId : RawId) (w : World) :
  fst (deleteProject actor projectId w) = Ok deleted ->
  exists pid,
    projectId = Oid pid
    /\ notes (db (snd (deleteProject actor projectId w))) = notes (db w)
    /\ users (db (snd (deleteProject actor projectId w))) = users (db w)
    /\ (forall p, In p (projects (db (snd (deleteProject actor projectId w))))
                  <-> In p (projects (db w)) /\ p_id p <> pid)
    /\ (forall m, In m (members (db (snd (deleteProject actor projectId w))))
                  <-> In m (members (db w)) /\ m_project m <> pid)
    /\ (forall t, In t (tasks (db (snd (deleteProject actor projectId w))))
                  <-> In t (tasks (db w)) /\ t_project t <> pid).
Proof.
  intros R.
  destruct (deleteProject_outcomes actor projectId w)
    as [(pid & E & _ & D)|(R' & _)]; [|contradiction].
  exists pid. rewrite D. split; [exact E|].
  split; [reflexivity|]. split; [reflexivity|].
  split; [|split]; intros x.
  - apply cascade_projects.
  - apply cascade_members.
  - apply cascade_tasks.
Qed.

Lemma deleteProject_frame_witness :
  exists pid,
    Oid 1 = Oid pid
    /\ notes (db (snd (deleteProject 10 (Oid 1) (calm sample))))
       = [mkNote 80 1 10 "kickoff"]
    /\ users (db (snd (deleteProject 10 (Oid 1) (calm sample)))) = users sample
    /\ (forall p, In p (projects (db (snd (deleteProject 10 (Oid 1) (calm sample)))))
                  <-> In p (projects sample) /\ p_id p <> pid)
    /\ (forall m, In m (members (db (snd (deleteProject 10 (Oid 1) (calm sample)))))
                  <-> In m (members sample) /\ m_project m <> pid)
    /\ (forall t, In t (tasks (db (snd (deleteProject 10 (Oid 1) (calm sample)))))
                  <-> In t (tasks sample) /\ t_project t <> pid).
Proof.
  exact (deleteProject_frame 10 (Oid 1) (calm sample) eq_refl).
Defined.

(* --------------------------------------------------------------------- *)
(** ** Adding a member *)
(* --------------------------------------------------------------------- *)

Lemma known_role_nonempty s :
  Js.includes AvailableUserRoles (Js.toLowerCase s) = true -> Js.nonempty s = true.
Proof. destruct s; [discriminate | reflexivity]. Qed.

(** Past the role check, the role that is stored is always ["member"]. *)
Lemma stored_role role :
  Js.truthy role && Js.includes AvailableUserRoles (role_input role) = false ->
  (if Js.includes AvailableUserRoles (role_input role)
   then role_input role else UserRolesEnum.MEMBER) = UserRolesEnum.MEMBER.
Proof.
  destruct role as [s|]; [|reflexivity].
  unfold role_input, Js.truthy. destruct (Js.nonempty s); [|reflexivity].
  cbn [andb]. intros ->. reflexivity.
Qed.

Lemma addMember_effect (actor : ObjectId) (projectId : RawId)
      (email role : option string) (w : World) :
  let r := addMemberToProject actor projectId email role w in
  db (snd r) = db w
  \/ exists m pid, projectId = Oid pid
                   /\ db (snd r) = insert_member m (db w)
                   /\ membership (db w) pid (m_users m) = None
                   /\ m_project m = pid /\ m_role m = UserRolesEnum.MEMBER.
Proof.
  intros r. subst r. unfold addMemberToProject.
  destruct projectId as [pid|]; [|left; reflexivity].
  destruct email as [e|]; [|left; reflexivity].
  destruct (negb (Js.nonempty e) || negb (Js.nonempty (Js.trim e)));
    [left; reflexivity|].
  fold (role_input role). cbv zeta.
  destruct (Js.truthy role && Js.includes AvailableUserRoles (role_input role))
    eqn:G; [left; reflexivity|].
  rewrite (stored_role role G).
  unfold_model. cbn. repeat (branch; cbn).
  all: try (left; reflexivity).
  all: right; do 2 eexists; repeat split; cbn.
  all: match goal with
       | H : isSome (option_map _ ?o) = false |- ?o = None =>
           destruct o; [discriminate H | reflexivity]
       end.
Qed.

(** C8. A call of [addMemberToProject] whose role, in lower case, is one of
    the known roles fails with a 400 error before any lookup: the world is
    untouched. A call that reaches the store therefore has no role or one
    outside the list; whatever row a call stores has the role ["member"],
    and a call with an unrecognized role that passes the later checks
    stores exactly such a row. *)
Theorem addMember_role_gate (actor : ObjectId) (projectId : RawId)
        (email role : option string) (w : World) :
  let r := addMemberToProject actor projectId email role w in
  (forall s, role = Some s ->
             Js.includes AvailableUserRoles (Js.toLowerCase s) = true ->
             exists msg, r = (Throw (ApiError 400 msg), w))
  /\ (ticks (snd r) <> ticks w ->
      Js.truthy role = false
      \/ exists s, role = Some s
                   /\ Js.includes AvailableUserRoles (Js.toLowerCase s) = false)
  /\ (db (snd r) = db w
      \/ exists m pid, projectId = Oid pid
                       /\ db (snd r) = insert_member m (db w)
                       /\ m_project m = pid /\ m_role m = UserRolesEnum.MEMBER)
  /\ (forall s e pid u,
        role = Some s -> Js.nonempty s = true ->
        Js.includes AvailableUserRoles (Js.toLowerCase s) = false ->
        projectId = Oid pid -> email = Some e ->
        Js.nonempty (Js.trim e) = true ->
        quiet w ->
        admin_in (db w) pid actor = true ->
        find (fun u => String.eqb (u_email u) (Js.toLowerCase e)) (users (db w))
        = Some u ->
        membership (db w) pid (u_id u) = None ->
        db (snd r)
        = insert_member (mkMember (nextId w) (u_id u) pid UserRolesEnum.MEMBER)
            (db w)).
Proof.
  intros r. split; [|split; [|split]].
  - intros s -> Hs. subst r. unfold addMemberToProject.
    destruct projectId as [pid|]; [|eexists; reflexivity].
    destruct email as [e|]; [|eexists; reflexivity].
    destruct (negb (Js.nonempty e) || negb (Js.nonempty (Js.trim e)));
      [eexists; reflexivity|].
    cbv zeta. unfold Js.truthy. rewrite (known_role_nonempty s Hs), Hs.
    eexists; reflexivity.
  - subst r. unfold addMemberToProject.
    destruct projectId as [pid|]; [|intros H; exfalso; apply H; reflexivity].
    destruct email as [e|]; [|intros H; exfalso; apply H; reflexivity].
    destruct (negb (Js.nonempty e) || negb (Js.nonempty (Js.trim e)));
      [intros H; exfalso; apply H; reflexivity|].
    fold (role_input role). cbv zeta.
    destruct (Js.truthy role && Js.includes AvailableUserRoles (role_input role))
      eqn:G; [intros H; exfalso; apply H; reflexivity|].
    intros _. destruct role as [s|]; [|left; reflexivity].
    unfold role_input, Js.truthy in *.
    destruct (Js.nonempty s); [|left; reflexivity].
    right. exists s. split; [reflexivity|]. exact G.
  - destruct (addMember_effect actor projectId email role w)
      as [D|(m & pid & E & D & _ & Hp & Hr)]; [left; exact D|].
    right. exists m, pid. auto.
  - intros s e pid u -> Hs Hrole -> -> He Q Ha Hu Hm. subst r.
    unfold addMemberToProject.
    assert (Hne : Js.nonempty e = true).
    { destruct e; [discriminate | reflexivity]. }
    rewrite Hne, He. cbn [negb orb]. cbv zeta.
    unfold Js.truthy. rewrite Hs, Hrole. cbn [andb].
    unfold admin_in in Ha. unfold_model.
    destruct (project_of (db w) pid) as [p|] eqn:Ep; [|discriminate].
    calmly Q.
    destruct (p_createdBy p =? actor)%N; cbn in *.
    + calmly Q. reflexivity.
    + destruct (membership (db w) pid actor) as [m|] eqn:Em; [|discriminate].
      calmly Q. rewrite Ha. calmly Q.
      destruct (N.eqb_spec (u_id u) actor) as [->|Hneq].
      * congruence.
      * calmly Q. reflexivity.
Qed.

Lemma addMember_role_gate_witness :
  (exists msg, addMemberToProject 10 (Oid 1) (Some "dee@x.io") (Some "Admin")
                 (calm sample)
               = (Throw (ApiError 400 msg), calm sample))
  /\ db (snd (addMemberToProject 10 (Oid 1) (Some "Dee@x.io") (Some "boss")
                (calm sample)))
     = insert_member (mkMember 100 13 1 "member") sample.
Proof.
  split.
  - apply (proj1 (addMember_role_gate 10 (Oid 1) (Some "dee@x.io") (Some "Admin")
                    (calm sample)) "Admin"); reflexivity.
  - apply (proj2 (proj2 (proj2
             (addMember_role_gate 10 (Oid 1) (Some "Dee@x.io") (Some "boss")
                (calm sample))))
             "boss" "Dee@x.io" 1%N (mkUser 13 "dee@x.io" "dee"));
      try reflexivity.
    apply calm_quiet.
Defined.

(* --------------------------------------------------------------------- *)
(** ** Removing a member *)
(* --------------------------------------------------------------------- *)

(** The handler has two kinds of exit only: the 400 of the id check and
    the 500 of its catch-all, or a deletion. *)
Lemma removeMember_exits (projection : list string) (actor : ObjectId)
      (projectId memberId : RawId) (w : World) :
  let r := removeMemberFromProjectWith projection actor projectId memberId w in
  fst r = Ok removed
  \/ fst r = Throw remove_failed
  \/ fst r = Throw (ApiError 400 "Invalid project ID or member ID").
Proof.
  intros r. subst r. unfold removeMemberFromProjectWith, removeMember_try.
  destruct projectId as [pid|], memberId as [mid|]; auto.
  unfold_model. cbn. repeat (branch; cbn); auto.
Qed.

(** The projection the source asks for keeps [_id] only. *)
Lemma select_user m : d_users (select ["user"] m) = None.
Proof. reflexivity. Qed.

(** As written, the handler never changes the data. *)
Lemma removeMember_inert (actor : ObjectId) (projectId memberId : RawId)
      (w : World) :
  db (snd (removeMemberFromProject actor projectId memberId w)) = db w
  /\ exists e, fst (removeMemberFromProject actor projectId memberId w) = Throw e.
Proof.
  unfold removeMemberFromProject, removeMemberFromProjectWith, removeMember_try.
  destruct projectId as [pid|], memberId as [mid|];
    try (split; [reflexivity | eexists; reflexivity]).
  unfold_model. cbn. repeat (branch; cbn).
  all: split; [reflexivity | eexists; reflexivity].
Qed.

(** C3. Removing the membership row of a project's creator: for every
    actor and every failure pattern the call fails and the committed data,
    the creator's row included, is unchanged. The guard throws the 400
    "Project creator cannot be removed from the project", but it sits inside
    the [try] whose handler rethrows every error as a 500: what the caller
    gets is the generic internal error, not a conflict. *)
Theorem removeMember_creator (projection : list string) (actor pid : ObjectId)
        (w : World) (p : Project) (row : ProjectMember) :
  project_of (db w) pid = Some p ->
  membership (db w) pid (p_createdBy p) = Some row ->
  let r := removeMemberFromProjectWith projection actor (Oid pid)
             (Oid (p_createdBy p)) w in
  fst r = Throw remove_failed
  /\ db (snd r) = db w
  /\ membership (db (snd r)) pid (p_createdBy p) = Some row
  /\ (quiet w ->
      fst (removeMember_try projection actor pid (p_createdBy p) w)
      = Throw (ApiError 400 "Project creator cannot be removed from the project")).
Proof.
  intros Hp Hm r.
  assert (D : fst r = Throw remove_failed /\ db (snd r) = db w).
  { subst r. unfold removeMemberFromProjectWith, removeMember_try.
    unfold_model. cbn.
    destruct (faults w (ticks w)); cbn; [auto|]. rewrite Hp. cbn.
    destruct (faults w (S (ticks w))); cbn; [auto|]. rewrite Hm. cbn.
    rewrite N.eqb_refl. cbn. auto. }
  destruct D as [R D]. split; [exact R|]. split; [exact D|]. split.
  - rewrite D. exact Hm.
  - intros Q. unfold removeMember_try. unfold_model.
    calmly Q. rewrite N.eqb_refl. reflexivity.
Qed.

Lemma removeMember_creator_witness :
  fst (removeMemberFromProject 10 (Oid 1) (Oid 10) (calm sample))
  = Throw remove_failed
  /\ db (snd (removeMemberFromProject 10 (Oid 1) (Oid 10) (calm sample))) = sample
  /\ membership
       (db (snd (removeMemberFromProject 10 (Oid 1) (Oid 10) (calm sample)))) 1 10
     = Some (mkMember 50 10 1 "admin")
  /\ (quiet (calm sample) ->
      fst (removeMember_try ["user"] 10 1 10 (calm sample))
      = Throw (ApiError 400 "Project creator cannot be removed from the project")).
Proof.
  exact (removeMember_creator ["user"] 10 1 (calm sample) alpha
           (mkMember 50 10 1 "admin") eq_refl eq_refl).
Defined.

(** C1. Removing the row of a member who is not the creator. No exit of
    the handler is a 403, whoever the actor is. As the source is written
    the lookup projects a path the schema does not have, the comparison
    with the actor fails on [undefined] and every call, authorized or not,
    ends in the catch-all 500 with the row kept. With the reference
    projected, the row is deleted for every actor: [selfRemoval] and
    [isAdmin] are computed and never tested. *)
Theorem removeMember_unguarded (actor pid mid : ObjectId) (w : World)
        (p : Project) (row : ProjectMember) :
  project_of (db w) pid = Some p ->
  membership (db w) pid mid = Some row ->
  p_createdBy p <> mid ->
  (forall projection msg,
      fst (removeMemberFromProjectWith projection actor (Oid pid) (Oid mid) w)
      <> Throw (ApiError 403 msg))
  /\ (fst (removeMemberFromProject actor (Oid pid) (Oid mid) w)
      = Throw remove_failed
      /\ db (snd (removeMemberFromProject actor (Oid pid) (Oid mid) w)) = db w)
  /\ (quiet w -> forall projection,
        Js.includes projection "users" = true ->
        fst (removeMemberFromProjectWith projection actor (Oid pid) (Oid mid) w)
        = Ok removed
        /\ members (db (snd (removeMemberFromProjectWith projection actor
                               (Oid pid) (Oid mid) w)))
           = filter (fun m => negb (m_id m =? m_id row)%N) (members (db w))).
Proof.
  intros Hp Hm Hc. split; [|split].
  - intros projection msg.
    destruct (removeMember_exits projection actor (Oid pid) (Oid mid) w)
      as [E|[E|E]]; rewrite E; discriminate.
  - destruct (removeMember_inert actor (Oid pid) (Oid mid) w) as (D & e & E).
    split; [|exact D].
    destruct (removeMember_exits ["user"] actor (Oid pid) (Oid mid) w)
      as [E'|[E'|E']]; fold removeMemberFromProject in E'.
    + rewrite E in E'. discriminate.
    + exact E'.
    + exfalso. revert E'.
      unfold removeMemberFromProject, removeMemberFromProjectWith,
        removeMember_try.
      unfold_model. cbn. repeat (branch; cbn); discriminate.
  - intros Q projection Hu.
    unfold removeMemberFromProjectWith, removeMember_try, select.
    unfold_model. calmly Q.
    destruct (N.eqb_spec (p_createdBy p) mid); [contradiction|].
    rewrite Hu. calmly Q.
    destruct (p_createdBy p =? actor)%N; calmly Q.
    + split; reflexivity.
    + destruct (membership (db w) pid actor); calmly Q; split; reflexivity.
Qed.

Lemma removeMember_unguarded_witness :
  (forall projection msg,
      fst (removeMemberFromProjectWith projection 13 (Oid 1) (Oid 11) (calm sample))
      <> Throw (ApiError 403 msg))
  /\ (fst (removeMemberFromProject 13 (Oid 1) (Oid 11) (calm sample))
      = Throw remove_failed
      /\ db (snd (removeMemberFromProject 13 (Oid 1) (Oid 11) (calm sample)))
         = sample)
  /\ (fst (removeMemberFromProjectWith ["users"] 13 (Oid 1) (Oid 11) (calm sample))
      = Ok removed
      /\ members (db (snd (removeMemberFromProjectWith ["users"] 13 (Oid 1) (Oid 11)
                             (calm sample))))
         = [mkMember 50 10 1 "admin"; mkMember 52 12 1 "project_admin"]).
Proof.
  destruct (removeMember_unguarded 13 1 11 (calm sample) alpha
              (mkMember 51 11 1 "member") eq_refl eq_refl)
    as (A & B & C).
  - discriminate.
  - split; [exact A|]. split; [exact B|].
    exact (C (calm_quiet _) ["users"] eq_refl).
Defined.

Lemma membership_replace pid uid role l row :
  find (member_of pid uid) l = Some row ->
  find (member_of pid uid)
    (map (fun m => if (m_id m =? m_id row)%N
                   then mkMember (m_id row) (m_users row) (m_project row) role
                   else m) l)
  = Some (mkMember (m_id row) (m_users row) (m_project row) role).
Proof.
  intros H.
  assert (K : member_of pid uid
                (mkMember (m_id row) (m_users row) (m_project row) role) = true).
  { apply find_some in H. exact (proj2 H). }
  induction l as [|a l IH]; [discriminate|].
  cbn in H |- *. destruct (member_of pid uid a) eqn:Ea.
  - injection H as ->. rewrite N.eqb_refl, K. reflexivity.
  - destruct (m_id a =? m_id row)%N.
    + rewrite K. reflexivity.
    + rewrite Ea. apply IH. exact H.
Qed.

(** The creator's row can be given another role by anyone with admin
    rights. *)
Lemma creator_role_can_change (actor pid : ObjectId) (role : string) (w : World)
      (p : Project) (row : ProjectMember) :
  quiet w ->
  project_of (db w) pid = Some p ->
  membership (db w) pid (p_createdBy p) = Some row ->
  admin_in (db w) pid actor = true ->
  Js.includes AvailableUserRoles role = true ->
  let r := updateProjectMemberRole actor (Oid pid) (Oid (p_createdBy p))
             (Some role) w in
  let row' := mkMember (m_id row) (m_users row) (m_project row) role in
  fst r = Ok (Sent 200 (MemberData row') "Project member role updated successfully")
  /\ membership (db (snd r)) pid (p_createdBy p) = Some row'.
Proof.
  intros Q Hp Hm Ha Hrole r row'. subst r row'.
  unfold updateProjectMemberRole.
  assert (Hne : Js.nonempty role = true) by (destruct role; [discriminate|reflexivity]).
  rewrite Hne, Hrole. cbn [negb orb].
  unfold admin_in in Ha. rewrite Hp in Ha. cbn in Hrole.
  unfold_model. calmly Q.
  destruct (p_createdBy p =? actor)%N; cbn in Ha |- *.
  - rewrite Hrole. calmly Q. split; [reflexivity|].
    apply membership_replace. exact Hm.
  - calmly Q. destruct (membership (db w) pid actor) as [m|] eqn:Em; [|discriminate].
    calmly Q. rewrite Ha. calmly Q. rewrite Hrole. calmly Q.
    split; [reflexivity|]. apply membership_replace. exact Hm.
Qed.
(* --------------------------------------------------------------------- *)
(** ** Task listings *)
(* --------------------------------------------------------------------- *)

Lemma allowed_not_proto s :
  Js.includes allowedSortBy s = true -> String.eqb s "__proto__" = false.
Proof.
  intros H. destruct (String.eqb_spec s "__proto__") as [->|]; [|reflexivity].
  discriminate.
Qed.

Lemma sort_field_allowed sortBy : Js.includes allowedSortBy (sort_field sortBy) = true.
Proof.
  unfold sort_field.
  destruct (Js.includes allowedSortBy (default "createdAt" sortBy)) eqn:E;
    [exact E | reflexivity].
Qed.

Ltac unfold_helper :=
  unfold Helper.isProjectMember, Helper.isProjectAdmin, Helper.invalid_ids,
    Helper.mongoose_isValid, Helper.UserRolesEnum_ADMIN in *.

(** The resolvers of [utils/helper.js] throw on every call, before any
    lookup. *)
Lemma helper_isProjectMember projectId userId w :
  Helper.isProjectMember projectId userId w
  = (Throw (ReferenceError "mongoose is not defined"), w).
Proof. reflexivity. Qed.

Lemma helper_isProjectAdmin projectId userId w :
  Helper.isProjectAdmin projectId userId w
  = (Throw (ReferenceError "mongoose is not defined"), w).
Proof. reflexivity. Qed.

(** The task controller's listing ends in its catch-all on every call. *)
Lemma getProjectTask_fails (Task_find : Finder) (actor : ObjectId)
      (projectId : RawId) (q : Query) (w : World) :
  fst (getProjectTask Task_find actor projectId q w) = Throw listing_failed
  /\ db (snd (getProjectTask Task_find actor projectId q w)) = db w.
Proof.
  unfold getProjectTask. destruct projectId as [pid|]; [|split; reflexivity].
  cbv zeta. unfold_helper. unfold_model. cbn. repeat (branch; cbn); split; reflexivity.
Qed.

(** The project controller's listing sorts by an allowed field only, and
    answers only with an empty list of tasks. *)
Lemma getProjectTasks_answer (RegExp_ok : string -> bool) (Task_find : Finder)
      (actor : ObjectId) (projectId : RawId) (q : Query) (w : World)
      (code : N) (tasks : list Task) (spec : FindSpec) (page limit : Js.number)
      (msg : string) :
  fst (getProjectTasks RegExp_ok Task_find actor projectId q w)
  = Ok (Sent code (TaskPage tasks spec page limit) msg) ->
  tasks = [] /\ Task_find spec (db w) = Ok []
  /\ exists dir, q_sort spec = [(sort_field (query_sortBy q), dir)].
Proof.
  unfold getProjectTasks. destruct projectId as [pid|]; [|discriminate].
  cbv zeta. fold (sort_field (query_sortBy q)).
  unfold set_key. rewrite (allowed_not_proto _ (sort_field_allowed _)).
  generalize (sort_field (query_sortBy q)). intros field.
  generalize (Js.mul
                (Js.sub
                   (if Js.positive match query_page q with
                                   | Some s => Js.parseInt s
                                   | None => Js.Fin 1
                                   end
                    then match query_page q with
                         | Some s => Js.parseInt s
                         | None => Js.Fin 1
                         end
                    else Js.Fin 1) (Js.Fin 1))
                (if Js.positive match query_limit q with
                                | Some s => Js.parseInt s
                                | None => Js.Fin 10
                                end
                 then match query_limit q with
                      | Some s => Js.parseInt s
                      | None => Js.Fin 10
                      end
                 else Js.Fin 10)).
  intros skip.
  generalize (if Js.positive match query_limit q with
                             | Some s => Js.parseInt s
                             | None => Js.Fin 10
                             end
              then match query_limit q with
                   | Some s => Js.parseInt s
                   | None => Js.Fin 10
                   end
              else Js.Fin 10).
  intros lim.
  generalize (if Js.positive match query_page q with
                             | Some s => Js.parseInt s
                             | None => Js.Fin 1
                             end
              then match query_page q with
                   | Some s => Js.parseInt s
                   | None => Js.Fin 1
                   end
              else Js.Fin 1).
  intros pg.
  unfold find_populated. unfold_model. cbn.
  repeat (branch; cbn); try discriminate.
  all: repeat match goal with
              | |- context [match ?x with Ok _ => _ | Throw _ => _ end] =>
                  destruct x as [[|t l]|] eqn:?; cbn
              end; try discriminate.
  all: intros H; injection H as <- <- <- <- <- <-;
    split; [reflexivity|]; split; [assumption|]; eexists; reflexivity.
Qed.

(** Without failures, the project controller's listing for a member: the
    answer depends on the page the store finds. *)
Lemma getProjectTasks_quiet (RegExp_ok : string -> bool) (Task_find : Finder)
      (actor pid : ObjectId) (q : Query) (w : World) :
  quiet w -> member_in (db w) pid actor = true ->
  searching (query_search q) = false ->
  exists spec page limit dir,
    q_sort spec = [(sort_field (query_sortBy q), dir)]
    /\ fst (getProjectTasks RegExp_ok Task_find actor (Oid pid) q w)
       = match Task_find spec (db w) with
         | Ok [] => Ok (empty_page spec page limit)
         | _ => Throw listing_failed
         end.
Proof.
  intros Q Hm Hs. unfold getProjectTasks, member_in in *. cbv zeta.
  fold (sort_field (query_sortBy q)).
  unfold set_key. rewrite (allowed_not_proto _ (sort_field_allowed _)).
  rewrite Hs. unfold find_populated. unfold_model.
  destruct (project_of (db w) pid) as [p|] eqn:Ep; [|discriminate].
  calmly Q.
  destruct (p_createdBy p =? actor)%N; cbn in Hm |- *.
  - calmly Q.
    match goal with
    | |- context [match ?f ?s ?d with Ok _ => _ | Throw _ => _ end] =>
        exists s; do 3 eexists; split; [reflexivity|];
        destruct (f s d) as [[|t l]|]; reflexivity
    end.
  - destruct (membership (db w) pid actor) as [m|] eqn:Em; [|discriminate].
    calmly Q.
    match goal with
    | |- context [match ?f ?s ?d with Ok _ => _ | Throw _ => _ end] =>
        exists s; do 3 eexists; split; [reflexivity|];
        destruct (f s d) as [[|t l]|]; reflexivity
    end.
Qed.

(** C7. The two listings of a project's tasks. [getProjectTask] of the
    task controller never lists: its membership test is the resolver of
    [utils/helper.js], which throws, so every call ends in the catch-all's
    500 and no sort specification, allowed or not, reaches the store.
    [getProjectTasks] of the project controller sorts by a field of its
    allow-list, [createdAt] when the caller's field is not in it; it
    answers only when the store finds no task, because its [populate] names
    paths that are not in the schema: for a member and without failures the
    reply is the empty page when the store finds nothing and the 500 of
    the catch-all otherwise. *)
Theorem task_listing_sort (RegExp_ok : string -> bool) (Task_find : Finder)
        (actor : ObjectId) (projectId : RawId) (q : Query) (w : World) :
  (fst (getProjectTask Task_find actor projectId q w) = Throw listing_failed
   /\ db (snd (getProjectTask Task_find actor projectId q w)) = db w)
  /\ (forall code tasks spec page limit msg,
        fst (getProjectTasks RegExp_ok Task_find actor projectId q w)
        = Ok (Sent code (TaskPage tasks spec page limit) msg) ->
        tasks = [] /\ Task_find spec (db w) = Ok []
        /\ exists dir, q_sort spec = [(sort_field (query_sortBy q), dir)])
  /\ (forall s, query_sortBy q = Some s -> Js.includes allowedSortBy s = false ->
        sort_field (query_sortBy q) = "createdAt")
  /\ (forall pid,
        projectId = Oid pid -> quiet w -> member_in (db w) pid actor = true ->
        searching (query_search q) = false ->
        exists spec page limit dir,
          q_sort spec = [(sort_field (query_sortBy q), dir)]
          /\ fst (getProjectTasks RegExp_ok Task_find actor projectId q w)
             = match Task_find spec (db w) with
               | Ok [] => Ok (empty_page spec page limit)
               | _ => Throw listing_failed
               end).
Proof.
  split; [apply getProjectTask_fails|]. split; [|split].
  - intros code tasks spec page limit msg.
    apply getProjectTasks_answer.
  - intros s Hs Hout. unfold sort_field. rewrite Hs. cbn [default].
    rewrite Hout. reflexivity.
  - intros pid -> Q Hm Hs. apply getProjectTasks_quiet; assumption.
Qed.

Lemma task_listing_sort_witness :
  fst (getProjectTask sample_find 11 (Oid 1) (sorted_by None (Some "password"))
         (calm sample))
  = Throw listing_failed
  /\ sort_field (query_sortBy (sorted_by (Some "password") None)) = "createdAt"
  /\ exists spec page limit dir,
      q_sort spec
      = [(sort_field (query_sortBy (sorted_by (Some "password") None)), dir)]
      /\ fst (getProjectTasks (fun _ => true) sample_find 13 (Oid 2)
                (sorted_by (Some "password") None) (calm sample2))
         = match sample_find spec (db (calm sample2)) with
           | Ok [] => Ok (empty_page spec page limit)
           | _ => Throw listing_failed
           end.
Proof.
  split; [|split].
  - exact (proj1 (proj1 (task_listing_sort (fun _ => true) sample_find 11 (Oid 1)
                           (sorted_by None (Some "password")) (calm sample)))).
  - exact (proj1 (proj2 (proj2
             (task_listing_sort (fun _ => true) sample_find 13 (Oid 2)
                (sorted_by (Some "password") None) (calm sample2))))
             "password" eq_refl eq_refl).
  - exact (proj2 (proj2 (proj2
             (task_listing_sort (fun _ => true) sample_find 13 (Oid 2)
                (sorted_by (Some "password") None) (calm sample2))))
             2%N eq_refl (calm_quiet _) eq_refl eq_refl).
Defined.

(** The two listings at a sort field outside the allow-list: a member of
    project 1, which has two tasks, gets the 500 from both; the creator of
    project 2, which has none, gets the empty page of [getProjectTasks],
    sorted by [createdAt]. *)
Example listings_at_password :
  fst (getProjectTask sample_find 11 (Oid 1) (sorted_by None (Some "password"))
         (calm sample))
  = Throw listing_failed
  /\ fst (getProjectTasks (fun _ => true) sample_find 11 (Oid 1)
            (sorted_by (Some "password") None) (calm sample))
     = Throw listing_failed
  /\ sort_sent (fst (getProjectTasks (fun _ => true) sample_find 13 (Oid 2)
                       (sorted_by (Some "password") None) (calm sample2)))
     = Some [("createdAt", (-1)%Z)].
Proof. repeat split. Qed.
(* --------------------------------------------------------------------- *)
(** ** Task update *)
(* --------------------------------------------------------------------- *)

(** C9. [updateTask] never reaches its write. Past the checks of the id
    and of the body, the task is looked up and the membership test, the
    resolver of [utils/helper.js], throws before [dueDate] is looked at:
    every call throws, the 400 of the two checks or the 500 of the
    catch-all, and the committed data is unchanged. So the stored
    [dueDate] of a task is never set to [null], to the date sent or to
    anything else by a call of [updateTask]. *)
Theorem updateTask_dueDate (Date_parse : string -> option Z) (actor : ObjectId)
        (taskId : RawId) (body : TaskBody) (w : World) :
  fst (updateTask Date_parse actor taskId body w)
  = Throw (match taskId with
           | NotOid _ => ApiError 400 "Invalid task ID"
           | Oid _ =>
               if (keys_length body =? 0)%nat
               then ApiError 400 "At least one field is required to update"
               else update_failed
           end)
  /\ db (snd (updateTask Date_parse actor taskId body w)) = db w
  /\ forall tid,
      dueDate_of (db (snd (updateTask Date_parse actor taskId body w))) tid
      = dueDate_of (db w) tid.
Proof.
  assert (H : fst (updateTask Date_parse actor taskId body w)
              = Throw (match taskId with
                       | NotOid _ => ApiError 400 "Invalid task ID"
                       | Oid _ =>
                           if (keys_length body =? 0)%nat
                           then ApiError 400
                                  "At least one field is required to update"
                           else update_failed
                       end)
              /\ db (snd (updateTask Date_parse actor taskId body w)) = db w).
  { unfold updateTask. destruct taskId as [tid|s]; [|split; reflexivity].
    destruct (keys_length body =? 0)%nat; [split; reflexivity|].
    cbv zeta. unfold_helper. unfold_model. cbn.
    repeat (branch; cbn); split; reflexivity. }
  destruct H as [E D]. split; [exact E|]. split; [exact D|].
  intros tid. rewrite D. reflexivity.
Qed.

Lemma updateTask_dueDate_witness :
  fst (updateTask toy_parse 10 (Oid 71) (due_body (DueString "2030-01-01"))
         (calm sample))
  = Throw update_failed
  /\ dueDate_of
       (db (snd (updateTask toy_parse 10 (Oid 71)
                   (due_body (DueString "2030-01-01")) (calm sample)))) 71
     = Some (Some 1700000000000%Z).
Proof.
  destruct (updateTask_dueDate toy_parse 10 (Oid 71)
              (due_body (DueString "2030-01-01")) (calm sample))
    as (E & _ & D).
  split; [exact E | exact (D 71%N)].
Defined.

(* --------------------------------------------------------------------- *)
(** ** The membership invariant *)
(* --------------------------------------------------------------------- *)

(** The handlers that add or delete membership rows keep at most one row
    per (project, user) pair. *)

Lemma unique_insert (m : ProjectMember) (d : Db) :
  unique_membership d ->
  membership d (m_project m) (m_users m) = None ->
  unique_membership (insert_member m d).
Proof.
  intros U Hn m1 m2 H1 H2 Hp Hu. cbn in H1, H2.
  apply in_app_or in H1. apply in_app_or in H2.
  destruct H1 as [H1|[<-|[]]], H2 as [H2|[<-|[]]].
  - apply U; assumption.
  - exfalso. eapply membership_none; eauto.
  - exfalso. eapply membership_none; eauto.
  - reflexivity.
Qed.

Lemma unique_filter (f : ProjectMember -> bool) (d : Db) :
  unique_membership d -> unique_membership (with_members (filter f) d).
Proof.
  intros U m1 m2 H1 H2. cbn in H1, H2.
  apply filter_In in H1. apply filter_In in H2. apply U; tauto.
Qed.

Lemma addMember_keeps_unique (actor : ObjectId) (projectId : RawId)
      (email role : option string) (w : World) :
  unique_membership (db w) ->
  unique_membership (db (snd (addMemberToProject actor projectId email role w))).
Proof.
  intros U.
  destruct (addMember_effect actor projectId email role w)
    as [D|(m & pid & _ & D & Hn & Hp & _)]; rewrite D; [exact U|].
  apply unique_insert; [exact U|]. rewrite Hp. exact Hn.
Qed.

Lemma createProject_keeps_unique (actor : ObjectId) (name : string)
      (description : option string) (w : World) :
  (forall m, In m (members (db w)) -> m_project m <> nextId w) ->
  unique_membership (db w) ->
  unique_membership (db (snd (createProject actor name description w))).
Proof.
  intros Hfresh U.
  destruct (createProject_outcomes actor name description w)
    as [(p & m & created & _ & D & Hi & _ & _ & Hp & _)|(_ & D)];
    rewrite D; [|exact U].
  apply unique_insert; [exact U|].
  unfold membership. cbn.
  destruct (find (member_of (m_project m) (m_users m)) (members (db w)))
    as [m0|] eqn:E; [|reflexivity].
  exfalso. apply find_some in E. destruct E as [Hin E].
  unfold member_of in E. apply andb_true_iff in E. destruct E as [E _].
  apply N.eqb_eq in E. apply (Hfresh m0 Hin). congruence.
Qed.

Lemma deleteProject_keeps_unique (actor : ObjectId) (projectId : RawId)
      (w : World) :
  unique_membership (db w) ->
  unique_membership (db (snd (deleteProject actor projectId w))).
Proof.
  intros U.
  destruct (deleteProject_outcomes actor projectId w)
    as [(pid & _ & _ & D)|(_ & D)]; rewrite D; [|exact U].
  intros m1 m2 H1 H2. apply cascade_members in H1. apply cascade_members in H2.
  apply U; tauto.
Qed.

(* ===================================================================== *)
(** * Further properties of the controllers *)
(* ===================================================================== *)

Ltac unfold_more :=
  unfold Queries.Project_find, Queries.Project_findByIdAndUpdate,
    Queries.ProjectMember_find_by_user, Queries.ProjectMember_find_by_project,
    Queries.Task_create, Queries.Task_findByIdAndDelete,
    try_finally, populated_user, equals_populated in *.

Ltac run_all := unfold_more; unfold_model; cbn; repeat (branch; cbn).

Ltac clean :=
  repeat match goal with
         | H : Some _ = Some _ |- _ => injection H as H; try subst
         end.

(** Facts about membership read off the lookups made along a path. *)
Ltac facts :=
  clean; unfold admin_in, member_in;
  repeat match goal with
         | H : project_of _ _ = _ |- _ => rewrite H
         | H : membership _ _ _ = _ |- _ => rewrite H
         | H : (_ =? _)%N = _ |- _ => rewrite H
         | H : (_ =? _)%string = _ |- _ => rewrite H
         end;
  cbn; try reflexivity; try congruence.

(* --------------------------------------------------------------------- *)
(** ** The resolvers as gates *)
(* --------------------------------------------------------------------- *)

Lemma isProjectMember_sound pid uid w :
  fst (isProjectMember (Oid pid) (Oid uid) w) = Ok true ->
  member_in (db w) pid uid = true.
Proof.
  unfold member_in. unfold_model. cbn.
  destruct (faults w (ticks w)); cbn; [discriminate|].
  destruct (project_of (db w) pid) as [p|]; cbn; [|discriminate].
  destruct (p_createdBy p =? uid)%N; cbn; [reflexivity|].
  destruct (faults w (S (ticks w))); cbn; [discriminate|].
  destruct (membership (db w) pid uid); cbn; [reflexivity | discriminate].
Qed.

Lemma isProjectAdmin_sound pid uid w v :
  fst (isProjectAdmin (Oid pid) (Oid uid) w) = Ok v ->
  Js.is_true v = true ->
  admin_in (db w) pid uid = true
  /\ fst (isProjectMember (Oid pid) (Oid uid) w) = Ok true.
Proof.
  unfold admin_in. unfold_model. cbn.
  destruct (faults w (ticks w)); cbn;
    [intros H; injection H as <-; discriminate|].
  destruct (project_of (db w) pid) as [p|]; cbn;
    [|intros H; injection H as <-; discriminate].
  destruct (p_createdBy p =? uid)%N; cbn; [auto|].
  destruct (faults w (S (ticks w))); cbn;
    [intros H; injection H as <-; discriminate|].
  destruct (membership (db w) pid uid) as [m|]; cbn;
    intros H; injection H as <-; cbn; [|discriminate].
  destruct (m_role m =? UserRolesEnum.ADMIN)%string; [auto | discriminate].
Qed.

Lemma admin_is_member d pid uid :
  admin_in d pid uid = true -> member_in d pid uid = true.
Proof.
  unfold admin_in, member_in.
  destruct (project_of d pid); [|discriminate].
  destruct (p_createdBy p =? uid)%N; [reflexivity|]. cbn.
  destruct (membership d pid uid); [reflexivity | discriminate].
Qed.

(** X1. The resolvers are gates that fail closed: whatever lookups fail,
    [isProjectMember] answers [true] only for the creator or a holder of a
    membership row, [isProjectAdmin] answers a truthy value only for the
    creator or a holder of an admin row, and in a world where
    [isProjectAdmin] lets a user through, [isProjectMember] does too. *)
Theorem resolvers_fail_closed (pid uid : ObjectId) (w : World) :
  (fst (isProjectMember (Oid pid) (Oid uid) w) = Ok true ->
   member_in (db w) pid uid = true)
  /\ (forall v, fst (isProjectAdmin (Oid pid) (Oid uid) w) = Ok v ->
                Js.is_true v = true ->
                admin_in (db w) pid uid = true
                /\ fst (isProjectMember (Oid pid) (Oid uid) w) = Ok true).
Proof.
  split; [apply isProjectMember_sound|].
  intros v H T. exact (isProjectAdmin_sound pid uid w v H T).
Qed.

Lemma resolvers_fail_closed_witness :
  member_in sample 1 11 = true
  /\ (admin_in sample 1 10 = true
      /\ fst (isProjectMember (Oid 1) (Oid 10) (failing 1 sample)) = Ok true).
Proof.
  split.
  - apply (proj1 (resolvers_fail_closed 1 11 (calm sample))). reflexivity.
  - apply (proj2 (resolvers_fail_closed 1 10 (failing 1 sample))
             (Js.JBool true)); reflexivity.
Defined.

(* --------------------------------------------------------------------- *)
(** ** Project deletion, once more *)
(* --------------------------------------------------------------------- *)

(** Contradiction between a denied right and the lookups of a path. *)
Ltac denied H :=
  exfalso; clean; revert H; unfold admin_in, member_in;
  repeat match goal with
         | H : project_of _ _ = _ |- _ => rewrite H
         | H : membership _ _ _ = _ |- _ => rewrite H
         | H : (_ =? _)%N = _ |- _ => rewrite H
         | H : (_ =? _)%string = _ |- _ => rewrite H
         end;
  cbn;
  repeat match goal with
         | |- context [(?a =? ?b)%string] => destruct (a =? b)%string
         end;
  cbn in *; try discriminate;
  let X := fresh in intros X; discriminate X.

(** X2. [deleteProject] deletes for admins only: for an actor who is
    neither the creator nor the holder of an admin row, whatever fails, the
    call throws and the committed data is unchanged. The error is the 500
    of the catch-all (or the 400 of the id check), never the 403 thrown
    inside the [try]. *)
Theorem deleteProject_needs_admin (actor : ObjectId) (projectId : RawId) (w : World) :
  (forall pid, projectId = Oid pid -> admin_in (db w) pid actor = false) ->
  db (snd (deleteProject actor projectId w)) = db w
  /\ (fst (deleteProject actor projectId w)
      = Throw (ApiError 500 "Internal server error while deleting project")
      \/ fst (deleteProject actor projectId w)
         = Throw (ApiError 400 "Invalid project ID")).
Proof.
  intros H. unfold deleteProject. destruct projectId as [pid|s]; [|auto].
  specialize (H pid eq_refl). run_all; auto; denied H.
Qed.

Lemma deleteProject_needs_admin_witness :
  db (snd (deleteProject 12 (Oid 1) (calm sample))) = sample
  /\ (fst (deleteProject 12 (Oid 1) (calm sample))
      = Throw (ApiError 500 "Internal server error while deleting project")
      \/ fst (deleteProject 12 (Oid 1) (calm sample))
         = Throw (ApiError 400 "Invalid project ID")).
Proof.
  apply (deleteProject_needs_admin 12 (Oid 1) (calm sample)).
  intros pid E. injection E as <-. reflexivity.
Defined.

(** X3. A failed deletion inside the transaction of [deleteProject] is not
    reported. When the creator deletes an existing project, the three
    round trips before the transaction succeed, one of the three deletions
    is the first round trip to fail and the abort that follows succeeds,
    the handler ends without a reply and without an error. When instead the
    commit is the first to fail, the driver refuses the abort that follows
    a commit, and the call ends in the 500 of the catch-all. Either way the
    committed data is unchanged. *)
Theorem deleteProject_silent_failure (pid : ObjectId) (p : Project) (w : World)
        (j : nat) (c : N) :
  project_of (db w) pid = Some p ->
  3 <= j <= 6 ->
  (forall i, i < j -> faults w (i + ticks w) = None) ->
  faults w (j + ticks w) = Some c ->
  faults w (S j + ticks w) = None ->
  deleteProject (p_createdBy p) (Oid pid) w
  = if (j =? 6)%nat
    then (Throw delete_failed, set_txn None (later 7 w))
    else (Ok NoReply, set_txn None (later (S (S j)) w)).
Proof.
  intros Hp Hj Hbefore Hj' Hafter.
  assert (F0 := Hbefore 0). assert (F1 := Hbefore 1). assert (F2 := Hbefore 2).
  assert (F3 := Hbefore 3). assert (F4 := Hbefore 4). assert (F5 := Hbefore 5).
  cbn in *.
  unfold deleteProject. unfold_model. cbn.
  rewrite F0 by lia. cbn. rewrite Hp. cbn. rewrite F1 by lia. cbn.
  rewrite Hp. cbn. rewrite N.eqb_refl. cbn. rewrite F2 by lia. cbn.
  destruct j as [|[|[|[|[|[|[|j]]]]]]]; try lia; cbn in *.
  - rewrite Hj'. cbn. rewrite Hafter. reflexivity.
  - rewrite F3 by lia. cbn. rewrite Hj'. cbn. rewrite Hafter. reflexivity.
  - rewrite F3 by lia. cbn. rewrite F4 by lia. cbn. rewrite Hj'. cbn.
    rewrite Hafter. reflexivity.
  - rewrite F3 by lia. cbn. rewrite F4 by lia. cbn. rewrite F5 by lia. cbn.
    rewrite Hj'. reflexivity.
Qed.

Lemma deleteProject_silent_failure_witness :
  deleteProject 10 (Oid 1) (failing 4 sample)
  = (Ok NoReply, set_txn None (later 6 (failing 4 sample)))
  /\ deleteProject 10 (Oid 1) (failing 6 sample)
     = (Throw delete_failed, set_txn None (later 7 (failing 6 sample))).
Proof.
  split.
  - apply (deleteProject_silent_failure 1 alpha (failing 4 sample) 4 6 eq_refl).
    + lia.
    + intros i Hi. do 4 (destruct i as [|i]; [reflexivity|]). lia.
    + reflexivity.
    + reflexivity.
  - apply (deleteProject_silent_failure 1 alpha (failing 6 sample) 6 6 eq_refl).
    + lia.
    + intros i Hi. do 6 (destruct i as [|i]; [reflexivity|]). lia.
    + reflexivity.
    + reflexivity.
Defined.

(* --------------------------------------------------------------------- *)
(** ** Membership lifecycle *)
(* --------------------------------------------------------------------- *)

(** Everything a call of [addMemberToProject] can do, whatever fails. *)
Lemma addMember_stored (actor : ObjectId) (projectId : RawId)
      (email role : option string) (w : World) :
  let r := addMemberToProject actor projectId email role w in
  ((exists msg, fst r = Throw (ApiError 400 msg)) \/ fst r = Throw add_failed)
  /\ (db (snd r) = db w
      \/ exists pid p e u,
          projectId = Oid pid /\ email = Some e
          /\ project_of (db w) pid = Some p
          /\ admin_in (db w) pid actor = true
          /\ find (fun u => String.eqb (u_email u) (Js.toLowerCase e)) (users (db w))
             = Some u
          /\ membership (db w) pid (u_id u) = None
          /\ db (snd r)
             = insert_member (mkMember (nextId w) (u_id u) pid UserRolesEnum.MEMBER)
                 (db w)).
Proof.
  intros r. subst r. unfold addMemberToProject.
  destruct projectId as [pid|]; [|split; [left; eexists|left]; reflexivity].
  destruct email as [e|]; [|split; [left; eexists|left]; reflexivity].
  destruct (negb (Js.nonempty e) || negb (Js.nonempty (Js.trim e)));
    [split; [left; eexists|left]; reflexivity|].
  fold (role_input role). cbv zeta.
  destruct (Js.truthy role && Js.includes AvailableUserRoles (role_input role))
    eqn:G; [split; [left; eexists|left]; reflexivity|].
  rewrite (stored_role role G).
  run_all.
  all: split; [right; reflexivity|].
  all: try (left; reflexivity).
  all: right; exists pid; clean;
    match goal with
    | H : project_of _ _ = Some ?p,
      U : find _ (users _) = Some ?u |- _ => exists p, e, u
    end;
    repeat (split; [first [reflexivity | assumption | facts]|]);
    try reflexivity.
  all: try match goal with
       | H : isSome (option_map _ ?o) = false |- _ =>
           destruct o; [discriminate H | reflexivity]
       end.
  all: match goal with
       | H : negb (if ?b then true else false) = false |- ?b = true =>
           destruct b; [reflexivity | discriminate H]
       end.
Qed.

(** X4. [addMemberToProject] adds for admins only: for an actor who is
    neither the creator nor the holder of an admin row, whatever fails, the
    committed data is unchanged. *)
Theorem addMember_needs_admin (actor : ObjectId) (projectId : RawId)
        (email role : option string) (w : World) :
  (forall pid, projectId = Oid pid -> admin_in (db w) pid actor = false) ->
  db (snd (addMemberToProject actor projectId email role w)) = db w.
Proof.
  intros H.
  destruct (addMember_stored actor projectId email role w)
    as (_ & [D|(pid & p & e & u & E & _ & _ & Ha & _)]); [exact D|].
  rewrite (H pid E) in Ha. discriminate.
Qed.

Lemma addMember_needs_admin_witness :
  db (snd (addMemberToProject 11 (Oid 1) (Some "dee@x.io") None (calm sample)))
  = sample.
Proof.
  apply (addMember_needs_admin 11 (Oid 1) (Some "dee@x.io") None (calm sample)).
  intros pid E. injection E as <-. reflexivity.
Defined.

(** X5. [addMemberToProject] never answers 201: every call ends in a 400
    of its own checks or in the 500 of its catch-all, also the calls that
    have stored the new row, because the chained [populate] after the
    insertion throws. *)
Theorem addMember_never_replies (actor : ObjectId) (projectId : RawId)
        (email role : option string) (w : World) :
  (exists msg, fst (addMemberToProject actor projectId email role w)
               = Throw (ApiError 400 msg))
  \/ fst (addMemberToProject actor projectId email role w) = Throw add_failed.
Proof.
  exact (proj1 (addMember_stored actor projectId email role w)).
Qed.




(** X7. The membership invariant is kept: [addMemberToProject] never
    stores a second row for a (project, user) pair, [createProject] adds
    one row for a project whose id no row refers to yet, and
    [deleteProject] only removes rows. *)
Theorem membership_stays_unique (actor : ObjectId) (projectId : RawId)
        (name : string) (email role description : option string) (w : World) :
  unique_membership (db w) ->
  unique_membership (db (snd (addMemberToProject actor projectId email role w)))
  /\ unique_membership (db (snd (deleteProject actor projectId w)))
  /\ ((forall m, In m (members (db w)) -> m_project m <> nextId w) ->
      unique_membership (db (snd (createProject actor name description w)))).
Proof.
  intros U. split; [|split].
  - apply addMember_keeps_unique. exact U.
  - apply deleteProject_keeps_unique. exact U.
  - intros Hfresh. apply createProject_keeps_unique; assumption.
Qed.

Lemma membership_stays_unique_witness :
  unique_membership
    (db (snd (addMemberToProject 10 (Oid 1) (Some "Dee@x.io") (Some "boss")
                (calm sample))))
  /\ unique_membership (db (snd (deleteProject 10 (Oid 1) (calm sample))))
  /\ ((forall m, In m (members sample) -> m_project m <> 100%N) ->
      unique_membership (db (snd (createProject 10 "Beta" None (calm sample))))).
Proof.
  exact (membership_stays_unique 10 (Oid 1) "Beta" (Some "Dee@x.io") (Some "boss")
           None (calm sample) sample_unique).
Defined.

(** Everything a call of [updateProjectMemberRole] can do, whatever
    fails. *)
Lemma updateRole_outcomes (actor : ObjectId) (projectId memberId : RawId)
      (role : option string) (w : World) :
  let r := updateProjectMemberRole actor projectId memberId role w in
  ((exists e, fst r = Throw e) /\ db (snd r) = db w)
  \/ exists pid mid new row,
      projectId = Oid pid /\ memberId = Oid mid /\ role = Some new
      /\ Js.includes AvailableUserRoles new = true
      /\ admin_in (db w) pid actor = true
      /\ membership (db w) pid mid = Some row
      /\ fst r = Ok (Sent 200
                       (MemberData (mkMember (m_id row) (m_users row)
                                      (m_project row) new))
                       "Project member role updated successfully")
      /\ db (snd r) = with_role row new (db w).
Proof.
  intros r. subst r. unfold updateProjectMemberRole.
  destruct projectId as [pid|]; [|left; split; [eexists|]; reflexivity].
  destruct memberId as [mid|]; [|left; split; [eexists|]; reflexivity].
  destruct role as [new|]; [|left; split; [eexists|]; reflexivity].
  destruct (Js.nonempty new); cbn [negb orb];
    [|left; split; [eexists|]; reflexivity].
  destruct (Js.includes AvailableUserRoles new) eqn:Hr; cbn [negb];
    [|left; split; [eexists|]; reflexivity].
  unfold ProjectMemberModel.save. cbn [m_role]. rewrite Hr.
  run_all.
  all: try (left; split; [eexists|]; reflexivity).
  all: right; clean;
    match goal with
    | H : membership _ ?i ?u = Some ?row |- context [m_id ?row] =>
        exists i, u; eexists; exists row
    end;
    repeat (split; [first [reflexivity | assumption | facts]|]);
    try reflexivity.
  all: match goal with
       | H : negb (if ?b then true else false) = false |- ?b = true =>
           destruct b; [reflexivity | discriminate H]
       end.
Qed.

(** X8. [updateProjectMemberRole] changes a role only for an actor with
    admin rights and only to one of the known roles, spelled exactly: a
    role outside [AvailableUserRoles] is refused with a 400 before any
    lookup. Whatever fails, either the call throws and the committed data
    is unchanged, or it answers 200 and the only change is the role of the
    target's membership row. *)
Theorem updateRole_guarded (actor pid mid : ObjectId) (role : option string)
        (w : World) :
  let r := updateProjectMemberRole actor (Oid pid) (Oid mid) role w in
  (Js.includes AvailableUserRoles (default "" role) = false ->
   exists msg, r = (Throw (ApiError 400 msg), w))
  /\ (admin_in (db w) pid actor = false ->
      (exists e, fst r = Throw e) /\ db (snd r) = db w)
  /\ (((exists e, fst r = Throw e) /\ db (snd r) = db w)
      \/ exists new row,
          role = Some new /\ membership (db w) pid mid = Some row
          /\ (exists reply, fst r = Ok reply)
          /\ db (snd r) = with_role row new (db w)).
Proof.
  intros r. split; [|split].
  - subst r. unfold updateProjectMemberRole.
    destruct role as [new|]; cbn [default]; [|intros _; eexists; reflexivity].
    intros ->. rewrite orb_true_r. eexists; reflexivity.
  - intros Ha.
    destruct (updateRole_outcomes actor (Oid pid) (Oid mid) role w)
      as [H|(pid' & mid' & new & row & E1 & _ & _ & _ & Ha' & _)]; [exact H|].
    injection E1 as <-. congruence.
  - destruct (updateRole_outcomes actor (Oid pid) (Oid mid) role w)
      as [H|(pid' & mid' & new & row & E1 & E2 & Er & _ & _ & Hm & R & D)];
      [left; exact H|].
    injection E1 as <-. injection E2 as <-. right. exists new, row.
    repeat (split; [eauto|]). exact D.
Qed.

Lemma updateRole_guarded_witness :
  (exists msg, updateProjectMemberRole 10 (Oid 1) (Oid 11) (Some "Admin")
                 (calm sample)
               = (Throw (ApiError 400 msg), calm sample))
  /\ ((exists e, fst (updateProjectMemberRole 12 (Oid 1) (Oid 11) (Some "admin")
                        (calm sample)) = Throw e)
      /\ db (snd (updateProjectMemberRole 12 (Oid 1) (Oid 11) (Some "admin")
                    (calm sample))) = sample).
Proof.
  split.
  - apply (proj1 (updateRole_guarded 10 1 11 (Some "Admin") (calm sample))).
    reflexivity.
  - apply (proj1 (proj2 (updateRole_guarded 12 1 11 (Some "admin") (calm sample)))).
    reflexivity.
Defined.

Lemma project_of_with_role row new d pid :
  project_of (with_role row new d) pid = project_of d pid.
Proof. reflexivity. Qed.

(** X9. Changing a role and resolving compose: after a call of
    [updateProjectMemberRole] that answered, the target user has admin
    rights exactly when that user is the project's creator or the new role
    is ["admin"]; the creator keeps admin rights whatever role the
    creator's own row is given. *)
Theorem updateRole_then_resolve (actor pid mid : ObjectId) (role : string)
        (p : Project) (reply : Reply) (w : World) :
  project_of (db w) pid = Some p ->
  fst (updateProjectMemberRole actor (Oid pid) (Oid mid) (Some role) w) = Ok reply ->
  admin_in (db (snd (updateProjectMemberRole actor (Oid pid) (Oid mid) (Some role) w)))
    pid mid
  = (p_createdBy p =? mid)%N || String.eqb role UserRolesEnum.ADMIN.
Proof.
  intros Hp R.
  destruct (updateRole_outcomes actor (Oid pid) (Oid mid) (Some role) w)
    as [((e & E) & _)|(pid' & mid' & new & row & E1 & E2 & Er & _ & _ & Hm & _ & D)];
    [congruence|].
  injection E1 as <-. injection E2 as <-. injection Er as <-.
  rewrite D. unfold admin_in. rewrite project_of_with_role, Hp.
  unfold membership, with_role. cbn [members with_members].
  rewrite (membership_replace pid mid role (members (db w)) row Hm).
  reflexivity.
Qed.

Lemma updateRole_then_resolve_witness :
  admin_in (db (snd (updateProjectMemberRole 10 (Oid 1) (Oid 10) (Some "member")
                       (calm sample)))) 1 10 = true
  /\ admin_in (db (snd (updateProjectMemberRole 10 (Oid 1) (Oid 12) (Some "member")
                          (calm sample)))) 1 12 = false
  /\ admin_in (db (snd (updateProjectMemberRole 10 (Oid 1) (Oid 11) (Some "admin")
                          (calm sample)))) 1 11 = true.
Proof.
  split; [|split].
  - exact (updateRole_then_resolve 10 1 10 "member" alpha _ (calm sample)
             eq_refl eq_refl).
  - exact (updateRole_then_resolve 10 1 12 "member" alpha _ (calm sample)
             eq_refl eq_refl).
  - exact (updateRole_then_resolve 10 1 11 "admin" alpha _ (calm sample)
             eq_refl eq_refl).
Defined.
(* --------------------------------------------------------------------- *)
(** ** Listings: paging, scope and access *)
(* --------------------------------------------------------------------- *)

Lemma enum_filter_known available v s :
  enum_filter available v = Some s -> Js.includes available s = true.
Proof.
  unfold enum_filter. destruct v as [x|]; [|discriminate].
  destruct (Js.nonempty x); cbn; [|discriminate].
  destruct (Js.includes available (Js.toLowerCase x)) eqn:E; [|discriminate].
  intros H. injection H as <-. exact E.
Qed.

(** *** Numbers *)

Lemma round_not_negative z : (0 <= z)%Z -> not_negative (Js.round z).
Proof.
  intros Hz. unfold Js.round. cbv zeta.
  assert (Hs : (z <? 0)%Z = false) by (apply Z.ltb_ge; exact Hz).
  rewrite Hs.
  destruct (Z.abs z <? 2 ^ 53)%Z; [exact Hz|].
  match goal with
  | |- not_negative (if ?c then _ else _) => destruct c
  end; [reflexivity|].
  cbn [not_negative]. apply Z.mul_nonneg_nonneg.
  - assert (0 <= Z.shiftr (Z.abs z) (Z.log2 (Z.abs z) - 52))%Z
      by (apply Z.shiftr_nonneg, Z.abs_nonneg).
    match goal with
    | |- (0 <= if ?c then _ else _)%Z => destruct c
    end; lia.
  - apply Z.pow_nonneg. lia.
Qed.

Lemma round_defined z : Js.round z <> Js.NaN.
Proof.
  unfold Js.round. cbv zeta.
  destruct (Z.abs z <? 2 ^ 53)%Z; [discriminate|].
  match goal with
  | |- (if ?c then _ else _) <> _ => destruct c
  end; discriminate.
Qed.

Lemma round_zero z : Js.round z = Js.Fin 0 -> z = 0%Z.
Proof.
  unfold Js.round. cbv zeta.
  destruct (Z.abs z <? 2 ^ 53)%Z eqn:Ea; [intros H; injection H; auto|].
  apply Z.ltb_ge in Ea.
  set (a := Z.abs z) in *. set (e := (Z.log2 a - 52)%Z).
  assert (Ha : (0 < a)%Z) by lia.
  assert (Hlog : (53 <= Z.log2 a)%Z) by (apply Z.log2_le_pow2; lia).
  assert (He : (0 < e)%Z) by (unfold e; lia).
  assert (Hpow : (0 < 2 ^ e)%Z) by (apply Z.pow_pos_nonneg; lia).
  assert (Hq : (0 < Z.shiftr a e)%Z).
  { rewrite Z.shiftr_div_pow2 by lia. apply Z.div_str_pos. split; [exact Hpow|].
    apply Z.le_trans with (2 ^ Z.log2 a)%Z.
    - apply Z.pow_le_mono_r; unfold e; lia.
    - apply Z.log2_spec. exact Ha. }
  match goal with
  | |- (if ?c then _ else _) = _ -> _ => destruct c
  end; [discriminate|].
  intros H. injection H as H. exfalso.
  assert (Hv : (0 < (if (2 ^ (e - 1) <? a mod 2 ^ e)%Z
                        || (a mod 2 ^ e =? 2 ^ (e - 1))%Z && Z.odd (Z.shiftr a e)
                     then Z.shiftr a e + 1 else Z.shiftr a e) * 2 ^ e)%Z).
  { apply Z.mul_pos_pos; [|exact Hpow].
    match goal with
    | |- (0 < if ?c then _ else _)%Z => destruct c
    end; lia. }
  destruct (z <? 0)%Z; lia.
Qed.

Lemma positive_at_least_one x : Js.positive x = true -> at_least_one x.
Proof.
  destruct x as [z|n|]; cbn; [|destruct n|]; try discriminate; auto.
  intros H. apply Z.ltb_lt in H. lia.
Qed.

(** [(page - 1) * limit] for a [page] and a [limit] of at least 1. *)
Lemma skip_not_negative page limit :
  at_least_one page -> at_least_one limit ->
  not_negative (Js.mul (Js.sub page (Js.Fin 1)) limit).
Proof.
  intros Hp Hl.
  assert (H1 : not_negative (Js.sub page (Js.Fin 1))
               /\ Js.sub page (Js.Fin 1) <> Js.NaN).
  { destruct page as [z|n|]; cbn in *; [|subst; auto; split; [reflexivity|discriminate]
                                        |contradiction].
    split; [apply round_not_negative; lia | apply round_defined]. }
  destruct H1 as [H1 H1'].
  destruct (Js.sub page (Js.Fin 1)) as [a|n|]; [| |contradiction]; cbn in H1.
  - destruct limit as [l|m|]; cbn in *; [| |contradiction].
    + apply round_not_negative. nia.
    + subst m. destruct (a =? 0)%Z eqn:E; [exact I|]. cbn.
      apply Z.eqb_neq in E.
      assert (Hs : (a <? 0)%Z = false) by (apply Z.ltb_ge; lia).
      rewrite Hs. reflexivity.
  - subst n. destruct limit as [l|m|]; cbn in *; [| |contradiction].
    + assert (E : (l =? 0)%Z = false) by (apply Z.eqb_neq; lia).
      assert (Hs : (l <? 0)%Z = false) by (apply Z.ltb_ge; lia).
      rewrite E, Hs. reflexivity.
    + subst m. reflexivity.
Qed.

Ltac member_fact :=
  clean; unfold member_in;
  repeat match goal with
         | H : project_of _ _ = _ |- _ => rewrite H
         | H : (_ =? _)%N = _ |- _ => rewrite H
         end;
  cbn; try reflexivity;
  match goal with
  | H : negb (isSome (option_map _ ?o)) = false |- _ =>
      destruct o; cbn in *; [reflexivity | discriminate H]
  end.

(** Every answer of [getProjectTasks], whatever fails. *)
Lemma getProjectTasks_reply (RegExp_ok : string -> bool) (Task_find : Finder)
      (actor : ObjectId) (projectId : RawId) (q : Query) (w : World)
      (code : N) (tasks : list Task) (spec : FindSpec) (page limit : Js.number)
      (msg : string) :
  fst (getProjectTasks RegExp_ok Task_find actor projectId q w)
  = Ok (Sent code (TaskPage tasks spec page limit) msg) ->
  exists pid,
    projectId = Oid pid
    /\ member_in (db w) pid actor = true
    /\ f_project (q_filter spec) = pid
    /\ f_status (q_filter spec) = enum_filter AvailableTaskStatus (query_status q)
    /\ f_priority (q_filter spec) = None
    /\ q_limit spec = limit
    /\ q_skip spec = Js.mul (Js.sub page (Js.Fin 1)) limit
    /\ at_least_one page /\ at_least_one limit.
Proof.
  unfold getProjectTasks. destruct projectId as [pid|]; [|discriminate].
  cbv zeta.
  generalize (enum_filter AvailableTaskStatus (query_status q)). intros st.
  assert (Hlim : forall x d, at_least_one d ->
                             at_least_one (if Js.positive x then x else d)).
  { intros x d Hd. destruct (Js.positive x) eqn:E;
      [apply positive_at_least_one; exact E | exact Hd]. }
  assert (Hl := Hlim match query_limit q with
                     | Some s => Js.parseInt s
                     | None => Js.Fin 10
                     end (Js.Fin 10) ltac:(cbn; lia)).
  assert (Hp := Hlim match query_page q with
                     | Some s => Js.parseInt s
                     | None => Js.Fin 1
                     end (Js.Fin 1) ltac:(cbn; lia)).
  clear Hlim. revert Hl Hp.
  generalize (if Js.positive match query_limit q with
                             | Some s => Js.parseInt s
                             | None => Js.Fin 10
                             end
              then match query_limit q with
                   | Some s => Js.parseInt s
                   | None => Js.Fin 10
                   end
              else Js.Fin 10).
  intros lim.
  generalize (if Js.positive match query_page q with
                             | Some s => Js.parseInt s
                             | None => Js.Fin 1
                             end
              then match query_page q with
                   | Some s => Js.parseInt s
                   | None => Js.Fin 1
                   end
              else Js.Fin 1).
  intros pg Hl Hp.
  remember (Js.mul (Js.sub pg (Js.Fin 1)) lim) as skip eqn:Eskip.
  generalize (set_key
                (if Js.includes allowedSortBy (default "createdAt" (query_sortBy q))
                 then default "createdAt" (query_sortBy q) else "createdAt")
                (if String.eqb (Js.toLowerCase (default "desc" (query_sortOrder q)))
                      "asc" then 1%Z else (-1)%Z)).
  intros sortOptions.
  unfold find_populated. unfold_model. cbn.
  repeat (branch; cbn); try discriminate.
  all: repeat match goal with
              | |- context [match ?x with Ok _ => _ | Throw _ => _ end] =>
                  destruct x as [[|t l]|] eqn:?; cbn
              end; try discriminate.
  all: intros H; injection H as <- <- <- <- <- <-; exists pid;
    split; [reflexivity|]; split; [member_fact|]; cbn;
    repeat (split; [first [reflexivity | assumption]|]); assumption.
Qed.


(** X10. Paging of [getProjectTasks]. Numbers are doubles. Whatever the
    caller sends as [page] and [limit], a listing that answers uses a page
    and a limit of at least 1 (possibly infinite, for a long run of
    digits), asks the store for [limit] documents and skips
    [(page - 1) * limit] of them, computed as the handler does, rounding
    included; the skip is never negative, and it is [NaN] only for page 1
    with an infinite limit. *)
Theorem getProjectTasks_paging (RegExp_ok : string -> bool) (Task_find : Finder)
        (actor : ObjectId) (projectId : RawId) (q : Query) (w : World) (code : N)
        (tasks : list Task) (spec : FindSpec) (page limit : Js.number)
        (msg : string) :
  fst (getProjectTasks RegExp_ok Task_find actor projectId q w)
  = Ok (Sent code (TaskPage tasks spec page limit) msg) ->
  at_least_one page /\ at_least_one limit
  /\ q_limit spec = limit
  /\ q_skip spec = Js.mul (Js.sub page (Js.Fin 1)) limit
  /\ not_negative (q_skip spec)
  /\ (q_skip spec = Js.NaN -> page = Js.Fin 1 /\ limit = Js.Inf false).
Proof.
  intros H.
  destruct (getProjectTasks_reply _ _ _ _ _ _ _ _ _ _ _ _ H)
    as (pid & _ & _ & _ & _ & _ & El & Es & Hp & Hl).
  repeat (split; [assumption|]). rewrite Es.
  split; [apply skip_not_negative; assumption|].
  destruct page as [z|n|]; cbn in Hp; [| |contradiction].
  - cbn [Js.sub].
    destruct (Js.round (z - 1)) as [a|n|] eqn:Er;
      [| |destruct (round_defined _ Er)].
    + destruct limit as [l|m|]; cbn in Hl |- *; [| |contradiction].
      * intros E. destruct (round_defined _ E).
      * subst m. destruct (a =? 0)%Z eqn:Ea; [|discriminate].
        intros _. apply Z.eqb_eq in Ea. subst a.
        split; [|reflexivity]. f_equal.
        apply round_zero in Er. lia.
    + destruct limit as [l|m|]; cbn in Hl |- *; [| |contradiction].
      * assert (E : (l =? 0)%Z = false) by (apply Z.eqb_neq; lia).
        rewrite E. discriminate.
      * discriminate.
  - subst n. cbn [Js.sub].
    destruct limit as [l|m|]; cbn in Hl |- *; [| |contradiction].
    + assert (E : (l =? 0)%Z = false) by (apply Z.eqb_neq; lia).
      rewrite E. discriminate.
    + discriminate.
Qed.

Lemma getProjectTasks_paging_witness :
  at_least_one (Js.Fin 1) /\ at_least_one (Js.Fin 10)
  /\ q_limit (mkFindSpec (mkFilter 2 None None None NoSearch)
                [("createdAt", (-1)%Z)] (Js.Fin 0) (Js.Fin 10)) = Js.Fin 10
  /\ q_skip (mkFindSpec (mkFilter 2 None None None NoSearch)
               [("createdAt", (-1)%Z)] (Js.Fin 0) (Js.Fin 10))
     = Js.mul (Js.sub (Js.Fin 1) (Js.Fin 1)) (Js.Fin 10)
  /\ not_negative (q_skip (mkFindSpec (mkFilter 2 None None None NoSearch)
                             [("createdAt", (-1)%Z)] (Js.Fin 0) (Js.Fin 10)))
  /\ (q_skip (mkFindSpec (mkFilter 2 None None None NoSearch)
                [("createdAt", (-1)%Z)] (Js.Fin 0) (Js.Fin 10)) = Js.NaN ->
      Js.Fin 1 = Js.Fin 1 /\ Js.Fin 10 = Js.Inf false).
Proof.
  exact (getProjectTasks_paging (fun _ => true) sample_find 13 (Oid 2)
           (mkQuery (Some "-4") (Some "0") None None None None None None None None)
           (calm sample2) 200 [] _ (Js.Fin 1) (Js.Fin 10) _ eq_refl).
Defined.

(** X11. Scope and access of [getProjectTasks]: whatever fails, a listing
    that answers was asked for by the creator or a member of the project,
    its filter is restricted to that project, a status filter is one of the
    known statuses, and there is no priority filter. *)
Theorem getProjectTasks_scope (RegExp_ok : string -> bool) (Task_find : Finder)
        (actor : ObjectId) (projectId : RawId) (q : Query) (w : World) (code : N)
        (tasks : list Task) (spec : FindSpec) (page limit : Js.number)
        (msg : string) :
  fst (getProjectTasks RegExp_ok Task_find actor projectId q w)
  = Ok (Sent code (TaskPage tasks spec page limit) msg) ->
  exists pid,
    projectId = Oid pid
    /\ member_in (db w) pid actor = true
    /\ f_project (q_filter spec) = pid
    /\ (forall s, f_status (q_filter spec) = Some s ->
                  Js.includes AvailableTaskStatus s = true)
    /\ f_priority (q_filter spec) = None.
Proof.
  intros H.
  destruct (getProjectTasks_reply _ _ _ _ _ _ _ _ _ _ _ _ H)
    as (pid & E & Hm & Ep & Es & Epr & _).
  exists pid. repeat (split; [assumption|]). split; [|exact Epr].
  intros s Hs. rewrite Es in Hs. exact (enum_filter_known _ _ _ Hs).
Qed.

Lemma getProjectTasks_scope_witness :
  exists pid,
    Oid 2 = Oid pid
    /\ member_in sample2 pid 13 = true
    /\ f_project (mkFilter 2 (Some "todo") None None NoSearch) = pid
    /\ (forall s, f_status (mkFilter 2 (Some "todo") None None NoSearch) = Some s ->
                  Js.includes AvailableTaskStatus s = true)
    /\ f_priority (mkFilter 2 (Some "todo") None None NoSearch) = None.
Proof.
  exact (getProjectTasks_scope (fun _ => true) sample_find 13 (Oid 2)
           (mkQuery None None None None None None (Some "TODO") (Some "high")
              None None)
           (calm sample2) 200 []
           (mkFindSpec (mkFilter 2 (Some "todo") None None NoSearch)
              [("createdAt", (-1)%Z)] (Js.Fin 0) (Js.Fin 10))
           (Js.Fin 1) (Js.Fin 10) _ eq_refl).
Defined.

(** The skip is the double the handler computes: page [2 ^ 53] with limit
    3 skips 27021597764222972 documents, not [(2 ^ 53 - 1) * 3]. *)
Example getProjectTasks_rounds :
  option_map q_skip
    (match fst (getProjectTasks (fun _ => true) sample_find 13 (Oid 2)
                  (mkQuery (Some "9007199254740992") (Some "3") None None None
                     None None None None None)
                  (calm sample2)) with
     | Ok (Sent _ (TaskPage _ spec _ _) _) => Some spec
     | _ => None
     end)
  = Some (Js.Fin 27021597764222972).
Proof. vm_compute. reflexivity. Qed.

(** X13. [getMyTasks] lists the caller's own tasks, and never within one
    project. With a well-formed [projectId] the membership test, the
    resolver of [utils/helper.js], throws and the call ends in the 500 of
    the catch-all. A listing that answers has therefore no project filter;
    its filter has [assignedTo] set to the caller, it carries the tasks the
    store found for that query, a [sort] field from the allow-list is used
    with the requested order and any other is replaced by [createdAt],
    newest first, and the skip is [(page - 1) * limit] as the handler
    computes it. *)
Theorem getMyTasks_scope (Task_find_mine : MyFindSpec -> Db -> result (list Task))
        (actor : ObjectId) (projectId : option RawId) (q : Query) (w : World) :
  (forall pid, projectId = Some (Oid pid) ->
     fst (getMyTasks Task_find_mine actor projectId q w)
     = Throw (ApiError 500 "Internal server error while getting my tasks"))
  /\ (forall code page msg,
        fst (getMyTasks Task_find_mine actor projectId q w)
        = Ok (Respond code page msg) ->
        mf_assignedTo (mq_filter (mt_query page)) = actor
        /\ mf_project (mq_filter (mt_query page)) = None
        /\ Task_find_mine (mt_query page) (db w) = Ok (mt_tasks page)
        /\ (Js.includes allowedSortFields (default "createdAt" (query_sort q))
            = true ->
            mq_sort (mt_query page)
            = [(default "createdAt" (query_sort q), direction (query_order q))])
        /\ (Js.includes allowedSortFields (default "createdAt" (query_sort q))
            = false ->
            mq_sort (mt_query page) = [("createdAt", (-1)%Z)])
        /\ mq_skip (mt_query page)
           = Js.mul (Js.sub (mt_page page) (Js.Fin 1)) (mq_limit (mt_query page))).
Proof.
  split.
  - intros pid ->. reflexivity.
  - intros code page msg. unfold getMyTasks. cbv zeta.
    assert (S1 : Js.includes allowedSortFields
                   (default "createdAt" (query_sort q)) = true ->
                 set_key (default "createdAt" (query_sort q))
                   (if String.eqb (default "desc" (query_order q)) "asc"
                    then 1%Z else (-1)%Z)
                 = [(default "createdAt" (query_sort q),
                     direction (query_order q))]).
    { intros Hs. unfold set_key, direction.
      destruct (String.eqb_spec (default "createdAt" (query_sort q)) "__proto__")
        as [E|]; [|reflexivity].
      rewrite E in Hs. discriminate. }
    revert S1.
    generalize (set_key (default "createdAt" (query_sort q))
                  (if String.eqb (default "desc" (query_order q)) "asc"
                   then 1%Z else (-1)%Z)).
    intros srt S1.
    generalize (parseInt_auto_or (Js.Fin 10) (query_limit q)). intros lim.
    generalize (parseInt_auto_or (Js.Fin 1) (query_page q)). intros pg.
    remember (Js.mul (Js.sub pg (Js.Fin 1)) lim) as skip eqn:Eskip.
    destruct (Js.includes allowedSortFields (default "createdAt" (query_sort q)));
      destruct projectId as [[pid|s]|]; try discriminate;
      unfold_model; cbn; repeat (branch; cbn); try discriminate.
    all: match goal with
         | |- context [match ?x with Ok _ => _ | Throw _ => _ end] =>
             destruct x as [l|] eqn:Ef; cbn
         end; try discriminate.
    all: intros H; injection H as <- <- <-; cbn;
      (split; [reflexivity|]); (split; [reflexivity|]);
      (split; [exact Ef|]);
      (split; [intros Hs; first [discriminate Hs | auto]|]);
      (split; [intros Hs; first [discriminate Hs | auto]|]);
      exact Eskip.
Qed.

Lemma getMyTasks_scope_witness :
  fst (getMyTasks sample_find_mine 11 (Some (Oid 1)) no_query (calm sample))
  = Throw (ApiError 500 "Internal server error while getting my tasks")
  /\ sample_find_mine
       (mkMyFindSpec (mkMyFilter 11 None None None None)
          [("createdAt", (-1)%Z)] (Js.Fin 0) (Js.Fin 10))
       sample
     = Ok [mkTask 71 "Ship" "" 1 (Some 11%N) 10 "todo" "high"
             (Some 1700000000000%Z)]
  /\ mq_sort (mkMyFindSpec (mkMyFilter 11 None None None None)
                [("createdAt", (-1)%Z)] (Js.Fin 0) (Js.Fin 10))
     = [("createdAt", (-1)%Z)].
Proof.
  split.
  - exact (proj1 (getMyTasks_scope sample_find_mine 11 (Some (Oid 1)) no_query
                    (calm sample)) 1%N eq_refl).
  - destruct (proj2 (getMyTasks_scope sample_find_mine 11 None
                       (mkQuery None None None None (Some "status") (Some "asc")
                          None None None None)
                       (calm sample)) 200%N
                (mkMyTasksPage
                   [mkTask 71 "Ship" "" 1 (Some 11%N) 10 "todo" "high"
                      (Some 1700000000000%Z)]
                   (mkMyFindSpec (mkMyFilter 11 None None None None)
                      [("createdAt", (-1)%Z)] (Js.Fin 0) (Js.Fin 10))
                   (Js.Fin 1))
                _ eq_refl) as (_ & _ & E & _ & S & _).
    split; [exact E | exact (S eq_refl)].
Defined.

(* --------------------------------------------------------------------- *)
(** ** Reading projects, members and tasks *)
(* --------------------------------------------------------------------- *)

Lemma getProjectById_quiet (actor : ObjectId) (projectId : RawId) (w : World) :
  quiet w ->
  fst (getProjectById actor projectId w)
  = match projectId with
    | NotOid _ => Throw (ApiError 400 "Invalid project ID")
    | Oid pid =>
        match project_of (db w) pid with
        | None => Throw (ApiError 404 "Project not found")
        | Some p =>
            if member_in (db w) pid actor
            then Ok (Sent 200 (ProjectData (Some p))
                       "Project fetched successfully")
            else Throw (ApiError 403
                          "You are not authorized to access this project")
        end
    end.
Proof.
  intros Q. unfold getProjectById. destruct projectId as [pid|]; [|reflexivity].
  unfold member_in. unfold_model. calmly Q.
  destruct (project_of (db w) pid) as [p|] eqn:Hp; calmly Q; [|reflexivity].
  destruct (p_createdBy p =? actor)%N; calmly Q; [reflexivity|].
  destruct (membership (db w) pid actor); reflexivity.
Qed.

(** X14. [getProjectById] has no catch-all, so its errors reach the caller
    as thrown. Without failures: 400 for a malformed id, 404 for a project
    that does not exist, 403 for an actor who is neither creator nor
    member, and otherwise 200 with the project. Whatever fails, a 200 is
    given to the creator or a member only. *)
Theorem getProjectById_outcomes (actor : ObjectId) (projectId : RawId) (w : World) :
  (forall code data msg,
      fst (getProjectById actor projectId w) = Ok (Sent code data msg) ->
      exists pid p, projectId = Oid pid /\ project_of (db w) pid = Some p
                    /\ data = ProjectData (Some p)
                    /\ member_in (db w) pid actor = true)
  /\ (quiet w ->
      fst (getProjectById actor projectId w)
      = match projectId with
        | NotOid _ => Throw (ApiError 400 "Invalid project ID")
        | Oid pid =>
            match project_of (db w) pid with
            | None => Throw (ApiError 404 "Project not found")
            | Some p =>
                if member_in (db w) pid actor
                then Ok (Sent 200 (ProjectData (Some p))
                           "Project fetched successfully")
                else Throw (ApiError 403
                              "You are not authorized to access this project")
            end
        end).
Proof.
  split.
  - intros code data msg. unfold getProjectById.
    destruct projectId as [pid|]; [|discriminate].
    unfold_model. cbn. repeat (branch; cbn); intros H; try discriminate.
    all: injection H as <- <- <-; clean; do 2 eexists;
      repeat (split; [first [reflexivity | eassumption]|]); member_fact.
  - apply getProjectById_quiet.
Qed.

Lemma getProjectById_outcomes_witness :
  fst (getProjectById 13 (Oid 1) (calm sample))
  = Throw (ApiError 403 "You are not authorized to access this project")
  /\ fst (getProjectById 11 (Oid 7) (calm sample))
     = Throw (ApiError 404 "Project not found")
  /\ fst (getProjectById 11 (Oid 1) (calm sample))
     = Ok (Sent 200 (ProjectData (Some alpha)) "Project fetched successfully").
Proof.
  split; [|split].
  - exact (proj2 (getProjectById_outcomes 13 (Oid 1) (calm sample)) (calm_quiet _)).
  - exact (proj2 (getProjectById_outcomes 11 (Oid 7) (calm sample)) (calm_quiet _)).
  - exact (proj2 (getProjectById_outcomes 11 (Oid 1) (calm sample)) (calm_quiet _)).
Defined.

Lemma getProjects_listing (actor : ObjectId) (w : World) (code : N)
      (l : list Project) (msg : string) :
  fst (getProjects actor w) = Ok (Respond code l msg) ->
  forall p,
    In p l <->
    In p (projects (db w))
    /\ (p_createdBy p = actor
        \/ exists m, In m (members (db w))
                     /\ m_project m = p_id p /\ m_users m = actor).
Proof.
  unfold getProjects. run_all; intros H; try discriminate.
  injection H as <- <- <-. intros p.
  rewrite filter_In, orb_true_iff, N.eqb_eq, existsb_exists.
  split; intros [Hin H]; (split; [exact Hin|]); destruct H as [H|H]; auto; right.
  - destruct H as (x & Hx & E). apply N.eqb_eq in E.
    apply in_map_iff in Hx. destruct Hx as (m & <- & Hm).
    apply filter_In in Hm. destruct Hm as [Hm Eu]. apply N.eqb_eq in Eu.
    exists m. auto.
  - destruct H as (m & Hm & Ep & Eu). exists (m_project m). split.
    + apply in_map. apply filter_In. split; [exact Hm|]. apply N.eqb_eq. exact Eu.
    + apply N.eqb_eq. symmetry. exact Ep.
Qed.

(** X15. [getProjects] lists exactly the projects the actor created or
    holds a membership row of: a project is
    listed when and only when it passes the test [isProjectMember] makes. *)
Theorem getProjects_lists_own (actor : ObjectId) (w : World) (code : N)
        (l : list Project) (msg : string) :
  fst (getProjects actor w) = Ok (Respond code l msg) ->
  forall p,
    In p l <->
    In p (projects (db w))
    /\ (p_createdBy p = actor
        \/ exists m, In m (members (db w))
                     /\ m_project m = p_id p /\ m_users m = actor).
Proof. apply getProjects_listing. Qed.

Lemma getProjects_lists_own_witness :
  In alpha [alpha] <->
  In alpha (projects sample)
  /\ (p_createdBy alpha = 12%N
      \/ exists m, In m (members sample)
                   /\ m_project m = p_id alpha /\ m_users m = 12%N).
Proof.
  exact (getProjects_lists_own 12 (calm sample) 200 [alpha] _ eq_refl alpha).
Defined.

Lemma flag_creators_ok createdBy d l xs :
  flag_creators createdBy d l = Ok xs ->
  map fst xs = l
  /\ forall m b, In (m, b) xs ->
                 b = (createdBy =? m_users m)%N
                 /\ exists u, In u (users d) /\ u_id u = m_users m.
Proof.
  revert xs. induction l as [|m l IH]; intros xs; cbn.
  - intros H. injection H as <-. split; [reflexivity|]. intros ? ? [].
  - unfold flag_creator.
    destruct (find (fun u => u_id u =? m_users m)%N (users d)) as [u|] eqn:Hu;
      [|discriminate].
    destruct (flag_creators createdBy d l) as [ys|]; [|discriminate].
    intros H. injection H as <-. destruct (IH ys eq_refl) as [IH1 IH2].
    apply find_some in Hu. destruct Hu as [Hin E]. apply N.eqb_eq in E.
    split; [cbn; congruence|].
    intros m' b [H|H]; [|exact (IH2 m' b H)].
    injection H as <- <-. split; [congruence|]. exists u. auto.
Qed.

Lemma flag_creators_gone createdBy d l m :
  In m l -> (forall u, In u (users d) -> u_id u <> m_users m) ->
  exists e, flag_creators createdBy d l = Throw e.
Proof.
  intros Hin Hgone. induction l as [|x l IH]; [destruct Hin|]. cbn.
  unfold flag_creator.
  destruct (find (fun u => u_id u =? m_users x)%N (users d)) as [u|] eqn:Hu;
    [|eexists; reflexivity].
  destruct Hin as [->|Hin].
  - apply find_some in Hu. destruct Hu as [Hi E]. apply N.eqb_eq in E.
    destruct (Hgone u Hi E).
  - destruct (IH Hin) as [e ->]. eexists. reflexivity.
Qed.

(** X16. [getProjectMembers] answers the creator or a member only, with
    exactly the membership rows of the project in the order of the
    collection; each row is flagged as the creator's when and only when its
    user is the project's creator, and the user of every listed row exists.
    If the user of one row of the project is gone, a member who asks
    without any failure gets the 500 of the catch-all. *)
Theorem getProjectMembers_lists (actor pid : ObjectId) (w : World) :
  (forall code l msg,
      fst (getProjectMembers actor (Oid pid) w) = Ok (Respond code l msg) ->
      exists p,
        project_of (db w) pid = Some p
        /\ member_in (db w) pid actor = true
        /\ map fst l = filter (fun m => m_project m =? pid)%N (members (db w))
        /\ forall m b, In (m, b) l ->
                       b = (p_createdBy p =? m_users m)%N
                       /\ exists u, In u (users (db w)) /\ u_id u = m_users m)
  /\ (forall m,
        quiet w -> member_in (db w) pid actor = true ->
        In m (members (db w)) -> m_project m = pid ->
        (forall u, In u (users (db w)) -> u_id u <> m_users m) ->
        fst (getProjectMembers actor (Oid pid) w)
        = Throw (ApiError 500 "Internal server error while getting project members")).
Proof.
  split.
  - intros code l msg. unfold getProjectMembers. run_all.
    all: try discriminate.
    all: match goal with
         | |- context [flag_creators ?c ?d ?r] =>
             destruct (flag_creators c d r) as [xs|] eqn:E; cbn;
             [|discriminate]
         end.
    all: intros H; injection H as <- <- <-; clean; eexists;
      (split; [reflexivity|]); (split; [member_fact|]);
      destruct (flag_creators_ok _ _ _ _ E) as [E1 E2];
      split; [exact E1 | exact E2].
  - intros m Q Hmem Hin Hp Hgone. unfold getProjectMembers.
    unfold member_in in Hmem.
    assert (Hrow : In m (filter (fun x => m_project x =? pid)%N (members (db w)))).
    { apply filter_In. split; [exact Hin|]. apply N.eqb_eq. exact Hp. }
    unfold_more. unfold_model. calmly Q.
    destruct (project_of (db w) pid) as [p|] eqn:Hproj; [|discriminate].
    calmly Q.
    destruct (p_createdBy p =? actor)%N; calmly Q;
      [|cbn in Hmem; destruct (membership (db w) pid actor); [|discriminate];
        calmly Q].
    all: match goal with
         | |- context [flag_creators ?c ?d ?r] =>
             destruct (flag_creators_gone c d r m Hrow Hgone) as [e ->]
         end; reflexivity.
Qed.

Lemma getProjectMembers_lists_witness :
  (exists p,
      project_of sample 1 = Some p
      /\ member_in sample 1 11 = true
      /\ map fst [(mkMember 50 10 1 "admin", true);
                  (mkMember 51 11 1 "member", false);
                  (mkMember 52 12 1 "project_admin", false)]
         = filter (fun m => m_project m =? 1)%N (members sample)
      /\ forall m b,
           In (m, b) [(mkMember 50 10 1 "admin", true);
                      (mkMember 51 11 1 "member", false);
                      (mkMember 52 12 1 "project_admin", false)] ->
           b = (p_createdBy p =? m_users m)%N
           /\ exists u, In u (users sample) /\ u_id u = m_users m)
  /\ fst (getProjectMembers 11 (Oid 1) (calm (without_user 12 sample)))
     = Throw (ApiError 500 "Internal server error while getting project members").
Proof.
  split.
  - exact (proj1 (getProjectMembers_lists 11 1 (calm sample)) 200%N _ _ eq_refl).
  - apply (proj2 (getProjectMembers_lists 11 1 (calm (without_user 12 sample)))
             (mkMember 52 12 1 "project_admin")).
    + apply calm_quiet.
    + reflexivity.
    + cbn. auto.
    + reflexivity.
    + intros u Hu E. cbn in Hu, E.
      destruct Hu as [<-|[<-|[<-|[]]]]; discriminate E.
Defined.

Lemma project_of_id d id p : project_of d id = Some p -> p_id p = id.
Proof.
  unfold project_of. intros H. apply find_some in H. destruct H as [_ H].
  apply N.eqb_eq. exact H.
Qed.

(** X17. [getTaskById] never answers. Its membership test is the resolver
    of [utils/helper.js], which throws; before it, a missing task is
    refused and a task whose project is gone fails on reading [_id] of
    [null]. Whatever the input and whatever fails, the call throws, the
    400 for a malformed id and the 500 of the catch-all otherwise, so the
    404 and the 403 of the handler never reach the caller. *)
Theorem getTaskById_never_answers (actor : ObjectId) (taskId : RawId) (w : World) :
  fst (getTaskById actor taskId w)
  = Throw (match taskId with
           | NotOid _ => ApiError 400 "Invalid task ID"
           | Oid _ => ApiError 500 "Internal server error while getting task"
           end)
  /\ db (snd (getTaskById actor taskId w)) = db w.
Proof.
  unfold getTaskById. destruct taskId as [tid|]; [|split; reflexivity].
  unfold_helper. run_all; split; reflexivity.
Qed.

(* --------------------------------------------------------------------- *)
(** ** Updating a project *)
(* --------------------------------------------------------------------- *)

Ltac admin_fact :=
  clean; unfold admin_in;
  repeat match goal with
         | H : project_of _ _ = _ |- _ => rewrite H
         | H : membership _ _ _ = _ |- _ => rewrite H
         | H : (_ =? _)%N = _ |- _ => rewrite H
         end;
  cbn; try reflexivity;
  match goal with
  | H : negb (if ?b then true else false) = false |- _ =>
      destruct b; [reflexivity | discriminate H]
  end.

(** The exits of [updateProject], whatever fails. *)
Lemma updateProject_exits (actor : ObjectId) (projectId : RawId)
      (name description : option string) (w : World) :
  let r := updateProject actor projectId name description w in
  ((exists e, fst r = Throw e) /\ db (snd r) = db w)
  \/ (exists pid p,
         projectId = Oid pid /\ project_of (db w) pid = Some p
         /\ admin_in (db w) pid actor = true
         /\ name_taken_by_other pid (name_update name) (db w) = false
         /\ db (snd r) = renamed pid name description (db w)
         /\ fst r = Ok (Sent 200
                          (ProjectData
                             (project_of (renamed pid name description (db w)) pid))
                          "Project updated successfully")).
Proof.
  intros r. subst r. unfold updateProject.
  destruct projectId as [pid|]; [|left; split; [eexists|]; reflexivity].
  destruct (negb (has_name name) && negb (isSome description));
    [left; split; [eexists|]; reflexivity|].
  unfold renamed, name_update.
  run_all.
  all: try (left; split; [eexists|]; reflexivity).
  all: right; clean; do 2 eexists; split; [reflexivity|];
    split; [eassumption|]; split; [admin_fact|]; split; [|split; reflexivity].
  all: try reflexivity.
  all: match goal with
       | Hp : project_of _ _ = Some _, H : isSome _ && _ = false |- _ =>
           rewrite Hp in H; exact H
       end.
Qed.

(** X18. [updateProject] changes a project for admins only: for an actor
    who is neither the creator nor the holder of an admin row, whatever
    fails, the call throws and the committed data is unchanged. The refusal
    thrown inside the [try] reaches the caller as the 500 of the catch-all,
    never as a 403. *)
Theorem updateProject_needs_admin (actor : ObjectId) (projectId : RawId)
        (name description : option string) (w : World) :
  (forall pid, projectId = Oid pid -> admin_in (db w) pid actor = false) ->
  db (snd (updateProject actor projectId name description w)) = db w
  /\ exists code msg,
      fst (updateProject actor projectId name description w)
      = Throw (ApiError code msg)
      /\ (code = 400%N \/ code = 500%N).
Proof.
  intros H. unfold updateProject. destruct projectId as [pid|s];
    [|split; [reflexivity | do 2 eexists; split; [reflexivity | auto]]].
  destruct (negb (has_name name) && negb (isSome description));
    [split; [reflexivity | do 2 eexists; split; [reflexivity | auto]]|].
  specialize (H pid eq_refl). run_all.
  all: try (split; [reflexivity | do 2 eexists; split; [reflexivity | auto]]).
  all: denied H.
Qed.

Lemma updateProject_needs_admin_witness :
  db (snd (updateProject 12 (Oid 1) (Some "Omega") None (calm sample))) = sample
  /\ exists code msg,
      fst (updateProject 12 (Oid 1) (Some "Omega") None (calm sample))
      = Throw (ApiError code msg)
      /\ (code = 400%N \/ code = 500%N).
Proof.
  apply (updateProject_needs_admin 12 (Oid 1) (Some "Omega") None (calm sample)).
  intros pid E. injection E as <-. reflexivity.
Defined.

Lemma renamed_projects pid name description l :
  Forall2 (fun p p' => p_id p' = p_id p /\ p_createdBy p' = p_createdBy p
                       /\ (p_id p <> pid -> p' = p))
          l
          (map (fun p => if (p_id p =? pid)%N
                         then set_project (name_update name) description p else p)
               l).
Proof.
  induction l as [|p l IH]; cbn; constructor; [|exact IH].
  destruct (p_id p =? pid)%N eqn:E.
  - apply N.eqb_eq in E. unfold set_project.
    destruct (name_update name), description; cbn; repeat split; congruence.
  - repeat split.
Qed.

Lemma Forall2_same {A} (R : A -> A -> Prop) (l : list A) :
  (forall x, R x x) -> Forall2 R l l.
Proof. intros H. induction l; constructor; auto. Qed.

(** X19. [updateProject] touches nothing but the name and the description
    of the project it is given: whatever the input and whatever fails, the
    membership rows, tasks, notes and users are what they were, and the
    projects are the same in number and order, each with its id and its
    creator, every project other than the given one unchanged. *)
Theorem updateProject_frame (actor : ObjectId) (projectId : RawId)
        (name description : option string) (w : World) :
  let d' := db (snd (updateProject actor projectId name description w)) in
  members d' = members (db w) /\ tasks d' = tasks (db w)
  /\ notes d' = notes (db w) /\ users d' = users (db w)
  /\ Forall2 (fun p p' => p_id p' = p_id p /\ p_createdBy p' = p_createdBy p
                          /\ (projectId <> Oid (p_id p) -> p' = p))
             (projects (db w)) (projects d').
Proof.
  intros d'. subst d'.
  destruct (updateProject_exits actor projectId name description w)
    as [[_ D]|(pid & p & -> & _ & _ & _ & D & _)]; rewrite D.
  - repeat (split; [reflexivity|]). apply Forall2_same. auto.
  - repeat (split; [reflexivity|]). cbn.
    eapply Forall2_impl; [|apply renamed_projects].
    cbn. intros a b (E1 & E2 & E3). repeat (split; [assumption|]).
    intros Hne. apply E3. congruence.
Qed.

(** X20. What a successful [updateProject] stores. Without failures, for
    an admin of an existing project, a body with a name that is not blank
    or with a description, and no other project of the new name, the reply
    is the 200 with the updated project, which is the stored one. Its name
    is the one sent (up to surrounding blanks) when that is not blank and
    the old one otherwise, so a blank name sent along with a description is
    ignored, not refused; its description is the one sent, if any. *)
Theorem updateProject_applies (actor pid : ObjectId) (p : Project)
        (name description : option string) (w : World) :
  quiet w ->
  project_of (db w) pid = Some p ->
  admin_in (db w) pid actor = true ->
  has_name name = true \/ description <> None ->
  name_taken_by_other pid (name_update name) (db w) = false ->
  exists p',
    fst (updateProject actor (Oid pid) name description w)
    = Ok (Sent 200 (ProjectData (Some p')) "Project updated successfully")
    /\ project_of (db (snd (updateProject actor (Oid pid) name description w))) pid
       = Some p'
    /\ (has_name name = false -> p_name p' = p_name p)
    /\ (forall n, name = Some n -> has_name name = true ->
                  Js.trim (p_name p') = Js.trim n)
    /\ p_description p' = default (p_description p) description
    /\ p_id p' = pid /\ p_createdBy p' = p_createdBy p.
Proof.
  intros Q Hp Ha Hbody Hfree.
  assert (Hgate : negb (has_name name) && negb (isSome description) = false).
  { destruct Hbody as [->|Hd]; [reflexivity|].
    destruct description; [apply andb_false_r | congruence]. }
  assert (Hnew : project_of (renamed pid name description (db w)) pid
                 = Some (set_project (name_update name) description p)).
  { unfold renamed, project_of in *. cbn. revert Hp.
    induction (projects (db w)) as [|a l IH]; cbn; [discriminate|].
    destruct (p_id a =? pid)%N eqn:E.
    - intros H. injection H as ->. 
      assert (E' : (p_id (set_project (name_update name) description p) =? pid)%N
                   = true).
      { unfold set_project. destruct (name_update name), description; exact E. }
      rewrite E'. reflexivity.
    - rewrite E. exact IH. }
  exists (set_project (name_update name) description p).
  assert (R : exists w',
             updateProject actor (Oid pid) name description w
             = (Ok (Sent 200
                      (ProjectData (Some (set_project (name_update name)
                                            description p)))
                      "Project updated successfully"),
                set_db (renamed pid name description (db w)) w')).
  { unfold updateProject. rewrite Hgate. fold (name_update name).
    unfold admin_in in Ha. rewrite Hp in Ha. rewrite <- Hnew.
    unfold renamed. unfold_more. unfold_model. calmly Q.
    destruct (p_createdBy p =? actor)%N; calmly Q.
    - rewrite Hfree. cbn. eexists. reflexivity.
    - cbn in Ha. destruct (membership (db w) pid actor) as [m|]; [|discriminate].
      calmly Q. rewrite Ha. calmly Q. rewrite Hfree. cbn. eexists. reflexivity. }
  destruct R as [w' R].
  rewrite R. cbn. split; [reflexivity|]. split; [exact Hnew|].
  apply project_of_id in Hp.
  unfold set_project, name_update.
  split; [intros ->; destruct description; reflexivity|].
  split; [intros n -> ->; destruct description; reflexivity|].
  destruct (has_name name), name, description; cbn; auto.
Qed.

Lemma updateProject_applies_witness :
  exists p',
    fst (updateProject 10 (Oid 1) (Some "  ") (Some "plans") (calm sample))
    = Ok (Sent 200 (ProjectData (Some p')) "Project updated successfully")
    /\ project_of
         (db (snd (updateProject 10 (Oid 1) (Some "  ") (Some "plans")
                     (calm sample)))) 1
       = Some p'
    /\ (has_name (Some "  ") = false -> p_name p' = p_name alpha)
    /\ (forall n, Some "  " = Some n -> has_name (Some "  ") = true ->
                  Js.trim (p_name p') = Js.trim n)
    /\ p_description p' = default (p_description alpha) (Some "plans")
    /\ p_id p' = 1%N /\ p_createdBy p' = p_createdBy alpha.
Proof.
  apply (updateProject_applies 10 1 alpha (Some "  ") (Some "plans") (calm sample)).
  - apply calm_quiet.
  - reflexivity.
  - reflexivity.
  - right. discriminate.
  - reflexivity.
Defined.

(* --------------------------------------------------------------------- *)
(** ** The life of a project *)
(* --------------------------------------------------------------------- *)

Lemma project_of_insert d p :
  project_of d (p_id p) = None ->
  project_of (insert_project p d) (p_id p) = Some p.
Proof.
  unfold project_of, insert_project. cbn.
  induction (projects d) as [|a l IH]; cbn.
  - rewrite N.eqb_refl. reflexivity.
  - destruct (p_id a =? p_id p)%N; [discriminate | exact IH].
Qed.

Lemma membership_other d m pid uid :
  (forall x, In x (members d) -> m_project x <> pid) ->
  m_users m <> uid ->
  membership (insert_member m d) pid uid = None.
Proof.
  intros Hfresh Hne. unfold membership, insert_member. cbn.
  induction (members d) as [|a l IH]; cbn.
  - unfold member_of. replace (m_users m =? uid)%N with false;
      [rewrite andb_false_r; reflexivity|].
    symmetry. apply N.eqb_neq. exact Hne.
  - replace (member_of pid uid a) with false.
    + apply IH. intros x Hx. apply Hfresh. right. exact Hx.
    + symmetry. unfold member_of.
      replace (m_project a =? pid)%N with false; [reflexivity|].
      symmetry. apply N.eqb_neq. apply Hfresh. left. reflexivity.
Qed.

(** X21. Creating and resolving compose. After [createProject] has
    answered, with an id no project carries yet, the new project is found
    under that id, its creator passes [isProjectMember] and
    [isProjectAdmin], and when no membership row referred to the id before,
    nobody else passes [isProjectMember]: a new project has its creator as
    its only member. *)
Theorem createProject_then_resolve (actor : ObjectId) (name : string)
        (description : option string) (w w2 : World) (reply : Reply) :
  fst (createProject actor name description w) = Ok reply ->
  project_of (db w) (nextId w) = None ->
  db w2 = db (snd (createProject actor name description w)) ->
  quiet w2 ->
  (exists p, project_of (db w2) (nextId w) = Some p
             /\ p_name p = name /\ p_createdBy p = actor)
  /\ fst (isProjectMember (Oid (nextId w)) (Oid actor) w2) = Ok true
  /\ (exists v, fst (isProjectAdmin (Oid (nextId w)) (Oid actor) w2) = Ok v
                /\ Js.is_true v = true)
  /\ ((forall m, In m (members (db w)) -> m_project m <> nextId w) ->
      forall uid, uid <> actor ->
                  fst (isProjectMember (Oid (nextId w)) (Oid uid) w2) = Ok false).
Proof.
  intros Hok Hfresh E2 Q.
  destruct (createProject_outcomes actor name description w)
    as [(p & m & created & _ & D & Hi & Hn & Hc & Hp & Hu & Hr)|[[e E] _]];
    [|rewrite Hok in E; discriminate].
  assert (P2 : project_of (db w2) (nextId w) = Some p).
  { rewrite E2, D. rewrite <- Hi. apply project_of_insert. rewrite Hi.
    exact Hfresh. }
  split; [exists p; auto|]. split; [|split].
  - destruct (isProjectMember_quiet (nextId w) actor w2 Q) as (k & ->). cbn.
    unfold member_in. rewrite P2, Hc, N.eqb_refl. reflexivity.
  - destruct (isProjectAdmin_quiet (nextId w) actor w2 Q) as (v & k & -> & T).
    exists v. split; [reflexivity|]. rewrite T. unfold admin_in.
    rewrite P2, Hc, N.eqb_refl. reflexivity.
  - intros Hrows uid Hne.
    destruct (isProjectMember_quiet (nextId w) uid w2 Q) as (k & ->). cbn.
    unfold member_in. rewrite P2, Hc.
    replace (actor =? uid)%N with false
      by (symmetry; apply N.eqb_neq; congruence).
    rewrite E2, D.
    rewrite (membership_other (insert_project p (db w)) m (nextId w) uid);
      [reflexivity | exact Hrows | congruence].
Qed.

Lemma createProject_then_resolve_witness :
  (exists p, project_of (insert_member (mkMember 101 13 100 "admin")
                           (insert_project (mkProject 100 "Beta" "" 13) sample))
                        100 = Some p
             /\ p_name p = "Beta" /\ p_createdBy p = 13%N)
  /\ fst (isProjectMember (Oid 100) (Oid 13)
            (calm (insert_member (mkMember 101 13 100 "admin")
                     (insert_project (mkProject 100 "Beta" "" 13) sample))))
     = Ok true
  /\ (exists v,
         fst (isProjectAdmin (Oid 100) (Oid 13)
                (calm (insert_member (mkMember 101 13 100 "admin")
                         (insert_project (mkProject 100 "Beta" "" 13) sample))))
         = Ok v
         /\ Js.is_true v = true)
  /\ ((forall m, In m (members sample) -> m_project m <> 100%N) ->
      forall uid, uid <> 13%N ->
                  fst (isProjectMember (Oid 100) (Oid uid)
                         (calm (insert_member (mkMember 101 13 100 "admin")
                                  (insert_project (mkProject 100 "Beta" "" 13)
                                     sample))))
                  = Ok false).
Proof.
  exact (createProject_then_resolve 13 "Beta" None (calm sample)
           (calm (insert_member (mkMember 101 13 100 "admin")
                    (insert_project (mkProject 100 "Beta" "" 13) sample)))
           _ eq_refl eq_refl eq_refl (calm_quiet _)).
Defined.

(** X22. Deleting and reading compose. After [deleteProject] has answered
    with its 200, nobody passes [isProjectMember] or [isProjectAdmin] for
    the project any more, [getProjectById] throws its 404 for everybody,
    and no listing of [getProjects] contains a project of that id. *)
Theorem deleteProject_then_read (actor pid : ObjectId) (w w2 : World) :
  fst (deleteProject actor (Oid pid) w) = Ok deleted ->
  db w2 = db (snd (deleteProject actor (Oid pid) w)) ->
  quiet w2 ->
  forall uid,
    fst (isProjectMember (Oid pid) (Oid uid) w2) = Ok false
    /\ (exists v, fst (isProjectAdmin (Oid pid) (Oid uid) w2) = Ok v
                  /\ Js.is_true v = false)
    /\ fst (getProjectById uid (Oid pid) w2)
       = Throw (ApiError 404 "Project not found")
    /\ forall code l msg,
         fst (getProjects uid w2) = Ok (Respond code l msg) ->
         forall p, In p l -> p_id p <> pid.
Proof.
  intros Hok E2 Q uid.
  destruct (deleteProject_outcomes actor (Oid pid) w)
    as [(pid' & Ep & _ & D)|[Hno _]]; [|contradiction].
  injection Ep as <-.
  assert (P2 : project_of (db w2) pid = None).
  { rewrite E2, D. apply cascade_project. }
  split; [|split; [|split]].
  - destruct (isProjectMember_quiet pid uid w2 Q) as (k & ->). cbn.
    unfold member_in. rewrite P2. reflexivity.
  - destruct (isProjectAdmin_quiet pid uid w2 Q) as (v & k & -> & T).
    exists v. split; [reflexivity|]. rewrite T. unfold admin_in.
    rewrite P2. reflexivity.
  - rewrite (getProjectById_quiet uid (Oid pid) w2 Q), P2. reflexivity.
  - intros code l msg Hl p Hin.
    apply (getProjects_listing uid w2 code l msg Hl p) in Hin.
    destruct Hin as [Hin _]. rewrite E2, D in Hin.
    apply cascade_projects in Hin. tauto.
Qed.

Lemma deleteProject_then_read_witness :
  fst (isProjectMember (Oid 1) (Oid 11) (calm (cascade 1 sample))) = Ok false
  /\ (exists v, fst (isProjectAdmin (Oid 1) (Oid 11) (calm (cascade 1 sample)))
                = Ok v
                /\ Js.is_true v = false)
  /\ fst (getProjectById 11 (Oid 1) (calm (cascade 1 sample)))
     = Throw (ApiError 404 "Project not found")
  /\ forall code l msg,
       fst (getProjects 11 (calm (cascade 1 sample))) = Ok (Respond code l msg) ->
       forall p, In p l -> p_id p <> 1%N.
Proof.
  exact (deleteProject_then_read 10 1 (calm sample) (calm (cascade 1 sample))
           eq_refl eq_refl (calm_quiet _) 11).
Defined.

(* --------------------------------------------------------------------- *)
(** ** Creating and deleting a task *)
(* --------------------------------------------------------------------- *)

(** X27. [createTask] never creates a task. Past the checks of the id and
    of the title, the project is looked up and the membership test, the
    resolver of [utils/helper.js], throws before the session is opened.
    Whatever the input and whatever fails, the call throws, a 400 for a
    malformed id or a missing or blank title and the 500 of the catch-all
    otherwise, and the committed data is unchanged. *)
Theorem createTask_never_creates (Date_parse : string -> option Z)
        (actor : ObjectId) (projectId : RawId) (body : TaskBody) (w : World) :
  fst (createTask Date_parse actor projectId body w)
  = Throw (match projectId with
           | NotOid _ => ApiError 400 "Invalid project ID"
           | Oid _ =>
               if Js.truthy (b_title body)
                  && Js.nonempty (Js.trim (default "" (b_title body)))
               then ApiError 500 "Internal server error while creating task"
               else ApiError 400 "Title is required"
           end)
  /\ db (snd (createTask Date_parse actor projectId body w)) = db w.
Proof.
  unfold createTask. cbv zeta. destruct projectId as [pid|]; [|split; reflexivity].
  destruct (b_title body) as [title|]; [|split; reflexivity].
  cbn [Js.truthy default].
  destruct (Js.nonempty title); cbn [negb orb andb]; [|split; reflexivity].
  destruct (Js.nonempty (Js.trim title)); cbn [negb]; [|split; reflexivity].
  unfold_helper. run_all; split; reflexivity.
Qed.

(** At a well-formed request of a member. *)
Example createTask_by_member :
  fst (createTask toy_parse 11 (Oid 1) (title_body "  Review  ") (calm sample))
  = Throw (ApiError 500 "Internal server error while creating task")
  /\ tasks (db (snd (createTask toy_parse 11 (Oid 1) (title_body "  Review  ")
                       (calm sample))))
     = tasks sample.
Proof. split; reflexivity. Qed.

(** X30. [deleteTask] never deletes. The task is read with its creator
    populated and lean, so the test [task.assignedBy.equals] finds no such
    method and throws; the catch-all turns that, like the 404 for a missing
    task, into its 500. Whatever the input and whatever fails, the call
    throws, 400 for a malformed id and 500 otherwise, and the committed
    data is unchanged. *)
Theorem deleteTask_never_deletes (actor : ObjectId) (taskId : RawId) (w : World) :
  db (snd (deleteTask actor taskId w)) = db w
  /\ fst (deleteTask actor taskId w)
     = Throw (match taskId with
              | NotOid _ => ApiError 400 "Invalid task ID"
              | Oid _ => ApiError 500 "Internal server error while deleting task"
              end).
Proof.
  unfold deleteTask. destruct taskId as [tid|s]; [|split; reflexivity].
  run_all; split; reflexivity.
Qed.
